(** * eeprom-93cxx: command headers, transactions and orchestration

    A shallow embedding of [eeprom-93cxx.c], the spidev based utility for
    flashing 93Cxx serial EEPROMs, and the properties of its command
    protocol.

    Conventions.
    - C integers are [Z]; every conversion to [uint8_t], [uint16_t] or
      [__u32] the C code performs is written out as a reduction modulo
      [2^8], [2^16] or [2^32].
    - A buffer is a [list Z] of bytes.
    - [ioctl(fd, SPI_IOC_MESSAGE(n), xfer)] is the one effect of the
      program: it is an operation of the class [SpiBus] over an abstract
      bus state, threaded explicitly through every function.
    - The only unbounded loop, the ready poll of [eeprom_program_array],
      takes a fuel argument bounding the number of polls of one wait. *)

From Stdlib Require Import ZArith List Bool Lia String Ascii.
Import ListNotations.
Local Open Scope Z_scope.

(** ** Machine integers *)

Definition uint8 (z : Z) : Z := z mod 2 ^ 8.
Definition uint16 (z : Z) : Z := z mod 2 ^ 16.
Definition uint32 (z : Z) : Z := z mod 2 ^ 32.

(** ** Constants of the command set *)

Definition OPCODE_READ : Z := 2.
Definition OPCODE_WRITE : Z := 1.
Definition OPCODE_EWEN : Z := 0.
Definition SUBCODE_EWEN : Z := 3.
Definition SUBCODE_ERAL : Z := 2.
Definition SUBCODE_EWDS : Z := 0.

Inductive eeprom_action : Type :=
| NONE
| EEPROM_READ
| EEPROM_ERASE
| EEPROM_WRITE.

Definition EEPROM_X8 : Z := 1.
Definition EEPROM_X16 : Z := 2.
Definition EEPROM_ORG : Z := Z.lor EEPROM_X8 EEPROM_X16.

(** [struct eeprom]. *)
Record eeprom : Type := mk_eeprom {
  name : string;
  spi_fd : Z;
  size : Z;        (* uint16_t *)
  addr_bits : Z;   (* uint8_t *)
  flags : Z;       (* uint8_t *)
  is_x16 : bool
}.

(** [struct eeprom_cfg]; the [eeprom] pointer is the record itself. *)
Record eeprom_cfg : Type := mk_eeprom_cfg {
  filename : string;
  spidev : string;
  cfg_eeprom : eeprom;
  action : eeprom_action;
  burst_read : bool
}.

(** The fields of [struct spi_ioc_transfer] the program sets.  [tx_buf] is
    the bytes found at the transmit pointer ([None] for a null pointer),
    [rx_buf] tells whether a receive pointer is given: the received bytes
    are part of the result of [ioctl]. *)
Record spi_ioc_transfer : Type := mk_xfer {
  tx_buf : option (list Z);
  rx_buf : bool;
  len : Z;
  speed_hz : Z;
  bits_per_word : Z
}.

(** [{0}]: the zeroed transfer. *)
Definition xfer_zero : spi_ioc_transfer :=
  {| tx_buf := None; rx_buf := false; len := 0; speed_hz := 0;
     bits_per_word := 0 |}.

Definition set_speed_hz (x : spi_ioc_transfer) (hz : Z) : spi_ioc_transfer :=
  {| tx_buf := tx_buf x; rx_buf := rx_buf x; len := len x;
     speed_hz := hz; bits_per_word := bits_per_word x |}.

(** ** The header encoder *)

(** The 16-bit [command] word of [prepare_cmd]. *)
Definition command_word (e : eeprom) (cmd addr dummy_bits : Z) : Z :=
  let cmd := uint8 cmd in
  let addr := uint16 addr in
  let dummy_bits := uint8 dummy_bits in
  let bits := uint16 (addr_bits e + dummy_bits) in
  (* Add the start bit. *)
  let cmd := uint8 (Z.lor cmd (Z.shiftl 1 2)) in
  (* Mask off any extra address bits. *)
  let addr := uint16 (Z.land addr (Z.shiftl 1 bits - 1)) in
  uint16 (Z.lor (Z.shiftl cmd bits) addr).

(** [prepare_cmd]: the transfer it fills in; [txbuf[0]] and [txbuf[1]] are
    the two bytes the transfer sends. *)
Definition prepare_cmd (e : eeprom) (cmd addr dummy_bits : Z)
  : spi_ioc_transfer :=
  let command := command_word e cmd addr dummy_bits in
  let txbuf0 := uint8 (Z.shiftr command 8) in
  let txbuf1 := uint8 command in
  {| tx_buf := Some [txbuf0; txbuf1]; rx_buf := false; len := 2;
     speed_hz := 0; bits_per_word := 8 |}.

(** The value of a byte string read most significant byte first. *)
Definition be_value (l : list Z) : Z :=
  fold_left (fun acc b => acc * 256 + b) l 0.

(** The bytes a transfer sends, none for a null transmit pointer. *)
Definition tx_bytes (x : spi_ioc_transfer) : list Z :=
  match tx_buf x with
  | Some l => l
  | None => []
  end.

(** The length of a header in bits, as the bus sees it. *)
Definition header_bits (x : spi_ioc_transfer) : Z := len x * bits_per_word x.

(** ** The bus *)

(** [ioctl(fd, SPI_IOC_MESSAGE(n), xfer)] on a bus in state [d]: the value
    it returns (negative on failure), the bytes the bus delivered to the
    receive buffer of the message, and the state of the bus afterwards. *)
Class SpiBus (D : Type) : Type := {
  ioctl : D -> Z -> list spi_ioc_transfer -> Z * list Z * D
}.

(** Receiving into memory: [rx] overwrites [old] byte by byte; bytes the bus
    did not deliver keep their value, bytes past the end of [old] are
    dropped. *)
Fixpoint overlay (rx old : list Z) : list Z :=
  match old, rx with
  | [], _ => []
  | _ :: _, [] => old
  | _ :: old', r :: rx' => r :: overlay rx' old'
  end.

(** The buffer [buf] after a transfer of [n] bytes was received at
    [buf + off]. *)
Definition deposit (buf : list Z) (off n : Z) (rx : list Z) : list Z :=
  firstn (Z.to_nat off) buf
  ++ overlay (firstn (Z.to_nat n) rx) (skipn (Z.to_nat off) buf).

(** [malloc]: the content of fresh memory is unspecified in C; it is zero
    here.  A read that completes overwrites every byte the bus delivers. *)
Definition malloc (n : Z) : list Z := repeat 0 (Z.to_nat n).

Definition EXIT_FAILURE : Z := 1.

(** The result of a computation whose ready poll is given fuel: [Polling]
    when the fuel ran out inside the poll. *)
Inductive outcome (A : Type) : Type :=
| Returned (a : A)
| Polling.
Arguments Returned {A} a.
Arguments Polling {A}.

(** The status byte a status transfer leaves in [status], which starts as
    0. *)
Definition status_byte (rx : list Z) : Z :=
  match rx with
  | b :: _ => uint8 b
  | [] => 0
  end.

(** The message of [read_data]. *)
Definition read_data_msg (e : eeprom) (len addr : Z) : list spi_ioc_transfer :=
  let xfer0 := set_speed_hz (prepare_cmd e OPCODE_READ addr 1) 100000 in
  let xfer1 := {| tx_buf := None; rx_buf := true; len := uint32 len;
                  speed_hz := 100000; bits_per_word := 8 |} in
  [xfer0; xfer1].

(** The message of [read_status]. *)
Definition read_status_msg : list spi_ioc_transfer :=
  [{| tx_buf := None; rx_buf := true; len := 1; speed_hz := 100000;
      bits_per_word := 8 |}].

(** The message of [write_data]; [data] is the bytes at the pointer. *)
Definition write_data_msg (e : eeprom) (addr : Z) (data : list Z) (len : Z)
  : list spi_ioc_transfer :=
  let xfer0 := set_speed_hz (prepare_cmd e OPCODE_WRITE addr 0) 100000 in
  let xfer1 := {| tx_buf := Some (firstn (Z.to_nat (uint32 len)) data);
                  rx_buf := false; len := uint32 len;
                  speed_hz := 100000; bits_per_word := 8 |} in
  [xfer0; xfer1].

(** The message of [send_command]. *)
Definition send_command_msg (e : eeprom) (op subop : Z)
  : list spi_ioc_transfer :=
  let subcode := uint16 (Z.shiftl (uint8 subop) (addr_bits e - 2)) in
  [set_speed_hz (prepare_cmd e op subcode 0) 100000].

Section Program.

Context {D : Type} {bus : SpiBus D}.

(** ** Transaction primitives *)

(** [read_data]: the value of [ioctl] and the bytes received at [data]. *)
Definition read_data (e : eeprom) (len addr : Z) (d : D) : Z * list Z * D :=
  ioctl d (spi_fd e) (read_data_msg e len addr).

(** [read_status]: the value of [ioctl] is dropped. *)
Definition read_status (e : eeprom) (d : D) : Z * D :=
  let '(_, rx, d') := ioctl d (spi_fd e) read_status_msg in
  (status_byte rx, d').

Definition write_data (e : eeprom) (addr : Z) (data : list Z) (len : Z) (d : D)
  : Z * D :=
  let '(ret, _, d') := ioctl d (spi_fd e) (write_data_msg e addr data len) in
  (ret, d').

Definition send_command (e : eeprom) (op subop : Z) (d : D) : Z * D :=
  let '(ret, _, d') := ioctl d (spi_fd e) (send_command_msg e op subop) in
  (ret, d').

Definition enable_write (e : eeprom) (d : D) : Z * D :=
  send_command e OPCODE_EWEN SUBCODE_EWEN d.

Definition diable_write (e : eeprom) (d : D) : Z * D :=
  send_command e OPCODE_EWEN SUBCODE_EWDS d.

Definition erase_all (e : eeprom) (d : D) : Z * D :=
  send_command e OPCODE_EWEN SUBCODE_ERAL d.

(** ** Orchestration *)

(** The [for] loop of [eeprom_read] from offset [i]; [n] bounds the number
    of iterations left.  [None]: a transfer failed. *)
Fixpoint eeprom_read_loop (n : nat) (e : eeprom) (step i : Z) (buf : list Z)
  (d : D) : option (list Z) * D :=
  match n with
  | O => (Some buf, d)
  | S n' =>
      if i <? size e then
        let '(ret, rx, d') := read_data e step i d in
        if ret <? 0 then (None, d')
        else eeprom_read_loop n' e step (i + step)
               (deposit buf i (uint32 step) rx) d'
      else (Some buf, d)
  end.

(** [eeprom_read]: [out_ok] tells whether [fopen] succeeded.  The result
    is the value returned ([None] where the function ends without a
    [return]) and the bytes written to the file, if [fwrite] was reached. *)
Definition eeprom_read (config : eeprom_cfg) (out_ok : bool) (d : D)
  : option Z * option (list Z) * D :=
  let e := cfg_eeprom config in
  let step := if is_x16 e then 2 else 1 in
  let step := if burst_read config then size e else step in
  if negb out_ok then (Some EXIT_FAILURE, None, d)
  else
    let buf := malloc (size e) in
    match eeprom_read_loop (Z.to_nat (size e)) e step 0 buf d with
    | (None, d') => (Some EXIT_FAILURE, None, d')
    | (Some buf', d') => (None, Some (firstn (Z.to_nat (size e)) buf'), d')
    end.

(** [while (read_status(eeprom) != 0xff);] with at most [fuel] polls:
    [true] once 0xff was read. *)
Fixpoint wait_ready (fuel : nat) (e : eeprom) (d : D) : bool * D :=
  match fuel with
  | O => (false, d)
  | S fuel' =>
      let '(status, d') := read_status e d in
      if status =? 255 then (true, d') else wait_ready fuel' e d'
  end.

(** The [for] loop of [eeprom_program_array] from offset [i]. *)
Fixpoint eeprom_program_loop (fuel n : nat) (e : eeprom) (step i : Z)
  (data : list Z) (d : D) : outcome (option Z) * D :=
  match n with
  | O => (Returned None, d)
  | S n' =>
      if i <? size e then
        let '(ret, d1) :=
          write_data e (i / step) (skipn (Z.to_nat i) data) step d in
        if ret <? 0 then (Returned (Some EXIT_FAILURE), d1)
        else
          let '(ready, d2) := wait_ready fuel e d1 in
          if ready then eeprom_program_loop fuel n' e step (i + step) data d2
          else (Polling, d2)
      else (Returned None, d)
  end.

Definition eeprom_program_array (fuel : nat) (e : eeprom) (data : list Z)
  (d : D) : outcome (option Z) * D :=
  let step := if is_x16 e then 2 else 1 in
  eeprom_program_loop fuel (Z.to_nat (size e)) e step 0 data d.

(** [eeprom_write]: [in_file] is the content of the input file, [None] when
    it cannot be opened.  The value of [eeprom_program_array] is dropped. *)
Definition eeprom_write (fuel : nat) (config : eeprom_cfg)
  (in_file : option (list Z)) (d : D) : outcome (option Z) * D :=
  let e := cfg_eeprom config in
  match in_file with
  | None => (Returned (Some EXIT_FAILURE), d)
  | Some content =>
      if negb (Z.of_nat (List.length content) =? size e)
      then (Returned (Some EXIT_FAILURE), d)
      else
        let buf := firstn (Z.to_nat (size e)) content in
        if negb (Z.of_nat (List.length buf) =? size e)
        then (Returned (Some EXIT_FAILURE), d)
        else
          let '(ret, d1) := enable_write e d in
          if ret <? 0 then (Returned (Some EXIT_FAILURE), d1)
          else
            match eeprom_program_array fuel e buf d1 with
            | (Returned _, d2) => (Returned None, d2)
            | (Polling, d2) => (Polling, d2)
            end
  end.

Definition eeprom_erase (config : eeprom_cfg) (d : D) : option Z * D :=
  let e := cfg_eeprom config in
  let '(ret, d1) := enable_write e d in
  if ret <? 0 then (Some EXIT_FAILURE, d1)
  else
    let '(ret, d2) := erase_all e d1 in
    if ret <? 0 then (Some EXIT_FAILURE, d2)
    else (None, d2).

(** What a run of the tool leaves behind. *)
Record run_result : Type := mk_run_result {
  run_value : outcome (option Z);
  run_file : option (list Z);
  run_bus : D
}.

(** [eeprom_run] once the descriptor [spif] is known: [spif] is the value
    of [init_spi_master].  [out_ok] and [in_file] are the files of
    [eeprom_read] and [eeprom_write]. *)
Definition eeprom_run (fuel : nat) (config : eeprom_cfg) (spif : Z)
  (out_ok : bool) (in_file : option (list Z)) (d : D) : run_result :=
  if spif <? 0 then mk_run_result (Returned (Some EXIT_FAILURE)) None d
  else
    let e := cfg_eeprom config in
    let e := {| name := name e; spi_fd := spif; size := size e;
                addr_bits := addr_bits e; flags := flags e;
                is_x16 := is_x16 e |} in
    let config := {| filename := filename config; spidev := spidev config;
                     cfg_eeprom := e; action := action config;
                     burst_read := burst_read config |} in
    match action config with
    | EEPROM_READ =>
        let '(v, f, d') := eeprom_read config out_ok d in
        mk_run_result (Returned v) f d'
    | EEPROM_WRITE =>
        let '(v, d') := eeprom_write fuel config in_file d in
        mk_run_result v None d'
    | EEPROM_ERASE =>
        let '(v, d') := eeprom_erase config d in
        mk_run_result (Returned v) None d'
    | NONE => mk_run_result (Returned (Some 0)) None d
    end.

End Program.

(** ** The catalog and the command line *)

(** [tolower] on the C locale. *)
Definition tolower (c : ascii) : Z :=
  let n := Z.of_nat (nat_of_ascii c) in
  if (65 <=? n) && (n <=? 90) then n + 32 else n.

(** [strcasecmp]: the difference of the first pair of characters that
    differ once lowered, 0 for none. *)
Fixpoint strcasecmp (s1 s2 : string) : Z :=
  match s1, s2 with
  | EmptyString, EmptyString => 0
  | EmptyString, String c2 _ => 0 - tolower c2
  | String c1 _, EmptyString => tolower c1
  | String c1 r1, String c2 r2 =>
      let diff := tolower c1 - tolower c2 in
      if diff =? 0 then strcasecmp r1 r2 else diff
  end.

(** [eeprom_types_list], with its terminating entry of size 0. *)
Definition eeprom_types_list : list eeprom :=
  [ {| name := "93c66"; spi_fd := 0; size := 512; addr_bits := 9;
       flags := EEPROM_ORG; is_x16 := false |};
    {| name := "93c56"; spi_fd := 0; size := 256; addr_bits := 8;
       flags := EEPROM_ORG; is_x16 := false |};
    {| name := "93c46"; spi_fd := 0; size := 128; addr_bits := 7;
       flags := EEPROM_ORG; is_x16 := false |};
    {| name := "93c06"; spi_fd := 0; size := 32; addr_bits := 6;
       flags := EEPROM_X16; is_x16 := false |};
    {| name := ""; spi_fd := 0; size := 0; addr_bits := 0;
       flags := 0; is_x16 := false |} ].

(** The [while (eeprom->size)] walk of [eeprom_find] over a list. *)
Fixpoint eeprom_find_from (l : list eeprom) (type : string) : option eeprom :=
  match l with
  | [] => None
  | e :: rest =>
      if size e =? 0 then None
      else if strcasecmp (name e) type =? 0 then Some e
      else eeprom_find_from rest type
  end.

Definition eeprom_find (type : string) : option eeprom :=
  eeprom_find_from eeprom_types_list type.

(** One result of [getopt_long]: the option found, with [atoi(optarg)]
    already taken for [-b] and [-s].  [Opt_x16] and [Opt_burst] are the
    flag options, which store 1 and make [getopt_long] return 0. *)
Inductive getopt_result : Type :=
| Opt_x16
| Opt_burst
| Opt_t (optarg : string)
| Opt_D (optarg : string)
| Opt_b (n : Z)
| Opt_s (n : Z)
| Opt_r (optarg : string)
| Opt_w (optarg : string)
| Opt_e
| Opt_h
| Opt_other.

(** The locals of [main]. *)
Record main_locals : Type := mk_main_locals {
  eeprom_type : string;
  x16 : Z;
  burst : Z;
  parameter_specified : bool;
  type_specified : bool;
  config : eeprom_cfg
}.

Definition set_eeprom (c : eeprom_cfg) (e : eeprom) : eeprom_cfg :=
  {| filename := filename c; spidev := spidev c; cfg_eeprom := e;
     action := action c; burst_read := burst_read c |}.

Definition set_addr_bits (e : eeprom) (n : Z) : eeprom :=
  {| name := name e; spi_fd := spi_fd e; size := size e;
     addr_bits := uint8 n; flags := flags e; is_x16 := is_x16 e |}.

Definition set_size (e : eeprom) (n : Z) : eeprom :=
  {| name := name e; spi_fd := spi_fd e; size := uint16 n;
     addr_bits := addr_bits e; flags := flags e; is_x16 := is_x16 e |}.

Definition set_is_x16 (e : eeprom) (b : bool) : eeprom :=
  {| name := name e; spi_fd := spi_fd e; size := size e;
     addr_bits := addr_bits e; flags := flags e; is_x16 := b |}.

Definition set_file_action (c : eeprom_cfg) (f : string) (a : eeprom_action)
  : eeprom_cfg :=
  {| filename := f; spidev := spidev c; cfg_eeprom := cfg_eeprom c;
     action := a; burst_read := burst_read c |}.

(** Start with some defaults. *)
Definition main_init : main_locals :=
  {| eeprom_type := ""; x16 := 0; burst := 0;
     parameter_specified := false; type_specified := false;
     config :=
       {| filename := ""; spidev := "/dev/spidev1.0";
          cfg_eeprom :=
            {| name := "custom"; spi_fd := 0; size := 256; addr_bits := 8;
               flags := EEPROM_ORG; is_x16 := false |};
          action := NONE; burst_read := false |} |}.

(** The [switch] of the option loop; [inl] is a call of [exit]. *)
Definition main_option (m : main_locals) (opt : getopt_result)
  : Z + main_locals :=
  let c := config m in
  let upd (et : string) (x b : Z) (ps ts : bool) (c : eeprom_cfg) :=
    inr {| eeprom_type := et; x16 := x; burst := b;
           parameter_specified := ps; type_specified := ts; config := c |} in
  match opt with
  | Opt_x16 =>
      upd (eeprom_type m) 1 (burst m) (parameter_specified m)
        (type_specified m) c
  | Opt_burst =>
      upd (eeprom_type m) (x16 m) 1 (parameter_specified m)
        (type_specified m) c
  | Opt_t optarg =>
      upd optarg (x16 m) (burst m) (parameter_specified m) true c
  | Opt_D optarg =>
      upd (eeprom_type m) (x16 m) (burst m) (parameter_specified m)
        (type_specified m)
        {| filename := filename c; spidev := optarg;
           cfg_eeprom := cfg_eeprom c; action := action c;
           burst_read := burst_read c |}
  | Opt_b n =>
      upd (eeprom_type m) (x16 m) (burst m) true (type_specified m)
        (set_eeprom c (set_addr_bits (cfg_eeprom c) n))
  | Opt_s n =>
      upd (eeprom_type m) (x16 m) (burst m) true (type_specified m)
        (set_eeprom c (set_size (cfg_eeprom c) n))
  | Opt_r optarg =>
      upd (eeprom_type m) (x16 m) (burst m) (parameter_specified m)
        (type_specified m) (set_file_action c optarg EEPROM_READ)
  | Opt_w optarg =>
      upd (eeprom_type m) (x16 m) (burst m) (parameter_specified m)
        (type_specified m) (set_file_action c optarg EEPROM_WRITE)
  | Opt_e =>
      upd (eeprom_type m) (x16 m) (burst m) (parameter_specified m)
        (type_specified m) (set_file_action c (filename c) EEPROM_ERASE)
  | Opt_h => inl 0
  | Opt_other => inl EXIT_FAILURE
  end.

(** The option loop of [main]. *)
Fixpoint main_options (m : main_locals) (opts : list getopt_result)
  : Z + main_locals :=
  match opts with
  | [] => inr m
  | opt :: rest =>
      match main_option m opt with
      | inl code => inl code
      | inr m' => main_options m' rest
      end
  end.

(** [main] from the end of the option loop to the call of
    [sanitize_input]: the profile is finalized here. *)
Definition main_finalize (m : main_locals) : Z + eeprom_cfg :=
  let is16 := negb (x16 m =? 0) in
  let c := set_eeprom (config m) (set_is_x16 (cfg_eeprom (config m)) is16) in
  let c := {| filename := filename c; spidev := spidev c;
              cfg_eeprom := cfg_eeprom c; action := action c;
              burst_read := negb (burst m =? 0) |} in
  if type_specified m && parameter_specified m then inl EXIT_FAILURE
  else if type_specified m then
    match eeprom_find (eeprom_type m) with
    | None => inl EXIT_FAILURE
    | Some eepromy =>
        let e := set_is_x16 eepromy is16 in
        (* x16 mode uses one less address bits than x8 *)
        let e := if negb (x16 m =? 0)
                 then set_addr_bits e (addr_bits e - 1) else e in
        inr (set_eeprom c e)
    end
  else inr c.

(** The profile [main] hands to [sanitize_input] for a command line. *)
Definition main_profile (opts : list getopt_result) : Z + eeprom_cfg :=
  match main_options main_init opts with
  | inl code => inl code
  | inr m => main_finalize m
  end.

(** [sanitize_input]: [Some (-1)] where it returns -1, [None] where it
    reaches its end without a [return]. *)
Definition sanitize_input (config : eeprom_cfg) : option Z :=
  let e := cfg_eeprom config in
  if size e =? 0 then Some (-1)
  else if negb (Z.land (size e) (size e - 1) =? 0) then Some (-1)
  else if (addr_bits e <? 5) || (addr_bits e >? 9) then Some (-1)
  else if is_x16 e && negb (negb (Z.land (flags e) EEPROM_X16 =? 0))
  then Some (-1)
  else if negb (is_x16 e) && negb (negb (Z.land (flags e) EEPROM_X8 =? 0))
  then Some (-1)
  else None.

(** ** The bus with a journal *)

(** One call of [ioctl]: the message and what the bus answered. *)
Record bus_event : Type := mk_event {
  ev_fd : Z;
  ev_msg : list spi_ioc_transfer;
  ev_ret : Z;
  ev_rx : list Z
}.

(** A bus together with the journal of the calls made on it, oldest
    first. *)
Record logged (D : Type) : Type := mk_logged {
  journal : list bus_event;
  inner : D
}.
Arguments mk_logged {D} journal inner.
Arguments journal {D} l.
Arguments inner {D} l.

#[export] Instance logged_bus {D : Type} {bus : SpiBus D} : SpiBus (logged D) := {
  ioctl l fd msg :=
    let '(ret, rx, d') := ioctl (inner l) fd msg in
    (ret, rx, mk_logged (journal l ++ [mk_event fd msg ret rx]) d')
}.

(** A bus with an empty journal. *)
Definition start_log {D : Type} (d : D) : logged D := mk_logged [] d.

(** A call that carried a data phase to transmit: a [write_data]. *)
Definition is_write (ev : bus_event) : bool :=
  match ev_msg ev with
  | [_; x] => match tx_buf x with Some _ => true | None => false end
  | _ => false
  end.

(** A call of [read_status] that found 0xff. *)
Definition is_ready (ev : bus_event) : bool :=
  match ev_msg ev with
  | [x] =>
      match tx_buf x with
      | None => rx_buf x && (status_byte (ev_rx ev) =? 255)
      | Some _ => false
      end
  | _ => false
  end.

(** The poll discipline as an automaton over the journal: [Ready] when no
    write is waiting for its 0xff, [Pending] when one is, [Violated] once
    a write was issued while another was pending. *)
Inductive discipline : Type :=
| Ready
| Pending
| Violated.

Definition discipline_step (s : discipline) (ev : bus_event) : discipline :=
  match s with
  | Violated => Violated
  | Ready => if is_write ev then Pending else Ready
  | Pending =>
      if is_write ev then Violated
      else if is_ready ev then Ready else Pending
  end.

Definition discipline_run (s : discipline) (l : list bus_event) : discipline :=
  fold_left discipline_step l s.


(** ** A simulated chip *)

(** Modelled from the spec: the device on the bus, which is no part of the
    program.  The chip starts to interpret a command at the first high
    bit sent while it is selected (leading zero bits are transparent); the
    start bit is followed by a 2-bit opcode and an address field of
    [c_abits] bits, all most significant bit first.  The address is a word
    address: a word is one byte in the x8 organization and two in x16.  A
    read drives data out after one more clock (the dummy bit) and goes on
    to the following words while the chip stays selected.  A write is
    self-timed: the chip answers a status poll with 0xff once the cycle is
    over.  Opcode 0 is the control group, told apart by the two highest
    bits of the address field: 11 enables programming, 00 disables it, 10
    erases the array to 0xff. *)
Record chip : Type := mk_chip {
  c_abits : Z;      (* width of the address field *)
  c_x16 : bool;     (* organization *)
  c_tw : nat;       (* status polls a write or erase cycle lasts *)
  c_mem : Z -> Z;   (* the array, byte by byte in transfer order *)
  c_wen : bool;     (* programming enabled *)
  c_busy : nat      (* status polls left until the chip is ready *)
}.

Definition c_wsize (c : chip) : Z := if c_x16 c then 2 else 1.

(** The size of the array in bytes. *)
Definition c_capacity (c : chip) : Z := c_wsize c * 2 ^ c_abits c.

Definition chip_update (c : chip) (mem : Z -> Z) (wen : bool) (busy : nat)
  : chip :=
  {| c_abits := c_abits c; c_x16 := c_x16 c; c_tw := c_tw c;
     c_mem := mem; c_wen := wen; c_busy := busy |}.

(** A command as the chip decodes it: [cmd_trailing] is the number of
    bits of the header that follow the address field. *)
Record command : Type := mk_command {
  cmd_opcode : Z;
  cmd_addr : Z;
  cmd_trailing : Z
}.

(** Decoding the bits of a header: the start bit is the highest bit set. *)
Definition chip_decode (abits : Z) (hdr : list Z) : option command :=
  let v := be_value hdr in
  if v <=? 0 then None
  else
    let p := Z.log2 v in
    let t := p - 2 - abits in
    if t <? 0 then None
    else Some {| cmd_opcode := Z.land (Z.shiftr v (p - 2)) 3;
                 cmd_addr := Z.land (Z.shiftr v t) (Z.ones abits);
                 cmd_trailing := t |}.

(** The [n] bytes a read from word [addr] drives out: the address counter
    wraps around at the end of the array. *)
Definition chip_read (c : chip) (addr : Z) (n : nat) : list Z :=
  map (fun k => c_mem c ((addr * c_wsize c + Z.of_nat k) mod c_capacity c))
      (seq 0 n).

(** The array after the word [addr] was written with [data]. *)
Definition chip_store (c : chip) (addr : Z) (data : list Z) : Z -> Z :=
  fun j =>
    let k := j - addr * c_wsize c in
    if (0 <=? k) && (k <? c_wsize c) then nth (Z.to_nat k) data 255
    else c_mem c j.

(** A command with no data phase. *)
Definition chip_control (c : chip) (cmd : command) : chip :=
  if negb (cmd_trailing cmd =? 0) then c
  else if cmd_opcode cmd =? 0 then
    let sub := Z.shiftr (cmd_addr cmd) (c_abits c - 2) in
    if sub =? 3 then chip_update c (c_mem c) true (c_busy c)
    else if sub =? 0 then chip_update c (c_mem c) false (c_busy c)
    else if (sub =? 2) && c_wen c
    then chip_update c (fun _ => 255) (c_wen c) (c_tw c)
    else c
  else if (cmd_opcode cmd =? 3) && c_wen c then
    chip_update c (chip_store c (cmd_addr cmd) []) (c_wen c) (c_tw c)
  else c.

(** One message on the chip.  A command sent while the chip is busy is
    ignored, and so is one the model does not know; the bytes received
    are then zero. *)
Definition chip_ioctl (c : chip) (fd : Z) (msg : list spi_ioc_transfer)
  : Z * list Z * chip :=
  match msg with
  | [x] =>
      match tx_buf x with
      | None =>
          if rx_buf x then
            (len x,
             repeat (if Nat.eqb (c_busy c) 0 then 255 else 0) (Z.to_nat (len x)),
             chip_update c (c_mem c) (c_wen c) (Nat.pred (c_busy c)))
          else (len x, [], c)
      | Some hdr =>
          match chip_decode (c_abits c) (firstn (Z.to_nat (len x)) hdr) with
          | Some cmd =>
              (len x, [],
               if Nat.eqb (c_busy c) 0 then chip_control c cmd else c)
          | None => (len x, [], c)
          end
      end
  | [x0; x1] =>
      let n := Z.to_nat (len x1) in
      let idle := (len x0 + len x1, if rx_buf x1 then repeat 0 n else [], c) in
      match chip_decode (c_abits c) (firstn (Z.to_nat (len x0)) (tx_bytes x0)) with
      | Some cmd =>
          if negb (Nat.eqb (c_busy c) 0) then idle
          else if (cmd_opcode cmd =? OPCODE_READ) && (cmd_trailing cmd =? 1)
                  && rx_buf x1
          then (len x0 + len x1, chip_read c (cmd_addr cmd) n, c)
          else if (cmd_opcode cmd =? OPCODE_WRITE) && (cmd_trailing cmd =? 0)
                  && c_wen c && (c_wsize c <=? len x1)
          then
            match tx_buf x1 with
            | Some data =>
                (len x0 + len x1, [],
                 chip_update c (chip_store c (cmd_addr cmd) data) (c_wen c)
                   (c_tw c))
            | None => idle
            end
          else idle
      | None => idle
      end
  | _ => (0, [], c)
  end.

#[export] Instance chip_bus : SpiBus chip := { ioctl := chip_ioctl }.

(** A chip that never gets ready: every status poll finds it busy. *)
Record stuck_chip : Type := mk_stuck { stuck_polls : nat }.

#[export] Instance stuck_bus : SpiBus stuck_chip := {
  ioctl c fd msg :=
    match msg with
    | [x] =>
        if rx_buf x
        then (len x, repeat 0 (Z.to_nat (len x)), mk_stuck (S (stuck_polls c)))
        else (len x, [], c)
    | _ => (0, [], c)
    end
}.

(** A bus on which every transfer fails. *)
Record dead_bus : Type := mk_dead { dead_calls : nat }.

#[export] Instance dead_bus_bus : SpiBus dead_bus := {
  ioctl c fd msg := (-1, [], mk_dead (S (dead_calls c)))
}.

(** [total] is the smallest multiple of 8 that is at least [n]. *)
Definition smallest_byte_multiple (n total : Z) : Prop :=
  total mod 8 = 0 /\ n <= total /\
  forall m, m mod 8 = 0 -> n <= m -> total <= m.

(** A profile with 5 address bits in the header, the least
    [sanitize_input] lets through. *)
Definition profile_5bit : eeprom :=
  {| name := "custom"; spi_fd := 3; size := 32; addr_bits := 5;
     flags := EEPROM_ORG; is_x16 := false |}.

(** ** Profiles, chips and predicates of the statements *)

(** The 93c46 in x8 organization. *)
Definition profile_93c46_x8 : eeprom :=
  {| name := "93c46"; spi_fd := 3; size := 128; addr_bits := 7;
     flags := EEPROM_ORG; is_x16 := false |}.

(** What a command line asks for: whether [--x16] is given, whether [-t]
    is given, the last type named, and the address bits after the
    [-b] options, starting from [dflt]. *)
Definition has_x16 (opts : list getopt_result) : bool :=
  existsb (fun o => match o with Opt_x16 => true | _ => false end) opts.

Definition has_type (opts : list getopt_result) : bool :=
  existsb (fun o => match o with Opt_t _ => true | _ => false end) opts.

Definition has_parameter (opts : list getopt_result) : bool :=
  existsb (fun o => match o with Opt_b _ | Opt_s _ => true | _ => false end)
    opts.

Definition user_type (opts : list getopt_result) (dflt : string) : string :=
  fold_left (fun t o => match o with Opt_t s => s | _ => t end) opts dflt.

Definition user_addr_bits (opts : list getopt_result) (dflt : Z) : Z :=
  fold_left (fun b o => match o with Opt_b n => uint8 n | _ => b end) opts dflt.

(** The messages the operations send. *)
Definition issued (e : eeprom) (ev : bus_event) : Prop :=
  ev_msg ev = read_status_msg \/
  (exists n a, ev_msg ev = read_data_msg e n a) \/
  (exists a data n, ev_msg ev = write_data_msg e a data n) \/
  ev_msg ev = send_command_msg e OPCODE_EWEN SUBCODE_EWEN \/
  ev_msg ev = send_command_msg e OPCODE_EWEN SUBCODE_ERAL.

(** The profile [eeprom_run] works with: the descriptor is filled in. *)
Definition with_fd (e : eeprom) (spif : Z) : eeprom :=
  {| name := name e; spi_fd := spif; size := size e;
     addr_bits := addr_bits e; flags := flags e; is_x16 := is_x16 e |}.

(** A chip with an erased array, programming disabled, whose write cycle
    lasts 2 status polls. *)
Definition blank_chip (abits : Z) (x16 : bool) : chip :=
  {| c_abits := abits; c_x16 := x16; c_tw := 2; c_mem := fun _ => 255;
     c_wen := false; c_busy := 0 |}.

(** The 93c06 as [main] finalizes it for [--x16]. *)
Definition profile_93c06_x16 : eeprom :=
  {| name := "93c06"; spi_fd := 0; size := 32; addr_bits := 5;
     flags := EEPROM_X16; is_x16 := true |}.

Definition config_of (e : eeprom) (a : eeprom_action) (burst : bool)
  : eeprom_cfg :=
  {| filename := "eeprom.bin"; spidev := "/dev/spidev2.0"; cfg_eeprom := e;
     action := a; burst_read := burst |}.

(** The [n] bytes of an array from cell [i] on. *)
Definition mem_bytes (mem : Z -> Z) (i : Z) (n : nat) : list Z :=
  map (fun k => mem (i + Z.of_nat k)) (seq 0 n).

(** A chip as the operations expect it: of the address width and
    organization of the profile, and idle. *)
Definition chip_matches (e : eeprom) (c : chip) : Prop :=
  c_abits c = addr_bits e /\ c_x16 c = is_x16 e /\ c_busy c = 0%nat.

(** An array whose cell [j] holds [j mod 256]. *)
Definition numbered_chip (abits : Z) (x16 : bool) : chip :=
  {| c_abits := abits; c_x16 := x16; c_tw := 2;
     c_mem := fun j => j mod 256; c_wen := false; c_busy := 0 |}.

(** ** Definitions for the properties of the remaining code *)

(** A string with its letters lowered, as [strcasecmp] compares it. *)
Definition lower (s : string) : list Z :=
  map tolower (list_ascii_of_string s).

(** Whether the option loop meets an option that makes [main] call
    [exit]: [--help] or an option [getopt_long] does not know. *)
Definition has_exit (opts : list getopt_result) : bool :=
  existsb (fun o => match o with Opt_h | Opt_other => true | _ => false end)
    opts.

Definition has_burst (opts : list getopt_result) : bool :=
  existsb (fun o => match o with Opt_burst => true | _ => false end) opts.

(** The size after the [-s] options, starting from [dflt]. *)
Definition user_size (opts : list getopt_result) (dflt : Z) : Z :=
  fold_left (fun b o => match o with Opt_s n => uint16 n | _ => b end) opts dflt.

(** The action after the [-r], [-w] and [-e] options. *)
Definition user_action (opts : list getopt_result) (dflt : eeprom_action)
  : eeprom_action :=
  fold_left (fun a o => match o with
                        | Opt_r _ => EEPROM_READ
                        | Opt_w _ => EEPROM_WRITE
                        | Opt_e => EEPROM_ERASE
                        | _ => a
                        end) opts dflt.

(** A bus on which every message with a data phase to transmit fails and
    every other message succeeds, delivering zero bytes. *)
Record protected_bus : Type := mk_protected { protected_calls : nat }.

#[export] Instance protected_bus_bus : SpiBus protected_bus := {
  ioctl c fd msg :=
    match msg with
    | [_; x] =>
        match tx_buf x with
        | Some _ => (-1, [], mk_protected (S (protected_calls c)))
        | None => (len x, repeat 0 (Z.to_nat (len x)),
                   mk_protected (S (protected_calls c)))
        end
    | _ => (0, [], mk_protected (S (protected_calls c)))
    end
}.

(** ** Arithmetic of the encoder *)

Lemma ones_shiftl (n : Z) : Z.shiftl 1 n - 1 = Z.ones n.
Proof. unfold Z.ones. lia. Qed.

Lemma uint16_small (z : Z) : 0 <= z < 2 ^ 16 -> uint16 z = z.
Proof. intros H. unfold uint16. now apply Z.mod_small. Qed.

Lemma uint8_small (z : Z) : 0 <= z < 2 ^ 8 -> uint8 z = z.
Proof. intros H. unfold uint8. now apply Z.mod_small. Qed.

Lemma land_ones_uint16 (a n : Z) :
  0 <= n <= 16 -> Z.land (uint16 a) (Z.ones n) = a mod 2 ^ n.
Proof.
  intros Hn. rewrite Z.land_ones by lia. unfold uint16.
  apply Z.mod_mod_divide.
  exists (2 ^ (16 - n)). rewrite <- Z.pow_add_r by lia.
  f_equal. lia.
Qed.

Lemma lor_shiftl_small (c a n : Z) :
  0 <= n -> 0 <= a < 2 ^ n -> Z.lor (Z.shiftl c n) a = c * 2 ^ n + a.
Proof.
  intros Hn Ha.
  assert (Hdisj : Z.land (Z.shiftl c n) a = 0).
  { apply Z.bits_inj'. intros k Hk. rewrite Z.land_spec, Z.bits_0.
    destruct (Z.lt_ge_cases k n) as [Hlt | Hge].
    - rewrite Z.shiftl_spec_low by lia. reflexivity.
    - assert (Hak : Z.testbit a k = false).
      { destruct (Z.eq_dec a 0) as [-> | Hnz]; [apply Z.bits_0 |].
        apply Z.bits_above_log2; [lia |].
        apply Z.lt_le_trans with n; [| lia].
        apply Z.log2_lt_pow2; lia. }
      rewrite Hak. apply andb_false_r. }
  rewrite <- Z.lxor_lor by exact Hdisj.
  rewrite <- Z.add_nocarry_lxor by exact Hdisj.
  rewrite Z.shiftl_mul_pow2; lia.
Qed.

Lemma lor_start_bit (op : Z) : 0 <= op < 4 -> Z.lor op 4 = op + 4.
Proof.
  intros H.
  assert (E : op = 0 \/ op = 1 \/ op = 2 \/ op = 3) by lia.
  destruct E as [-> | [-> | [-> | ->]]]; reflexivity.
Qed.

(** The command word without its wrap-arounds, when the header fits in 16
    bits. *)
Lemma command_word_value (e : eeprom) (op addr dummy : Z) :
  0 <= op < 4 -> 0 <= dummy -> 0 <= addr_bits e ->
  addr_bits e + dummy <= 13 ->
  command_word e op addr dummy
  = (op + 4) * 2 ^ (addr_bits e + dummy) + addr mod 2 ^ (addr_bits e + dummy).
Proof.
  intros Hop Hd Ha Hb. unfold command_word.
  set (bits := addr_bits e + dummy).
  rewrite (uint8_small op) by lia.
  rewrite (uint8_small dummy) by lia.
  fold bits. rewrite (uint16_small bits) by (unfold bits; lia).
  rewrite lor_start_bit by lia.
  rewrite (uint8_small (op + 4)) by lia.
  rewrite ones_shiftl, land_ones_uint16 by (unfold bits; lia).
  assert (Hpow : 0 < 2 ^ bits <= 2 ^ 13).
  { split; [apply Z.pow_pos_nonneg; unfold bits; lia |].
    apply Z.pow_le_mono_r; unfold bits; lia. }
  assert (Hm : 0 <= addr mod 2 ^ bits < 2 ^ bits) by (apply Z.mod_pos_bound; lia).
  rewrite (uint16_small (addr mod 2 ^ bits)) by lia.
  rewrite lor_shiftl_small by (exact Hm || (unfold bits; lia)).
  apply uint16_small. nia.
Qed.

Lemma command_word_range (e : eeprom) (cmd addr dummy : Z) :
  0 <= command_word e cmd addr dummy < 2 ^ 16.
Proof. unfold command_word, uint16. apply Z.mod_pos_bound. lia. Qed.

Lemma be_value_header (e : eeprom) (cmd addr dummy : Z) :
  be_value (tx_bytes (prepare_cmd e cmd addr dummy))
  = command_word e cmd addr dummy.
Proof.
  pose proof (command_word_range e cmd addr dummy) as Hr.
  unfold prepare_cmd, tx_bytes, be_value. cbn [tx_buf fold_left].
  set (c := command_word e cmd addr dummy) in *.
  rewrite Z.shiftr_div_pow2 by lia.
  unfold uint8.
  rewrite (Z.mod_small (c / 2 ^ 8)).
  - change (2 ^ 8) with 256. pose proof (Z.div_mod c 256). lia.
  - split; [apply Z.div_pos; lia |].
    apply Z.div_lt_upper_bound; lia.
Qed.

(** ** The header encoder: claims C1 and C7 *)

(** C1.  For a 2-bit opcode, any address, and an address width and dummy
    bit count that add up to [bits <= 13], [prepare_cmd] fills in a
    transfer of exactly 2 bytes whose big-endian value is
    [((opcode | 0b100) << bits) | (address & ((1 << bits) - 1))]: address
    bits out of range are masked off, and there is no error case. *)
Theorem prepare_cmd_encodes (e : eeprom) (opcode address dummy_bits : Z) :
  0 <= opcode < 4 -> 0 <= dummy_bits -> 0 <= addr_bits e ->
  addr_bits e + dummy_bits <= 13 ->
  let bits := addr_bits e + dummy_bits in
  let x := prepare_cmd e opcode address dummy_bits in
  len x = 2 /\
  List.length (tx_bytes x) = 2%nat /\
  Forall (fun b => 0 <= b < 256) (tx_bytes x) /\
  be_value (tx_bytes x)
  = Z.lor (Z.shiftl (Z.lor opcode 4) bits)
          (Z.land address (Z.shiftl 1 bits - 1)).
Proof.
  intros Hop Hd Ha Hb bits x.
  repeat split.
  - unfold x, prepare_cmd, tx_bytes. cbn [tx_buf].
    repeat constructor; unfold uint8; apply Z.mod_pos_bound; lia.
  - unfold x. rewrite be_value_header, command_word_value by lia.
    fold bits.
    rewrite lor_start_bit, ones_shiftl, Z.land_ones by (unfold bits; lia).
    rewrite lor_shiftl_small; [reflexivity | unfold bits; lia |].
    apply Z.mod_pos_bound. apply Z.pow_pos_nonneg; unfold bits; lia.
Qed.

(** The READ header of the 93c66 in x16 organization for an address with
    bits out of range. *)
Lemma prepare_cmd_encodes_witness :
  let e := {| name := "93c66"; spi_fd := 3; size := 512; addr_bits := 8;
              flags := EEPROM_ORG; is_x16 := true |} in
  let x := prepare_cmd e OPCODE_READ 65535 1 in
  len x = 2 /\
  List.length (tx_bytes x) = 2%nat /\
  Forall (fun b => 0 <= b < 256) (tx_bytes x) /\
  be_value (tx_bytes x)
  = Z.lor (Z.shiftl (Z.lor OPCODE_READ 4) 9) (Z.land 65535 (Z.shiftl 1 9 - 1)).
Proof.
  intros e x.
  apply (prepare_cmd_encodes e OPCODE_READ 65535 1);
    unfold OPCODE_READ; simpl; lia.
Defined.

(** C7 as stated fails: with 5 address bits and no dummy bit the command
    has 8 bits, and the header [prepare_cmd] makes is two bytes, not
    one. *)
Lemma header_not_smallest_multiple :
  3 + addr_bits profile_5bit + 0 <= 8 /\
  len (prepare_cmd profile_5bit OPCODE_WRITE 0 0) <> 1 /\
  ~ smallest_byte_multiple (3 + addr_bits profile_5bit + 0)
      (header_bits (prepare_cmd profile_5bit OPCODE_WRITE 0 0)).
Proof.
  split; [simpl; lia |].
  split; [simpl; lia |].
  intros (_ & _ & Hmin).
  specialize (Hmin 8 eq_refl).
  change (header_bits (prepare_cmd profile_5bit OPCODE_WRITE 0 0)) with 16
    in Hmin.
  simpl in Hmin. lia.
Qed.

(** C7, amended.  A header is always 2 bytes, 16 bits: a multiple of 8
    that holds the [3 + bits] bits of the command when [bits <= 13].  It
    is the smallest such multiple exactly when the command has more than 8
    bits; a command of at most 8 bits is sent as a zero byte followed by
    one byte. *)
Theorem header_is_two_bytes (e : eeprom) (opcode address dummy_bits : Z) :
  0 <= opcode < 4 -> 0 <= dummy_bits -> 0 <= addr_bits e ->
  addr_bits e + dummy_bits <= 13 ->
  let bits := addr_bits e + dummy_bits in
  let x := prepare_cmd e opcode address dummy_bits in
  len x = 2 /\
  header_bits x = 16 /\
  header_bits x mod 8 = 0 /\
  3 + bits <= header_bits x /\
  (smallest_byte_multiple (3 + bits) (header_bits x) <-> 8 < 3 + bits) /\
  (3 + bits <= 8 -> nth 0 (tx_bytes x) 0 = 0).
Proof.
  intros Hop Hd Ha Hb bits x.
  assert (Hh : header_bits x = 16) by reflexivity.
  rewrite Hh.
  split; [reflexivity |].
  split; [reflexivity |].
  split; [reflexivity |].
  split; [unfold bits; lia |].
  split.
  - unfold smallest_byte_multiple. split.
    + intros (_ & _ & Hmin).
      destruct (Z_lt_le_dec 8 (3 + bits)) as [Hlt | Hle]; [exact Hlt |].
      specialize (Hmin 8 eq_refl Hle). lia.
    + intros Hlt. split; [reflexivity |].
      split; [unfold bits; lia |].
      intros m Hm Hle. Z.div_mod_to_equations. lia.
  - intros Hsmall.
    pose proof (command_word_value e opcode address dummy_bits Hop Hd Ha Hb)
      as Hv.
    fold bits in Hv.
    unfold x, prepare_cmd, tx_bytes. cbn [tx_buf nth].
    assert (Hpow : 0 < 2 ^ bits <= 2 ^ 5).
    { split; [apply Z.pow_pos_nonneg; unfold bits; lia |].
      apply Z.pow_le_mono_r; unfold bits; lia. }
    assert (Hm : 0 <= address mod 2 ^ bits < 2 ^ bits)
      by (apply Z.mod_pos_bound; lia).
    rewrite Z.shiftr_div_pow2 by lia.
    rewrite Z.div_small by (rewrite Hv; nia).
    reflexivity.
Qed.

(** A WRITE header of the 5-bit profile: two bytes, the first one zero. *)
Lemma header_is_two_bytes_witness :
  let x := prepare_cmd profile_5bit OPCODE_WRITE 17 0 in
  len x = 2 /\
  header_bits x = 16 /\
  header_bits x mod 8 = 0 /\
  3 + (addr_bits profile_5bit + 0) <= header_bits x /\
  (smallest_byte_multiple (3 + (addr_bits profile_5bit + 0)) (header_bits x)
   <-> 8 < 3 + (addr_bits profile_5bit + 0)) /\
  (3 + (addr_bits profile_5bit + 0) <= 8 -> nth 0 (tx_bytes x) 0 = 0).
Proof.
  intros x.
  apply (header_is_two_bytes profile_5bit OPCODE_WRITE 17 0);
    unfold OPCODE_WRITE; simpl; lia.
Defined.

(** ** The transaction primitives: claims C4, C5 and C8 *)

(** What a call on a bus with a journal adds to the journal. *)
Lemma logged_ioctl {D : Type} {bus : SpiBus D} (l : logged D) (fd : Z)
  (msg : list spi_ioc_transfer) :
  ioctl l fd msg
  = (fst (fst (ioctl (inner l) fd msg)), snd (fst (ioctl (inner l) fd msg)),
     mk_logged
       (journal l ++ [mk_event fd msg (fst (fst (ioctl (inner l) fd msg)))
                        (snd (fst (ioctl (inner l) fd msg)))])
       (snd (ioctl (inner l) fd msg))).
Proof.
  cbn [ioctl logged_bus].
  destruct (ioctl (inner l) fd msg) as [[ret rx] d']. reflexivity.
Qed.

(** C4.  On every bus, for every profile, address and length,
    [read_data] makes one call whose message is a READ header encoded
    with exactly 1 dummy bit chained to a receive-only data phase of the
    requested length, and [write_data] makes one call whose message is a
    WRITE header encoded with 0 dummy bits chained to a transmit-only data
    phase of the given data.  Where the header fits in 16 bits, the dummy
    bit shows as the opcode standing one bit higher in the READ header. *)
Theorem read_write_headers {D : Type} {bus : SpiBus D} (e : eeprom)
  (addr length : Z) (data : list Z) (d : D) :
  (exists ret rx,
     journal (snd (read_data e length addr (start_log d)))
     = [mk_event (spi_fd e)
          [set_speed_hz (prepare_cmd e OPCODE_READ addr 1) 100000;
           {| tx_buf := None; rx_buf := true; len := uint32 length;
              speed_hz := 100000; bits_per_word := 8 |}] ret rx]) /\
  (exists ret rx,
     journal (snd (write_data e addr data length (start_log d)))
     = [mk_event (spi_fd e)
          [set_speed_hz (prepare_cmd e OPCODE_WRITE addr 0) 100000;
           {| tx_buf := Some (firstn (Z.to_nat (uint32 length)) data);
              rx_buf := false; len := uint32 length;
              speed_hz := 100000; bits_per_word := 8 |}] ret rx]) /\
  (0 <= addr_bits e <= 12 ->
   be_value (tx_bytes (prepare_cmd e OPCODE_READ addr 1))
   = (OPCODE_READ + 4) * 2 ^ (addr_bits e + 1) + addr mod 2 ^ (addr_bits e + 1)
   /\
   be_value (tx_bytes (prepare_cmd e OPCODE_WRITE addr 0))
   = (OPCODE_WRITE + 4) * 2 ^ addr_bits e + addr mod 2 ^ addr_bits e) /\
  (0 <= length < 2 ^ 32 -> uint32 length = length).
Proof.
  split; [| split; [| split]].
  - unfold read_data. rewrite logged_ioctl. cbn [snd journal start_log app].
    eexists. eexists. reflexivity.
  - unfold write_data. rewrite logged_ioctl. cbn [snd journal start_log app].
    eexists. eexists. reflexivity.
  - intros Ha. rewrite !be_value_header.
    rewrite !command_word_value by (unfold OPCODE_READ, OPCODE_WRITE; lia).
    rewrite Z.add_0_r. split; reflexivity.
  - intros Hl. unfold uint32. now apply Z.mod_small.
Qed.

(** C4 on the bus where every transfer fails: the messages are the same. *)
Lemma read_write_headers_witness :
  be_value (tx_bytes (prepare_cmd profile_93c46_x8 OPCODE_READ 5 1))
  = 6 * 2 ^ 8 + 5 /\
  be_value (tx_bytes (prepare_cmd profile_93c46_x8 OPCODE_WRITE 5 0))
  = 5 * 2 ^ 7 + 5.
Proof.
  destruct (read_write_headers (bus := dead_bus_bus) profile_93c46_x8 5 1 [170]
              (mk_dead 0)) as (_ & _ & Hv & _).
  apply Hv. simpl. lia.
Defined.

(** The message of [send_command] and the value of its header, where the
    header fits in 16 bits. *)
Lemma send_command_header (e : eeprom) (op subop : Z) :
  0 <= op < 4 -> 0 <= subop < 4 -> 2 <= addr_bits e <= 13 ->
  let a := addr_bits e in
  send_command_msg e op subop
  = [set_speed_hz (prepare_cmd e op (Z.shiftl subop (a - 2)) 0) 100000] /\
  be_value (tx_bytes (prepare_cmd e op (Z.shiftl subop (a - 2)) 0))
  = (op + 4) * 2 ^ a + subop * 2 ^ (a - 2) /\
  0 <= subop * 2 ^ (a - 2) < 2 ^ a.
Proof.
  intros Hop Hsub Ha a.
  assert (Hp2 : 0 < 2 ^ (a - 2) <= 2 ^ 11).
  { split; [apply Z.pow_pos_nonneg; unfold a; lia |].
    apply Z.pow_le_mono_r; unfold a; lia. }
  assert (Hpa : 2 ^ a = 4 * 2 ^ (a - 2)).
  { replace a with (2 + (a - 2)) at 1 by lia.
    rewrite Z.pow_add_r by (unfold a; lia). reflexivity. }
  assert (Hsc : uint16 (Z.shiftl (uint8 subop) (a - 2)) = Z.shiftl subop (a - 2)).
  { rewrite uint8_small by lia. rewrite Z.shiftl_mul_pow2 by (unfold a; lia).
    apply uint16_small. nia. }
  split; [unfold send_command_msg; fold a; rewrite Hsc; reflexivity |].
  split; [| nia].
  rewrite be_value_header, command_word_value by lia.
  rewrite Z.add_0_r. fold a. f_equal.
  rewrite Z.shiftl_mul_pow2 by (unfold a; lia).
  apply Z.mod_small. nia.
Qed.

(** C5.  For a profile with an address field of 2 to 13 bits, a 2-bit
    opcode and a 2-bit subcode, on every bus [send_command] makes one
    call, whose value it returns and whose message is one header encoded
    with 0 dummy bits (the opcode stands right above the address field);
    the address field of that header is the subcode shifted left by
    [addr_bits - 2]: the subcode is the two highest bits of the field.
    [enable_write], [diable_write] and [erase_all] are this call with
    opcode 0 and the subcodes 3, 0 and 2. *)
Theorem send_command_subcode {D : Type} {bus : SpiBus D} (e : eeprom)
  (op subop : Z) (d : D) :
  0 <= op < 4 -> 0 <= subop < 4 -> 2 <= addr_bits e <= 13 ->
  let a := addr_bits e in
  exists x,
    (exists ret rx,
       send_command e op subop (start_log d)
       = (ret,
          mk_logged [mk_event (spi_fd e) [set_speed_hz x 100000] ret rx]
            (snd (send_command e op subop d))) /\
       fst (send_command e op subop d) = ret) /\
    enable_write e (start_log d)
    = send_command e OPCODE_EWEN SUBCODE_EWEN (start_log d) /\
    diable_write e (start_log d)
    = send_command e OPCODE_EWEN SUBCODE_EWDS (start_log d) /\
    erase_all e (start_log d)
    = send_command e OPCODE_EWEN SUBCODE_ERAL (start_log d) /\
    send_command_msg e op subop = [set_speed_hz x 100000] /\
    x = prepare_cmd e op (Z.shiftl subop (a - 2)) 0 /\
    len x = 2 /\
    be_value (tx_bytes x) = (op + 4) * 2 ^ a + subop * 2 ^ (a - 2) /\
    Z.land (be_value (tx_bytes x)) (Z.ones a) = Z.shiftl subop (a - 2) /\
    Z.shiftr (Z.land (be_value (tx_bytes x)) (Z.ones a)) (a - 2) = subop.
Proof.
  intros Hop Hsub Ha a.
  destruct (send_command_header e op subop Hop Hsub Ha) as (Hmsg & Hv & Hr).
  fold a in Hmsg, Hv, Hr.
  exists (prepare_cmd e op (Z.shiftl subop (a - 2)) 0).
  split.
  { unfold send_command. rewrite logged_ioctl.
    cbn [inner start_log journal app]. rewrite Hmsg.
    destruct (ioctl d (spi_fd e)
                [set_speed_hz (prepare_cmd e op (Z.shiftl subop (a - 2)) 0)
                   100000]) as [[ret rx] d'].
    cbn [fst snd]. exists ret, rx. split; reflexivity. }
  split; [reflexivity |]. split; [reflexivity |]. split; [reflexivity |].
  split; [exact Hmsg |].
  split; [reflexivity |].
  split; [reflexivity |].
  split; [exact Hv |].
  assert (Hf : Z.land (be_value (tx_bytes (prepare_cmd e op (Z.shiftl subop (a - 2)) 0)))
                 (Z.ones a) = Z.shiftl subop (a - 2)).
  { rewrite Hv, Z.land_ones by (unfold a; lia).
    rewrite Z.add_comm, Z.mod_add by lia.
    rewrite Z.shiftl_mul_pow2 by (unfold a; lia).
    apply Z.mod_small. lia. }
  split; [exact Hf |].
  rewrite Hf. rewrite Z.shiftr_shiftl_l by (unfold a; lia).
  rewrite Z.sub_diag. apply Z.shiftl_0_r.
Qed.

(** C5 at 7 address bits, on the blank chip of the 93c46: the one call
    of [enable_write] carries the subcode 0b11 as the address field
    [0b11 << 5]. *)
Lemma send_command_subcode_witness :
  exists x,
    (exists ret rx,
       enable_write profile_93c46_x8 (start_log (blank_chip 7 false))
       = (ret,
          mk_logged
            [mk_event (spi_fd profile_93c46_x8) [set_speed_hz x 100000] ret rx]
            (snd (enable_write profile_93c46_x8 (blank_chip 7 false))))) /\
    x = prepare_cmd profile_93c46_x8 OPCODE_EWEN (Z.shiftl 3 5) 0 /\
    len x = 2 /\
    be_value (tx_bytes x) = (0 + 4) * 2 ^ 7 + 3 * 2 ^ 5 /\
    Z.land (be_value (tx_bytes x)) (Z.ones 7) = Z.shiftl 3 5 /\
    Z.shiftr (Z.land (be_value (tx_bytes x)) (Z.ones 7)) 5 = 3.
Proof.
  destruct (send_command_subcode profile_93c46_x8 OPCODE_EWEN SUBCODE_EWEN
              (blank_chip 7 false))
    as (x & (ret & rx & Hcall & _) & _ & _ & _ & _ & Hx & Hlen & Hv & Hf & Hs);
    try (unfold OPCODE_EWEN, SUBCODE_EWEN; simpl; lia).
  exists x. split; [exists ret, rx; exact Hcall |].
  split; [exact Hx |]. split; [exact Hlen |]. split; [exact Hv |].
  split; [exact Hf | exact Hs].
Defined.

(** C8 on the code.  On a bus where every transfer fails, [read_data],
    [write_data] and [send_command] hand the negative value of [ioctl] to
    their caller after one call, but [read_status] returns the status
    byte 0, as it does for a chip that is busy: the failure is dropped,
    and the ready poll goes on for as long as it is given fuel. *)
Theorem read_status_drops_failure (e : eeprom) (d : dead_bus) (fuel : nat) :
  fst (fst (read_data e 1 0 d)) = -1 /\
  fst (write_data e 0 [170] 1 d) = -1 /\
  fst (send_command e OPCODE_EWEN SUBCODE_EWEN d) = -1 /\
  read_status e d = (0, mk_dead (S (dead_calls d))) /\
  List.length (journal (snd (read_status e (start_log d)))) = 1%nat /\
  fst (wait_ready fuel e d) = false.
Proof.
  repeat split.
  revert d. induction fuel as [| fuel IH]; intros d; [reflexivity |].
  cbn [wait_ready]. unfold read_status. cbn [ioctl dead_bus_bus status_byte].
  cbn [Z.eqb]. apply IH.
Qed.

(** ** Profile finalization: claim C3 *)

(** The locals of [main] after the option loop. *)
Lemma main_options_locals (opts : list getopt_result) (m0 m : main_locals) :
  main_options m0 opts = inr m ->
  negb (x16 m =? 0) = negb (x16 m0 =? 0) || has_x16 opts /\
  type_specified m = type_specified m0 || has_type opts /\
  parameter_specified m = parameter_specified m0 || has_parameter opts /\
  eeprom_type m = user_type opts (eeprom_type m0) /\
  addr_bits (cfg_eeprom (config m))
  = user_addr_bits opts (addr_bits (cfg_eeprom (config m0))).
Proof.
  revert m0. induction opts as [| o opts IH]; intros m0 H.
  - cbn in H. injection H as <-. cbn. rewrite !orb_false_r. auto.
  - cbn [main_options] in H.
    destruct (main_option m0 o) as [code | m1] eqn:E; [discriminate |].
    specialize (IH m1 H). destruct IH as (Hx & Ht & Hp & Hn & Hb).
    unfold has_x16, has_type, has_parameter, user_type, user_addr_bits.
    cbn [existsb fold_left].
    fold (has_x16 opts) (has_type opts) (has_parameter opts).
    rewrite Hx, Ht, Hp, Hn, Hb. clear Hx Ht Hp Hn Hb H.
    destruct o; cbn in E; try discriminate; injection E as <-;
      cbn [x16 type_specified parameter_specified eeprom_type config
           cfg_eeprom set_eeprom set_addr_bits set_size set_file_action
           addr_bits];
      rewrite ?orb_false_r, ?orb_true_r, ?orb_false_l, ?orb_true_l;
      repeat split; try reflexivity;
      try (destruct (type_specified m0); reflexivity);
      try (destruct (parameter_specified m0); reflexivity).
Qed.

(** Every entry [eeprom_find] returns is an entry of the catalog. *)
Lemma eeprom_find_from_in (l : list eeprom) (type : string) (e : eeprom) :
  eeprom_find_from l type = Some e -> In e l /\ size e <> 0.
Proof.
  induction l as [| e0 l IH]; cbn; [discriminate |].
  destruct (size e0 =? 0) eqn:Es; [discriminate |].
  destruct (strcasecmp (name e0) type =? 0).
  - intros H. injection H as <-. split; [now left | now apply Z.eqb_neq].
  - intros H. destruct (IH H) as [Hin Hs]. split; [now right | exact Hs].
Qed.

(** C3 as stated fails on the path of explicit geometry: [-b 9 --x16]
    gives a profile in 16-bit mode that [sanitize_input] does not reject
    and whose headers carry 9 address bits, not 8. *)
Lemma custom_x16_keeps_addr_bits :
  exists cfg,
    main_profile [Opt_b 9; Opt_s 512; Opt_x16; Opt_e] = inr cfg /\
    sanitize_input cfg = None /\
    is_x16 (cfg_eeprom cfg) = true /\
    addr_bits (cfg_eeprom cfg) = 9 /\
    addr_bits (cfg_eeprom cfg) <> 9 - 1 /\
    be_value (tx_bytes (prepare_cmd (cfg_eeprom cfg) OPCODE_WRITE 0 0))
    = 5 * 2 ^ 9.
Proof.
  eexists. split; [vm_compute; reflexivity |].
  repeat split. discriminate.
Qed.

(** C3, amended.  For a profile taken from the catalog with [-t], the
    address width of the headers is the nominal [addr_bits] of the entry
    minus one in 16-bit mode and the nominal one in 8-bit mode; the
    decrement is made once, in [main], and the operations read the width
    from the profile.  For explicit geometry the width is the one given
    with [-b] (8 when none is given) in both modes. *)
Theorem profile_addr_bits (opts : list getopt_result) (cfg : eeprom_cfg)
  (addr : Z) :
  main_profile opts = inr cfg ->
  let a := addr_bits (cfg_eeprom cfg) in
  is_x16 (cfg_eeprom cfg) = has_x16 opts /\
  (has_type opts = true ->
   exists entry,
     eeprom_find (user_type opts "") = Some entry /\
     In entry eeprom_types_list /\
     a = (if has_x16 opts then addr_bits entry - 1 else addr_bits entry)) /\
  (has_type opts = false -> a = user_addr_bits opts 8) /\
  (0 <= a <= 12 ->
   be_value (tx_bytes (prepare_cmd (cfg_eeprom cfg) OPCODE_WRITE addr 0))
   = 5 * 2 ^ a + addr mod 2 ^ a /\
   be_value (tx_bytes (prepare_cmd (cfg_eeprom cfg) OPCODE_READ addr 1))
   = 6 * 2 ^ (a + 1) + addr mod 2 ^ (a + 1)).
Proof.
  unfold main_profile.
  destruct (main_options main_init opts) as [code | m] eqn:Em;
    [discriminate |].
  apply main_options_locals in Em.
  destruct Em as (Hx & Ht & Hp & Hn & Hb). cbn in Hx, Ht, Hp, Hn, Hb.
  unfold main_finalize. rewrite Ht, Hp, Hx, Hn.
  intros H. set (a := addr_bits (cfg_eeprom cfg)).
  assert (Hhdr : 0 <= a <= 12 ->
     be_value (tx_bytes (prepare_cmd (cfg_eeprom cfg) OPCODE_WRITE addr 0))
     = 5 * 2 ^ a + addr mod 2 ^ a /\
     be_value (tx_bytes (prepare_cmd (cfg_eeprom cfg) OPCODE_READ addr 1))
     = 6 * 2 ^ (a + 1) + addr mod 2 ^ (a + 1)).
  { intros Ha. rewrite !be_value_header.
    rewrite !command_word_value
      by (unfold OPCODE_READ, OPCODE_WRITE; fold a; lia).
    fold a. rewrite Z.add_0_r. split; reflexivity. }
  destruct (has_type opts) eqn:Etype.
  - destruct (has_parameter opts); [discriminate |]. cbn [andb] in H.
    destruct (eeprom_find (user_type opts "")) as [entry |] eqn:Ef;
      [| discriminate].
    injection H as <-.
    pose proof (eeprom_find_from_in _ _ _ Ef) as [Hin Hsz].
    split; [destruct (has_x16 opts); reflexivity |].
    split; [| split; [discriminate | exact Hhdr]].
    intros _. exists entry. split; [reflexivity |]. split; [exact Hin |].
    unfold a. clear Hhdr a.
    destruct (has_x16 opts); [| reflexivity].
    cbn [cfg_eeprom set_eeprom addr_bits set_addr_bits set_is_x16].
    apply uint8_small.
    cbn in Hin.
    destruct Hin as [<- | [<- | [<- | [<- | [<- | []]]]]]; cbn; try lia.
    now contradiction Hsz.
  - cbn [andb] in H. injection H as <-.
    split; [reflexivity |].
    split; [discriminate |].
    split; [| exact Hhdr].
    intros _. unfold a. cbn [cfg_eeprom set_eeprom addr_bits set_is_x16].
    exact Hb.
Qed.

(** C3 for [-t 93C66 --x16 -r]: the nominal 9 address bits become 8;
    without [--x16] they stay 9. *)
Lemma profile_addr_bits_witness :
  (exists cfg8,
     main_profile [Opt_t "93C66"; Opt_r "eeprom.bin"] = inr cfg8 /\
     addr_bits (cfg_eeprom cfg8) = 9 /\ is_x16 (cfg_eeprom cfg8) = false) /\
  exists cfg,
    main_profile [Opt_t "93C66"; Opt_x16; Opt_r "eeprom.bin"] = inr cfg /\
    addr_bits (cfg_eeprom cfg) = 8 /\
    is_x16 (cfg_eeprom cfg) = true /\
    exists entry,
      eeprom_find "93C66" = Some entry /\
      In entry eeprom_types_list /\
      addr_bits (cfg_eeprom cfg) = addr_bits entry - 1.
Proof.
  split.
  { eexists. split; [vm_compute; reflexivity |]. split; reflexivity. }
  eexists. split; [vm_compute; reflexivity |].
  split; [reflexivity |].
  match goal with
  | |- is_x16 (cfg_eeprom ?c) = _ /\ _ =>
      destruct (profile_addr_bits
                  [Opt_t "93C66"; Opt_x16; Opt_r "eeprom.bin"] c 0)
        as (Hx & Ht & _)
  end.
  - vm_compute. reflexivity.
  - split; [exact Hx |]. exact (Ht eq_refl).
Defined.

(** ** The ready poll: claim C9 *)

Lemma discipline_run_app (s : discipline) (l1 l2 : list bus_event) :
  discipline_run s (l1 ++ l2) = discipline_run (discipline_run s l1) l2.
Proof. apply fold_left_app. Qed.





Section Journal.

Context {D : Type} {bus : SpiBus D}.

(** The primitives on a bus with a journal: the same results, and one
    more entry in the journal. *)
Lemma write_data_logged (e : eeprom) (addr : Z) (data : list Z) (n : Z)
  (l : logged D) :
  exists ev,
    write_data e addr data n l
    = (fst (write_data e addr data n (inner l)),
       mk_logged (journal l ++ [ev])
         (snd (write_data e addr data n (inner l)))) /\
    is_write ev = true.
Proof.
  unfold write_data. rewrite logged_ioctl.
  destruct (ioctl (inner l) (spi_fd e) (write_data_msg e addr data n))
    as [[ret rx] d'].
  eexists. split; [reflexivity | reflexivity].
Qed.

Lemma read_status_logged (e : eeprom) (l : logged D) :
  exists ev,
    read_status e l
    = (fst (read_status e (inner l)),
       mk_logged (journal l ++ [ev]) (snd (read_status e (inner l)))) /\
    is_write ev = false /\
    is_ready ev = (fst (read_status e (inner l)) =? 255).
Proof.
  unfold read_status. rewrite logged_ioctl.
  destruct (ioctl (inner l) (spi_fd e) read_status_msg) as [[ret rx] d'].
  eexists. split; [reflexivity |]. split; reflexivity.
Qed.

(** The ready poll appends status polls only; it ends with the automaton
    in [Ready] when it saw 0xff and leaves a pending write pending when
    its fuel ran out. *)
Lemma wait_ready_logged (fuel : nat) (e : eeprom) (l : logged D) :
  exists evs,
    wait_ready fuel e l
    = (fst (wait_ready fuel e (inner l)),
       mk_logged (journal l ++ evs) (snd (wait_ready fuel e (inner l)))) /\
    Forall (fun ev => is_write ev = false) evs /\
    discipline_run Pending evs
    = (if fst (wait_ready fuel e (inner l)) then Ready else Pending).
Proof.
  revert l. induction fuel as [| fuel IH]; intros l.
  - exists []. cbn. rewrite app_nil_r. destruct l; auto.
  - cbn [wait_ready].
    destruct (read_status_logged e l) as (ev & -> & Hw & Hr).
    destruct (read_status e (inner l)) as [status d'] eqn:Es.
    cbn [fst snd] in *.
    destruct (status =? 255) eqn:E255.
    + exists [ev]. cbn [fst snd]. split; [reflexivity |].
      split; [now constructor |].
      cbn. rewrite Hw, Hr. reflexivity.
    + destruct (IH (mk_logged (journal l ++ [ev]) d')) as (evs & -> & Hws & Hrun).
      cbn [inner journal]. exists (ev :: evs).
      rewrite <- app_assoc. split; [reflexivity |].
      split; [now constructor |].
      cbn [discipline_run fold_left discipline_step]. rewrite Hw, Hr.
      exact Hrun.
Qed.

(** The loop of [eeprom_program_array] keeps the discipline: it ends in
    [Ready] when it runs to its end and in [Pending] when it stops at a
    write that failed or is still polled. *)
Lemma eeprom_program_loop_logged (fuel n : nat) (e : eeprom) (step i : Z)
  (data : list Z) (l : logged D) :
  exists evs,
    eeprom_program_loop fuel n e step i data l
    = (fst (eeprom_program_loop fuel n e step i data (inner l)),
       mk_logged (journal l ++ evs)
         (snd (eeprom_program_loop fuel n e step i data (inner l)))) /\
    discipline_run Ready evs
    = match fst (eeprom_program_loop fuel n e step i data (inner l)) with
      | Returned None => Ready
      | _ => Pending
      end.
Proof.
  revert i l. induction n as [| n IH]; intros i l.
  - exists []. cbn. rewrite app_nil_r. destruct l; auto.
  - cbn [eeprom_program_loop].
    destruct (i <? size e).
    2:{ exists []. cbn. rewrite app_nil_r. destruct l; auto. }
    destruct (write_data_logged e (i / step) (skipn (Z.to_nat i) data) step l)
      as (w & -> & Hw).
    destruct (write_data e (i / step) (skipn (Z.to_nat i) data) step (inner l))
      as [ret d1].
    cbn [fst snd].
    destruct (ret <? 0).
    { exists [w]. cbn [fst snd]. split; [reflexivity |].
      cbn. rewrite Hw. reflexivity. }
    destruct (wait_ready_logged fuel e (mk_logged (journal l ++ [w]) d1))
      as (polls & -> & Hpw & Hrun).
    cbn [inner journal] in *.
    destruct (wait_ready fuel e d1) as [ready d2]. cbn [fst snd] in *.
    destruct ready.
    + destruct (IH (i + step) (mk_logged ((journal l ++ [w]) ++ polls) d2))
        as (evs & -> & Hevs).
      cbn [inner journal]. exists (w :: polls ++ evs).
      split.
      * rewrite <- !app_assoc. reflexivity.
      * change (w :: polls ++ evs) with ([w] ++ polls ++ evs).
        rewrite !discipline_run_app. cbn [discipline_run fold_left discipline_step].
        rewrite Hw. fold (discipline_run Pending polls). rewrite Hrun.
        exact Hevs.
    + exists (w :: polls). cbn [fst snd].
      split.
      * rewrite <- !app_assoc. reflexivity.
      * change (w :: polls) with ([w] ++ polls).
        rewrite discipline_run_app. cbn [discipline_run fold_left discipline_step].
        rewrite Hw. exact Hrun.
Qed.

(** On a bus whose status polls never find 0xff the ready poll never
    ends. *)
Lemma wait_ready_stuck (fuel : nat) (e : eeprom) (d : D) :
  (forall d' fd, status_byte (snd (fst (ioctl d' fd read_status_msg))) <> 255) ->
  fst (wait_ready fuel e d) = false.
Proof.
  intros Hstuck. revert d. induction fuel as [| fuel IH]; intros d;
    [reflexivity |].
  cbn [wait_ready]. unfold read_status.
  pose proof (Hstuck d (spi_fd e)) as Hs.
  destruct (ioctl d (spi_fd e) read_status_msg) as [[ret rx] d'].
  cbn [fst snd] in Hs. apply Z.eqb_neq in Hs. rewrite Hs. apply IH.
Qed.

End Journal.

Lemma filter_polls (l : list bus_event) :
  Forall (fun ev => is_write ev = false) l -> filter is_write l = [].
Proof.
  induction 1 as [| ev l Hev _ IH]; [reflexivity |].
  cbn [filter]. rewrite Hev. exact IH.
Qed.

(** The ready poll on a bus with a journal adds status polls only. *)
Lemma wait_ready_journal {D : Type} {bus : SpiBus D} (fuel : nat)
  (e : eeprom) (l : logged D) :
  exists polls,
    wait_ready fuel e l
    = (fst (wait_ready fuel e (inner l)),
       mk_logged (journal l ++ polls) (snd (wait_ready fuel e (inner l)))) /\
    Forall (fun ev => ev_msg ev = read_status_msg) polls.
Proof.
  revert l. induction fuel as [| fuel IH]; intros l.
  - exists []. cbn. rewrite app_nil_r. destruct l; auto.
  - cbn [wait_ready]. unfold read_status. rewrite logged_ioctl.
    destruct (ioctl (inner l) (spi_fd e) read_status_msg) as [[ret rx] d'].
    cbn [fst snd].
    set (ev := mk_event (spi_fd e) read_status_msg ret rx).
    destruct (status_byte rx =? 255).
    + exists [ev]. split; [reflexivity |]. now constructor.
    + destruct (IH (mk_logged (journal l ++ [ev]) d')) as (polls & -> & Hp).
      cbn [inner journal]. exists (ev :: polls).
      rewrite <- app_assoc. split; [reflexivity |]. now constructor.
Qed.

Lemma status_polls_no_write (l : list bus_event) :
  Forall (fun ev => ev_msg ev = read_status_msg) l ->
  Forall (fun ev => is_write ev = false) l.
Proof.
  apply Forall_impl. intros ev H. unfold is_write. rewrite H. reflexivity.
Qed.

(** The write loop on a bus with a journal: its writes are WRITE
    messages for the words at offsets [i], [i + step], ... below [size],
    each with the [step] bytes of the image at its offset, with status
    polls between them; a write that fails is the last call made. *)
Lemma eeprom_program_loop_journal {D : Type} {bus : SpiBus D} (e : eeprom)
  (step : Z) (data : list Z) (fuel n : nat) (i : Z) (l : logged D) :
  0 < step -> size e - i <= Z.of_nat n ->
  exists evs k,
    journal (snd (eeprom_program_loop fuel n e step i data l))
    = journal l ++ evs /\
    map ev_msg (filter is_write evs)
    = map (fun j => write_data_msg e ((i + Z.of_nat j * step) / step)
                      (skipn (Z.to_nat (i + Z.of_nat j * step)) data) step)
          (seq 0 k) /\
    Forall (fun ev => is_write ev = true \/ ev_msg ev = read_status_msg) evs /\
    (forall j, (j < k)%nat -> i + Z.of_nat j * step < size e) /\
    match fst (eeprom_program_loop fuel n e step i data l) with
    | Returned None =>
        size e <= i + Z.of_nat k * step /\
        Forall (fun ev => 0 <= ev_ret ev) (filter is_write evs)
    | Returned (Some v) =>
        v = EXIT_FAILURE /\
        exists evs' w, evs = evs' ++ [w] /\ is_write w = true /\ ev_ret w < 0 /\
                       Forall (fun ev => 0 <= ev_ret ev) (filter is_write evs')
    | Polling =>
        (0 < k)%nat /\ Forall (fun ev => 0 <= ev_ret ev) (filter is_write evs)
    end.
Proof.
  intros Hs. revert i l. induction n as [| n IH]; intros i l Hn.
  - exists [], 0%nat. cbn. rewrite app_nil_r.
    repeat split; try lia; constructor.
  - cbn [eeprom_program_loop]. destruct (i <? size e) eqn:Elt.
    2:{ apply Z.ltb_ge in Elt. exists [], 0%nat. cbn. rewrite app_nil_r.
        repeat split; try lia; constructor. }
    apply Z.ltb_lt in Elt. unfold write_data. rewrite logged_ioctl.
    set (msg := write_data_msg e (i / step) (skipn (Z.to_nat i) data) step).
    destruct (ioctl (inner l) (spi_fd e) msg) as [[ret rx] d'].
    cbn [fst snd]. set (w := mk_event (spi_fd e) msg ret rx).
    assert (Hw : is_write w = true) by reflexivity.
    destruct (ret <? 0) eqn:Eret.
    + apply Z.ltb_lt in Eret. exists [w], 1%nat.
      cbn [fst snd journal]. cbv beta iota.
      split; [reflexivity |]. split.
      { cbn [filter]. rewrite Hw. cbn. rewrite Z.add_0_r. reflexivity. }
      split; [constructor; [now left | constructor] |].
      split; [intros j Hj; replace j with 0%nat by lia; cbn; lia |].
      split; [reflexivity |]. exists [], w.
      repeat split; auto; constructor.
    + apply Z.ltb_ge in Eret.
      destruct (wait_ready_journal fuel e (mk_logged (journal l ++ [w]) d'))
        as (polls & -> & Hpm).
      cbn [inner journal].
      destruct (wait_ready fuel e d') as [ready d2]. cbn [fst snd].
      pose proof (filter_polls polls (status_polls_no_write polls Hpm)) as Hfp.
      assert (Hpolls : Forall (fun ev => is_write ev = true
                                         \/ ev_msg ev = read_status_msg) polls)
        by (revert Hpm; apply Forall_impl; intros ev H; now right).
      destruct ready.
      * destruct (IH (i + step)
                    (mk_logged ((journal l ++ [w]) ++ polls) d2))
          as (evs & k & Hj & Hmsg & Hkind & Hoff & Hres); [lia |].
        exists (w :: polls ++ evs), (S k). cbn [journal] in Hj.
        split; [rewrite Hj, <- !app_assoc; reflexivity |].
        assert (Hfilter : filter is_write (w :: polls ++ evs)
                          = w :: filter is_write evs)
          by (cbn [filter]; rewrite Hw, filter_app, Hfp; reflexivity).
        rewrite Hfilter. split.
        { cbn [map seq]. rewrite Hmsg, <- seq_shift, map_map.
          f_equal; [cbn; rewrite Z.add_0_r; reflexivity |].
          apply map_ext. intros j.
          replace (i + Z.of_nat (S j) * step)
            with (i + step + Z.of_nat j * step) by lia.
          reflexivity. }
        split.
        { constructor; [now left |]. apply Forall_app. now split. }
        split.
        { intros j Hjk. destruct j as [| j]; [cbn; lia |].
          specialize (Hoff j ltac:(lia)). lia. }
        destruct (fst (eeprom_program_loop fuel n e step (i + step) data
                         (mk_logged ((journal l ++ [w]) ++ polls) d2)))
          as [[v |] |].
        -- destruct Hres as (Hv & evs' & w' & -> & Hw' & Hneg & Hok').
           split; [exact Hv |].
           exists (w :: polls ++ evs'), w'.
           split; [cbn; rewrite <- app_assoc; reflexivity |].
           split; [exact Hw' |]. split; [exact Hneg |].
           cbn [filter]. rewrite Hw, filter_app, Hfp.
           constructor; [exact Eret | exact Hok'].
        -- destruct Hres as (Hend & Hok). split; [lia |].
           constructor; [exact Eret | exact Hok].
        -- destruct Hres as (_ & Hok). split; [lia |].
           constructor; [exact Eret | exact Hok].
      * exists (w :: polls), 1%nat. cbn [journal]. cbv beta iota.
        split; [rewrite <- app_assoc; reflexivity |].
        assert (Hfilter : filter is_write (w :: polls) = [w])
          by (cbn [filter]; rewrite Hw, Hfp; reflexivity).
        rewrite Hfilter. split.
        { cbn. rewrite Z.add_0_r. reflexivity. }
        split; [constructor; [now left | exact Hpolls] |].
        split; [intros j Hj; replace j with 0%nat by lia; cbn; lia |].
        split; [lia |]. constructor; [exact Eret | constructor].
Qed.


(** In a journal that ends with its only failed write, a failed write is
    the last entry. *)
Lemma failed_write_last (evs' a rest : list bus_event) (w' w : bus_event) :
  Forall (fun ev => 0 <= ev_ret ev) (filter is_write evs') ->
  evs' ++ [w'] = a ++ w :: rest ->
  is_write w = true -> ev_ret w < 0 -> rest = [].
Proof.
  intros Hok Heq Hw Hneg.
  destruct (exists_last (l := w :: rest) ltac:(discriminate)) as (rest' & x & Hr).
  destruct rest as [| y rest]; [reflexivity |]. exfalso.
  destruct rest' as [| z rest']; [discriminate Hr |].
  injection Hr as <- Hr. rewrite Hr in Heq.
  change (w :: rest' ++ [x]) with ((w :: rest') ++ [x]) in Heq.
  rewrite app_assoc in Heq. apply app_inj_tail in Heq. destruct Heq as [-> _].
  rewrite filter_app in Hok. apply Forall_app in Hok. destruct Hok as [_ Hok].
  cbn [filter] in Hok. rewrite Hw in Hok.
  inversion Hok as [| ? ? H0 _]; subst. lia.
Qed.





(** ** The simulated chip *)

(** The chip decodes a header of [prepare_cmd] made for its address width
    into the opcode, the address field without its [dummy] low bits, and
    [dummy] trailing bits. *)
Lemma chip_decode_header (e : eeprom) (op addr dummy : Z) :
  0 <= op < 4 -> 0 <= dummy -> 0 <= addr_bits e ->
  addr_bits e + dummy <= 13 ->
  chip_decode (addr_bits e) (tx_bytes (prepare_cmd e op addr dummy))
  = Some {| cmd_opcode := op;
            cmd_addr := addr mod 2 ^ (addr_bits e + dummy) / 2 ^ dummy;
            cmd_trailing := dummy |}.
Proof.
  intros Hop Hd Ha Hb. unfold chip_decode.
  rewrite be_value_header, command_word_value by lia.
  set (A := addr_bits e) in *.
  set (a := addr mod 2 ^ (A + dummy)).
  assert (HPA : 0 < 2 ^ A) by (apply Z.pow_pos_nonneg; lia).
  assert (HPd : 0 < 2 ^ dummy) by (apply Z.pow_pos_nonneg; lia).
  assert (HP : 2 ^ (A + dummy) = 2 ^ A * 2 ^ dummy) by (apply Z.pow_add_r; lia).
  assert (Hrange : 0 <= a < 2 ^ (A + dummy))
    by (apply Z.mod_pos_bound; rewrite HP; nia).
  set (v := (op + 4) * 2 ^ (A + dummy) + a).
  assert (Hlog : Z.log2 v = A + dummy + 2).
  { apply Z.log2_unique; [lia |].
    replace (Z.succ (A + dummy + 2)) with (A + dummy + 3) by lia.
    rewrite (Z.pow_add_r 2 (A + dummy) 2), (Z.pow_add_r 2 (A + dummy) 3) by lia.
    change (2 ^ 2) with 4. change (2 ^ 3) with 8. unfold v. nia. }
  replace (v <=? 0) with false by (symmetry; apply Z.leb_gt; unfold v; nia).
  rewrite Hlog.
  replace (A + dummy + 2 - 2 - A) with dummy by lia.
  replace (A + dummy + 2 - 2) with (A + dummy) by lia.
  replace (dummy <? 0) with false by (symmetry; apply Z.ltb_ge; lia).
  assert (Hopc : Z.land (Z.shiftr v (A + dummy)) 3 = op).
  { rewrite Z.shiftr_div_pow2 by lia. change 3 with (Z.ones 2).
    rewrite Z.land_ones by lia. unfold v.
    rewrite Z.div_add_l by lia. rewrite (Z.div_small a) by lia.
    change (2 ^ 2) with 4. Z.div_mod_to_equations. lia. }
  assert (Haddr : Z.land (Z.shiftr v dummy) (Z.ones A) = a / 2 ^ dummy).
  { rewrite Z.shiftr_div_pow2, Z.land_ones by lia. unfold v.
    rewrite HP, Z.mul_assoc, Z.div_add_l by lia.
    rewrite Z.add_comm, Z.mod_add by lia.
    apply Z.mod_small. split; [apply Z.div_pos; lia |].
    apply Z.div_lt_upper_bound; [lia |]. rewrite Z.mul_comm, <- HP. lia. }
  rewrite Hopc, Haddr. reflexivity.
Qed.

(** The two bytes of a header are the whole transmit buffer. *)
Lemma header_firstn (e : eeprom) (op addr dummy hz : Z) :
  let x := set_speed_hz (prepare_cmd e op addr dummy) hz in
  firstn (Z.to_nat (len x)) (tx_bytes x) = tx_bytes (prepare_cmd e op addr dummy)
  /\ tx_buf x = Some (tx_bytes (prepare_cmd e op addr dummy)).
Proof. split; reflexivity. Qed.

(** A status poll on the chip. *)
Lemma chip_read_status (e : eeprom) (c : chip) :
  read_status e c
  = (if Nat.eqb (c_busy c) 0 then 255 else 0,
     chip_update c (c_mem c) (c_wen c) (Nat.pred (c_busy c))).
Proof.
  unfold read_status. cbn.
  destruct (Nat.eqb (c_busy c) 0); reflexivity.
Qed.

(** With more fuel than the chip has busy polls left, the ready poll
    ends and leaves the chip idle, its array and its enable latch as they
    were. *)
Lemma chip_wait_ready (fuel : nat) (e : eeprom) (c : chip) :
  (c_busy c < fuel)%nat ->
  wait_ready fuel e c = (true, chip_update c (c_mem c) (c_wen c) 0%nat).
Proof.
  revert c. induction fuel as [| fuel IH]; intros c Hb; [lia |].
  cbn [wait_ready]. rewrite chip_read_status.
  destruct (c_busy c) as [| b] eqn:Eb; cbn [Nat.eqb Nat.pred].
  - reflexivity.
  - cbn [Z.eqb]. rewrite IH by (cbn; lia). reflexivity.
Qed.

(** With no more fuel than the chip has busy polls left, the ready poll
    is still going on. *)
Lemma chip_wait_ready_short (fuel : nat) (e : eeprom) (c : chip) :
  (fuel <= c_busy c)%nat -> fst (wait_ready fuel e c) = false.
Proof.
  revert c. induction fuel as [| fuel IH]; intros c Hb; [reflexivity |].
  cbn [wait_ready]. rewrite chip_read_status.
  destruct (c_busy c) as [| b] eqn:Eb; [lia |].
  cbn [Nat.eqb Nat.pred Z.eqb]. apply IH. cbn. lia.
Qed.

(** ** Write-disable is never sent: claim C10 *)

(** None of them is the message of [diable_write]. *)
Lemma issued_not_disable (e : eeprom) (ev : bus_event) :
  2 <= addr_bits e <= 13 ->
  issued e ev ->
  ev_msg ev <> send_command_msg e OPCODE_EWEN SUBCODE_EWDS.
Proof.
  intros Ha Hi Heq.
  assert (Hsub : forall subop, 0 < subop < 4 ->
            send_command_msg e OPCODE_EWEN subop
            <> send_command_msg e OPCODE_EWEN SUBCODE_EWDS).
  { intros subop Hs H.
    destruct (send_command_header e OPCODE_EWEN subop) as (Hm1 & Hv1 & _);
      [unfold OPCODE_EWEN; lia | lia | lia |].
    destruct (send_command_header e OPCODE_EWEN SUBCODE_EWDS) as (Hm2 & Hv2 & _);
      [unfold OPCODE_EWEN; lia | unfold SUBCODE_EWDS; lia | lia |].
    rewrite Hm1, Hm2 in H.
    apply (f_equal (fun m => be_value (tx_bytes (hd xfer_zero m)))) in H.
    cbn [hd] in H.
    change (be_value (tx_bytes (prepare_cmd e OPCODE_EWEN
                                  (Z.shiftl subop (addr_bits e - 2)) 0))
            = be_value (tx_bytes (prepare_cmd e OPCODE_EWEN
                                    (Z.shiftl SUBCODE_EWDS (addr_bits e - 2)) 0)))
      in H.
    rewrite Hv1, Hv2 in H. unfold SUBCODE_EWDS in H.
    assert (0 < 2 ^ (addr_bits e - 2)) by (apply Z.pow_pos_nonneg; lia).
    nia. }
  destruct Hi as [Hi | [(n & a & Hi) | [(a & data & n & Hi) | [Hi | Hi]]]];
    rewrite Hi in Heq.
  - discriminate Heq.
  - discriminate Heq.
  - discriminate Heq.
  - apply (Hsub SUBCODE_EWEN); [unfold SUBCODE_EWEN; lia | exact Heq].
  - apply (Hsub SUBCODE_ERAL); [unfold SUBCODE_ERAL; lia | exact Heq].
Qed.

Section Issued.

Context {D : Type} {bus : SpiBus D}.
Variable e : eeprom.

Let sent (l : logged D) : Prop := Forall (issued e) (journal l).

Lemma ioctl_issued (l : logged D) (msg : list spi_ioc_transfer) :
  sent l ->
  (forall ret rx, issued e (mk_event (spi_fd e) msg ret rx)) ->
  sent (snd (ioctl l (spi_fd e) msg)).
Proof.
  intros Hl Hm. rewrite logged_ioctl. cbn [snd journal].
  apply Forall_app. split; [exact Hl |]. constructor; [apply Hm | constructor].
Qed.

Lemma read_data_issued (n a : Z) (l : logged D) :
  sent l -> sent (snd (read_data e n a l)).
Proof.
  intros Hl. apply ioctl_issued; [exact Hl |].
  intros ret rx. right. left. now exists n, a.
Qed.

Lemma read_status_issued (l : logged D) :
  sent l -> sent (snd (read_status e l)).
Proof.
  intros Hl.
  replace (snd (read_status e l))
    with (snd (ioctl l (spi_fd e) read_status_msg)).
  - apply ioctl_issued; [exact Hl |]. intros ret rx. now left.
  - unfold read_status.
    destruct (ioctl l (spi_fd e) read_status_msg) as [[ret rx] l'].
    reflexivity.
Qed.

Lemma write_data_issued (a : Z) (data : list Z) (n : Z) (l : logged D) :
  sent l -> sent (snd (write_data e a data n l)).
Proof.
  intros Hl.
  replace (snd (write_data e a data n l))
    with (snd (ioctl l (spi_fd e) (write_data_msg e a data n))).
  - apply ioctl_issued; [exact Hl |].
    intros ret rx. right. right. left. now exists a, data, n.
  - unfold write_data.
    destruct (ioctl l (spi_fd e) (write_data_msg e a data n)) as [[ret rx] l'].
    reflexivity.
Qed.

Lemma send_command_issued (subop : Z) (l : logged D) :
  subop = SUBCODE_EWEN \/ subop = SUBCODE_ERAL ->
  sent l -> sent (snd (send_command e OPCODE_EWEN subop l)).
Proof.
  intros Hs Hl.
  replace (snd (send_command e OPCODE_EWEN subop l))
    with (snd (ioctl l (spi_fd e) (send_command_msg e OPCODE_EWEN subop))).
  - apply ioctl_issued; [exact Hl |].
    intros ret rx. right. right. right.
    destruct Hs as [-> | ->]; [now left | now right].
  - unfold send_command.
    destruct (ioctl l (spi_fd e) (send_command_msg e OPCODE_EWEN subop))
      as [[ret rx] l'].
    reflexivity.
Qed.

Lemma eeprom_read_loop_issued (n : nat) (step i : Z) (buf : list Z)
  (l : logged D) :
  sent l -> sent (snd (eeprom_read_loop n e step i buf l)).
Proof.
  revert i buf l. induction n as [| n IH]; intros i buf l Hl; [exact Hl |].
  cbn [eeprom_read_loop]. destruct (i <? size e); [| exact Hl].
  pose proof (read_data_issued step i l Hl) as H1.
  destruct (read_data e step i l) as [[ret rx] l1]. cbn [snd] in H1.
  destruct (ret <? 0); [exact H1 |]. now apply IH.
Qed.

Lemma wait_ready_issued (fuel : nat) (l : logged D) :
  sent l -> sent (snd (wait_ready fuel e l)).
Proof.
  revert l. induction fuel as [| fuel IH]; intros l Hl; [exact Hl |].
  cbn [wait_ready].
  pose proof (read_status_issued l Hl) as H1.
  destruct (read_status e l) as [status l1]. cbn [snd] in H1.
  destruct (status =? 255); [exact H1 |]. now apply IH.
Qed.

Lemma eeprom_program_loop_issued (fuel n : nat) (step i : Z) (data : list Z)
  (l : logged D) :
  sent l -> sent (snd (eeprom_program_loop fuel n e step i data l)).
Proof.
  revert i l. induction n as [| n IH]; intros i l Hl; [exact Hl |].
  cbn [eeprom_program_loop]. destruct (i <? size e); [| exact Hl].
  pose proof (write_data_issued (i / step) (skipn (Z.to_nat i) data) step l Hl)
    as H1.
  destruct (write_data e (i / step) (skipn (Z.to_nat i) data) step l)
    as [ret l1].
  cbn [snd] in H1. destruct (ret <? 0); [exact H1 |].
  pose proof (wait_ready_issued fuel l1 H1) as H2.
  destruct (wait_ready fuel e l1) as [ready l2]. cbn [snd] in H2.
  destruct ready; [now apply IH | exact H2].
Qed.

End Issued.

(** The enable latch of the chip changes with control commands only. *)
Lemma chip_ioctl_pair_wen (c : chip) (fd : Z) (x0 x1 : spi_ioc_transfer) :
  c_wen (snd (chip_ioctl c fd [x0; x1])) = c_wen c.
Proof.
  unfold chip_ioctl.
  repeat match goal with
         | |- context [match ?x with _ => _ end] => destruct x
         end; reflexivity.
Qed.

Lemma chip_write_data_wen (e : eeprom) (a : Z) (data : list Z) (n : Z)
  (c : chip) :
  c_wen (snd (write_data e a data n c)) = c_wen c.
Proof.
  unfold write_data.
  pose proof (chip_ioctl_pair_wen c (spi_fd e)
                (set_speed_hz (prepare_cmd e OPCODE_WRITE a 0) 100000)
                {| tx_buf := Some (firstn (Z.to_nat (uint32 n)) data);
                   rx_buf := false; len := uint32 n;
                   speed_hz := 100000; bits_per_word := 8 |}) as H.
  change (ioctl c (spi_fd e) (write_data_msg e a data n))
    with (chip_ioctl c (spi_fd e) (write_data_msg e a data n)).
  unfold write_data_msg.
  destruct (chip_ioctl c (spi_fd e) _) as [[ret rx] c']. exact H.
Qed.

Lemma chip_wait_ready_wen (fuel : nat) (e : eeprom) (c : chip) :
  c_wen (snd (wait_ready fuel e c)) = c_wen c.
Proof.
  revert c. induction fuel as [| fuel IH]; intros c; [reflexivity |].
  cbn [wait_ready]. rewrite chip_read_status.
  destruct (_ =? 255); [reflexivity |]. rewrite IH. reflexivity.
Qed.

Lemma chip_program_loop_wen (fuel n : nat) (e : eeprom) (step i : Z)
  (data : list Z) (c : chip) :
  c_wen (snd (eeprom_program_loop fuel n e step i data c)) = c_wen c.
Proof.
  revert i c. induction n as [| n IH]; intros i c; [reflexivity |].
  cbn [eeprom_program_loop]. destruct (i <? size e); [| reflexivity].
  pose proof (chip_write_data_wen e (i / step) (skipn (Z.to_nat i) data) step c)
    as H1.
  destruct (write_data e (i / step) (skipn (Z.to_nat i) data) step c)
    as [ret c1].
  cbn [snd] in H1. destruct (ret <? 0); [exact H1 |].
  pose proof (chip_wait_ready_wen fuel e c1) as H2.
  destruct (wait_ready fuel e c1) as [ready c2]. cbn [snd] in H2.
  destruct ready; [rewrite IH | cbn [snd]]; congruence.
Qed.

(** A message of one header on the chip. *)
Lemma chip_ioctl_header (c : chip) (fd : Z) (e : eeprom) (op addr hz : Z) :
  chip_ioctl c fd [set_speed_hz (prepare_cmd e op addr 0) hz]
  = (2, [],
     match chip_decode (c_abits c) (tx_bytes (prepare_cmd e op addr 0)) with
     | Some cmd => if Nat.eqb (c_busy c) 0 then chip_control c cmd else c
     | None => c
     end).
Proof.
  change (chip_ioctl c fd [set_speed_hz (prepare_cmd e op addr 0) hz])
    with (match chip_decode (c_abits c) (tx_bytes (prepare_cmd e op addr 0))
          with
          | Some cmd =>
              (2, @nil Z, if Nat.eqb (c_busy c) 0 then chip_control c cmd else c)
          | None => (2, @nil Z, c)
          end).
  destruct (chip_decode (c_abits c) (tx_bytes (prepare_cmd e op addr 0)));
    reflexivity.
Qed.

(** A control command on an idle chip of the profile's address width. *)
Lemma chip_send_command (e : eeprom) (subop : Z) (c : chip) :
  0 <= subop < 4 -> 2 <= addr_bits e <= 13 ->
  c_abits c = addr_bits e -> c_busy c = 0%nat ->
  send_command e OPCODE_EWEN subop c
  = (2, chip_control c {| cmd_opcode := 0;
                          cmd_addr := subop * 2 ^ (addr_bits e - 2);
                          cmd_trailing := 0 |}) /\
  Z.shiftr (subop * 2 ^ (addr_bits e - 2)) (c_abits c - 2) = subop.
Proof.
  intros Hs Ha Hab Hbusy.
  destruct (send_command_header e OPCODE_EWEN subop) as (Hm & _ & Hr);
    [unfold OPCODE_EWEN; lia | lia | lia |].
  split.
  - unfold send_command. rewrite Hm.
    change (ioctl c (spi_fd e) ?m) with (chip_ioctl c (spi_fd e) m).
    rewrite chip_ioctl_header, Hab.
    rewrite chip_decode_header by (unfold OPCODE_EWEN; lia).
    rewrite Hbusy. cbn [Nat.eqb].
    rewrite Z.add_0_r, Z.pow_0_r, Z.div_1_r.
    rewrite Z.shiftl_mul_pow2 by lia.
    rewrite Z.mod_small by lia. reflexivity.
  - rewrite Hab. rewrite <- Z.shiftl_mul_pow2 by lia.
    rewrite Z.shiftr_shiftl_l by lia.
    rewrite Z.sub_diag. apply Z.shiftl_0_r.
Qed.

Lemma chip_enable_write (e : eeprom) (c : chip) :
  2 <= addr_bits e <= 13 -> c_abits c = addr_bits e -> c_busy c = 0%nat ->
  enable_write e c = (2, chip_update c (c_mem c) true 0%nat).
Proof.
  intros Ha Hab Hbusy. unfold enable_write.
  destruct (chip_send_command e SUBCODE_EWEN c) as [-> Hsub];
    [unfold SUBCODE_EWEN; lia | lia | exact Hab | exact Hbusy |].
  unfold chip_control. cbn [cmd_trailing cmd_opcode cmd_addr].
  rewrite Hsub, Hbusy. reflexivity.
Qed.

Lemma chip_disable_write (e : eeprom) (c : chip) :
  2 <= addr_bits e <= 13 -> c_abits c = addr_bits e -> c_busy c = 0%nat ->
  diable_write e c = (2, chip_update c (c_mem c) false 0%nat).
Proof.
  intros Ha Hab Hbusy. unfold diable_write.
  destruct (chip_send_command e SUBCODE_EWDS c) as [-> Hsub];
    [unfold SUBCODE_EWDS; lia | lia | exact Hab | exact Hbusy |].
  unfold chip_control. cbn [cmd_trailing cmd_opcode cmd_addr].
  rewrite Hsub, Hbusy. reflexivity.
Qed.

Lemma chip_erase_all (e : eeprom) (c : chip) :
  2 <= addr_bits e <= 13 -> c_abits c = addr_bits e -> c_busy c = 0%nat ->
  c_wen c = true ->
  erase_all e c = (2, chip_update c (fun _ => 255) true (c_tw c)).
Proof.
  intros Ha Hab Hbusy Hwen. unfold erase_all.
  destruct (chip_send_command e SUBCODE_ERAL c) as [-> Hsub];
    [unfold SUBCODE_ERAL; lia | lia | exact Hab | exact Hbusy |].
  unfold chip_control. cbn [cmd_trailing cmd_opcode cmd_addr].
  rewrite Hsub, Hwen. reflexivity.
Qed.

(** Every message of a run of the tool is one of [issued]. *)
Lemma eeprom_run_issued {D : Type} {bus : SpiBus D} (fuel : nat)
  (cfg : eeprom_cfg) (spif : Z) (out_ok : bool) (in_file : option (list Z))
  (d : D) :
  Forall (issued (with_fd (cfg_eeprom cfg) spif))
    (journal (run_bus (eeprom_run fuel cfg spif out_ok in_file (start_log d)))).
Proof.
  set (e := with_fd (cfg_eeprom cfg) spif).
  assert (H0 : Forall (issued e) (journal (start_log d))) by constructor.
  unfold eeprom_run. destruct (spif <? 0); [exact H0 |].
  fold (with_fd (cfg_eeprom cfg) spif). fold e.
  cbn [action]. destruct (action cfg).
  - exact H0.
  - unfold eeprom_read. cbn [cfg_eeprom burst_read].
    destruct out_ok; cbn [negb]; [| exact H0].
    match goal with
    | |- context [eeprom_read_loop ?n e ?s ?i ?b ?l] =>
        pose proof (eeprom_read_loop_issued e n s i b l H0) as H1;
        destruct (eeprom_read_loop n e s i b l) as [[buf |] l1]
    end; exact H1.
  - unfold eeprom_erase. cbn [cfg_eeprom]. unfold enable_write, erase_all.
    pose proof (send_command_issued e SUBCODE_EWEN (start_log d)
                  (or_introl eq_refl) H0) as H1.
    destruct (send_command e OPCODE_EWEN SUBCODE_EWEN (start_log d))
      as [ret l1].
    cbn [snd] in H1. destruct (ret <? 0); [exact H1 |].
    pose proof (send_command_issued e SUBCODE_ERAL l1 (or_intror eq_refl) H1)
      as H2.
    destruct (send_command e OPCODE_EWEN SUBCODE_ERAL l1) as [ret2 l2].
    cbn [snd] in H2. destruct (ret2 <? 0); exact H2.
  - unfold eeprom_write. cbn [cfg_eeprom].
    destruct in_file as [content |]; [| exact H0].
    destruct (negb (Z.of_nat (List.length content) =? size e)); [exact H0 |].
    destruct (negb (Z.of_nat (List.length (firstn (Z.to_nat (size e)) content))
                    =? size e)); [exact H0 |].
    unfold enable_write.
    pose proof (send_command_issued e SUBCODE_EWEN (start_log d)
                  (or_introl eq_refl) H0) as H1.
    destruct (send_command e OPCODE_EWEN SUBCODE_EWEN (start_log d))
      as [ret l1].
    cbn [snd] in H1. destruct (ret <? 0); [exact H1 |].
    unfold eeprom_program_array.
    match goal with
    | |- context [eeprom_program_loop ?f ?n e ?s ?i ?b ?l] =>
        pose proof (eeprom_program_loop_issued e f n s i b l H1) as H2;
        destruct (eeprom_program_loop f n e s i b l) as [[v |] l2]
    end; exact H2.
Qed.

(** C10.  In the journal of a run of the tool, whatever the action, the
    bus and the files, no message is the one [diable_write] sends; and on
    the simulated chip, idle and of the profile's address width, a write
    or an erase that runs to its end leaves programming enabled, where
    [diable_write] would have disabled it. *)
Theorem write_disable_never_sent {D : Type} {bus : SpiBus D} (fuel : nat)
  (cfg : eeprom_cfg) (spif : Z) (out_ok : bool) (in_file : option (list Z))
  (d : D) (c : chip) :
  2 <= addr_bits (cfg_eeprom cfg) <= 13 ->
  let e := with_fd (cfg_eeprom cfg) spif in
  (exists ret rx,
     journal (snd (diable_write e (start_log d)))
     = [mk_event spif (send_command_msg e OPCODE_EWEN SUBCODE_EWDS) ret rx]) /\
  Forall (fun ev => ev_msg ev <> send_command_msg e OPCODE_EWEN SUBCODE_EWDS)
    (journal (run_bus (eeprom_run fuel cfg spif out_ok in_file (start_log d))))
  /\
  (c_busy c = 0%nat -> c_abits c = addr_bits (cfg_eeprom cfg) ->
   (action cfg = EEPROM_WRITE \/ action cfg = EEPROM_ERASE) ->
   run_value (eeprom_run fuel cfg spif out_ok in_file c) = Returned None ->
   c_wen (run_bus (eeprom_run fuel cfg spif out_ok in_file c)) = true /\
   c_wen (snd (diable_write e c)) = false).
Proof.
  intros Ha e. split; [| split].
  - unfold diable_write, send_command. rewrite logged_ioctl.
    cbn [snd journal start_log app]. eexists. eexists. reflexivity.
  - eapply Forall_impl; [| apply eeprom_run_issued].
    intros ev Hev. apply issued_not_disable; [exact Ha | exact Hev].
  - intros Hbusy Hab Hact Hret.
    split; [| rewrite (chip_disable_write e c Ha Hab Hbusy); reflexivity].
    revert Hret. unfold eeprom_run.
    destruct (spif <? 0); [discriminate |].
    fold (with_fd (cfg_eeprom cfg) spif). fold e. cbn [action].
    destruct Hact as [-> | ->].
    + unfold eeprom_write. cbn [cfg_eeprom].
      destruct in_file as [content |]; [| discriminate].
      destruct (negb (Z.of_nat (List.length content) =? size e));
        [discriminate |].
      destruct (negb (Z.of_nat (List.length (firstn (Z.to_nat (size e)) content))
                      =? size e)); [discriminate |].
      rewrite (chip_enable_write e c Ha Hab Hbusy).
      cbn [Z.ltb Z.compare]. unfold eeprom_program_array.
      match goal with
      | |- context [eeprom_program_loop ?f ?n e ?s ?i ?b ?l] =>
          pose proof (chip_program_loop_wen f n e s i b l) as Hw;
          destruct (eeprom_program_loop f n e s i b l) as [[v |] c2]
      end; [| discriminate].
      intros _. exact Hw.
    + unfold eeprom_erase. cbn [cfg_eeprom].
      rewrite (chip_enable_write e c Ha Hab Hbusy).
      cbn [Z.ltb Z.compare].
      rewrite chip_erase_all by (try exact Ha; try exact Hab; reflexivity).
      cbn [Z.ltb Z.compare]. intros _. reflexivity.
Qed.

(** C10 for a write of 32 bytes to the 93c06: the write runs to its end,
    no message is the write-disable one, and programming stays enabled. *)
Lemma write_disable_never_sent_witness :
  let cfg := config_of profile_93c06_x16 EEPROM_WRITE false in
  let c := blank_chip 5 true in
  let r := eeprom_run 3 cfg 3 true (Some (repeat 170 32)) c in
  Forall (fun ev => ev_msg ev
                    <> send_command_msg (with_fd profile_93c06_x16 3)
                         OPCODE_EWEN SUBCODE_EWDS)
    (journal (run_bus (eeprom_run 3 cfg 3 true (Some (repeat 170 32))
                         (start_log c)))) /\
  run_value r = Returned None /\
  c_wen (run_bus r) = true.
Proof.
  intros cfg c r.
  destruct (write_disable_never_sent 3 cfg 3 true (Some (repeat 170 32)) c c)
    as (_ & Hj & Hc); [simpl; lia |].
  split; [exact Hj |].
  split; [vm_compute; reflexivity |].
  apply Hc; [reflexivity | reflexivity | now left | vm_compute; reflexivity].
Defined.

(** ** Writing and reading back on the chip: claims C2 and C6 *)

Lemma mem_bytes_length (mem : Z -> Z) (i : Z) (n : nat) :
  List.length (mem_bytes mem i n) = n.
Proof. unfold mem_bytes. rewrite length_map. apply length_seq. Qed.

Lemma mem_bytes_nth (mem : Z -> Z) (i : Z) (n k : nat) (dflt : Z) :
  (k < n)%nat -> nth k (mem_bytes mem i n) dflt = mem (i + Z.of_nat k).
Proof.
  intros Hk. unfold mem_bytes.
  rewrite (nth_indep _ dflt (mem (i + Z.of_nat 0)))
    by (rewrite length_map, length_seq; exact Hk).
  rewrite (map_nth (fun k => mem (i + Z.of_nat k))).
  rewrite seq_nth by exact Hk. reflexivity.
Qed.

(** A list is the bytes of an array when it agrees with it cell by
    cell. *)
Lemma mem_bytes_ext (mem : Z -> Z) (i : Z) (l : list Z) (dflt : Z) :
  (forall k, (k < List.length l)%nat -> mem (i + Z.of_nat k) = nth k l dflt) ->
  mem_bytes mem i (List.length l) = l.
Proof.
  intros H. apply (nth_ext _ _ dflt dflt); [apply mem_bytes_length |].
  intros k Hk. rewrite mem_bytes_length in Hk.
  rewrite mem_bytes_nth by exact Hk. now apply H.
Qed.

Lemma mem_bytes_app (mem : Z -> Z) (i : Z) (n m : nat) :
  mem_bytes mem i (n + m)
  = mem_bytes mem i n ++ mem_bytes mem (i + Z.of_nat n) m.
Proof.
  apply (nth_ext _ _ 0 0).
  - rewrite length_app, !mem_bytes_length. reflexivity.
  - intros k Hk. rewrite mem_bytes_length in Hk.
    rewrite mem_bytes_nth by exact Hk.
    destruct (Nat.lt_ge_cases k n) as [Hlt | Hge].
    + rewrite app_nth1 by (rewrite mem_bytes_length; exact Hlt).
      rewrite mem_bytes_nth by exact Hlt. reflexivity.
    + rewrite app_nth2 by (rewrite mem_bytes_length; exact Hge).
      rewrite mem_bytes_length, mem_bytes_nth by lia.
      f_equal. lia.
Qed.

(** Two arrays that agree on a range have the same bytes there. *)
Lemma mem_bytes_agree (mem mem' : Z -> Z) (i : Z) (n : nat) :
  (forall j, i <= j < i + Z.of_nat n -> mem' j = mem j) ->
  mem_bytes mem' i n = mem_bytes mem i n.
Proof.
  intros H. unfold mem_bytes. apply map_ext_in.
  intros k Hk. apply in_seq in Hk. apply H. lia.
Qed.

(** Receiving [n] bytes into a buffer that holds them: the bytes before
    the offset stay, the bytes received follow. *)
Lemma overlay_full (rx old : list Z) :
  (List.length rx <= List.length old)%nat ->
  overlay rx old = rx ++ skipn (List.length rx) old.
Proof.
  revert old. induction rx as [| r rx IH]; intros old Hl.
  - destruct old; reflexivity.
  - destruct old as [| o old]; [cbn in Hl; lia |].
    cbn [overlay List.length skipn app]. f_equal. apply IH. cbn in Hl. lia.
Qed.

Lemma deposit_firstn (buf rx : list Z) (i n : Z) :
  0 <= i -> 0 <= n -> List.length rx = Z.to_nat n ->
  i + n <= Z.of_nat (List.length buf) ->
  List.length (deposit buf i n rx) = List.length buf /\
  firstn (Z.to_nat (i + n)) (deposit buf i n rx)
  = firstn (Z.to_nat i) buf ++ rx.
Proof.
  intros Hi Hn Hrx Hfit. unfold deposit.
  rewrite (firstn_all2 rx) by lia.
  rewrite overlay_full by (rewrite length_skipn; lia).
  split.
  - rewrite !length_app, length_firstn, !length_skipn. lia.
  - rewrite app_assoc.
    rewrite firstn_app.
    rewrite firstn_all2 by (rewrite length_app, length_firstn; lia).
    replace (Z.to_nat (i + n) - List.length (firstn (Z.to_nat i) buf ++ rx))%nat
      with 0%nat by (rewrite length_app, length_firstn; lia).
    cbn [firstn]. apply app_nil_r.
Qed.

(** A word write on an idle chip of the profile's address width with
    programming enabled: the word at the address, taken modulo the
    address width, is stored and the write cycle starts. *)
Lemma chip_write_data (e : eeprom) (a : Z) (data : list Z) (n : Z) (c : chip) :
  0 <= addr_bits e <= 13 -> c_abits c = addr_bits e ->
  c_busy c = 0%nat -> c_wen c = true ->
  0 <= n < 2 ^ 32 -> c_wsize c <= n ->
  write_data e a data n c
  = (2 + n,
     chip_update c
       (chip_store c (a mod 2 ^ addr_bits e) (firstn (Z.to_nat n) data))
       true (c_tw c)).
Proof.
  intros Ha Hab Hbusy Hwen Hn Hws.
  unfold write_data, write_data_msg.
  change (ioctl c (spi_fd e) ?m) with (chip_ioctl c (spi_fd e) m).
  unfold chip_ioctl.
  change (firstn
            (Z.to_nat (len (set_speed_hz (prepare_cmd e OPCODE_WRITE a 0) 100000)))
            (tx_bytes (set_speed_hz (prepare_cmd e OPCODE_WRITE a 0) 100000)))
    with (tx_bytes (prepare_cmd e OPCODE_WRITE a 0)).
  rewrite Hab, chip_decode_header by (unfold OPCODE_WRITE; lia).
  cbn [cmd_opcode cmd_trailing cmd_addr len tx_buf rx_buf set_speed_hz
       prepare_cmd].
  rewrite Hbusy, Hwen. cbn [Nat.eqb negb].
  unfold uint32. rewrite (Z.mod_small n) by lia.
  replace (c_wsize c <=? n) with true by (symmetry; apply Z.leb_le; lia).
  unfold OPCODE_WRITE, OPCODE_READ. cbn [Z.eqb Pos.eqb andb].
  rewrite Z.add_0_r, Z.pow_0_r, Z.div_1_r. reflexivity.
Qed.

(** A read on an idle chip of the profile's address width: the chip takes
    as word address the address field without its lowest bit, which it
    sees as the dummy bit. *)
Lemma chip_read_data (e : eeprom) (n a : Z) (c : chip) :
  0 <= addr_bits e <= 12 -> c_abits c = addr_bits e -> c_busy c = 0%nat ->
  0 <= n < 2 ^ 32 ->
  read_data e n a c
  = (2 + n,
     chip_read c (a mod 2 ^ (addr_bits e + 1) / 2) (Z.to_nat n), c).
Proof.
  intros Ha Hab Hbusy Hn.
  unfold read_data, read_data_msg.
  change (ioctl c (spi_fd e) ?m) with (chip_ioctl c (spi_fd e) m).
  unfold chip_ioctl.
  change (firstn
            (Z.to_nat (len (set_speed_hz (prepare_cmd e OPCODE_READ a 1) 100000)))
            (tx_bytes (set_speed_hz (prepare_cmd e OPCODE_READ a 1) 100000)))
    with (tx_bytes (prepare_cmd e OPCODE_READ a 1)).
  rewrite Hab, chip_decode_header by (unfold OPCODE_READ; lia).
  cbn [cmd_opcode cmd_trailing cmd_addr len tx_buf rx_buf set_speed_hz
       prepare_cmd].
  rewrite Hbusy. cbn [Nat.eqb negb].
  unfold uint32. rewrite (Z.mod_small n) by lia.
  unfold OPCODE_READ. cbn [Z.eqb Pos.eqb andb].
  change (2 ^ 1) with 2. reflexivity.
Qed.

(** The bytes a read drives out when it stays inside the array. *)
Lemma chip_read_bytes (c : chip) (w i : Z) (n : nat) :
  w * c_wsize c = i -> 0 <= i -> i + Z.of_nat n <= c_capacity c ->
  chip_read c w n = mem_bytes (c_mem c) i n.
Proof.
  intros Hw Hi Hfit. unfold chip_read, mem_bytes.
  apply map_ext_in. intros k Hk. apply in_seq in Hk.
  rewrite Hw, Z.mod_small by lia. reflexivity.
Qed.

Lemma firstn_plus (n m : nat) (l : list Z) :
  firstn (n + m) l = firstn n l ++ firstn m (skipn n l).
Proof.
  rewrite firstn_skipn_comm.
  rewrite <- (firstn_skipn n (firstn (n + m) l)) at 1.
  f_equal. rewrite firstn_firstn. f_equal. lia.
Qed.

Section RoundTrip.

Variable e : eeprom.
Variable img : list Z.

Let step : Z := if is_x16 e then 2 else 1.

Hypothesis Ha : 2 <= addr_bits e <= 12.
Hypothesis Himg : Z.of_nat (List.length img) = size e.
Hypothesis Hfit : size e <= step * 2 ^ addr_bits e.
Hypothesis Hwords : size e mod step = 0.

(** The write loop from offset [i]: the cells below [i] hold the image
    already; at the end the whole image is in the array. *)
Lemma chip_program_loop (fuel n : nat) (i : Z) (c : chip) :
  chip_matches e c -> c_wen c = true -> (c_tw c < fuel)%nat ->
  0 <= i <= size e -> i mod step = 0 ->
  size e - i <= Z.of_nat n * step ->
  mem_bytes (c_mem c) 0 (Z.to_nat i) = firstn (Z.to_nat i) img ->
  exists c',
    eeprom_program_loop fuel n e step i img c = (Returned None, c') /\
    chip_matches e c' /\ c_wen c' = true /\ c_tw c' = c_tw c /\
    mem_bytes (c_mem c') 0 (Z.to_nat (size e)) = img.
Proof.
  assert (Hs12 : step = 1 \/ step = 2)
    by (unfold step; destruct (is_x16 e); auto).
  assert (HPA : 0 < 2 ^ addr_bits e) by (apply Z.pow_pos_nonneg; lia).
  revert i c. induction n as [| n IH];
    intros i c Hm Hwen Htw Hi Hmod Hn Hmem.
  - assert (i = size e) by lia. subst i.
    exists c. cbn [eeprom_program_loop].
    repeat split; try apply Hm; try assumption.
    rewrite Hmem, <- Himg, Nat2Z.id. apply firstn_all.
  - cbn [eeprom_program_loop].
    destruct (i <? size e) eqn:Elt.
    2:{ apply Z.ltb_ge in Elt. assert (i = size e) by lia. subst i.
        exists c. repeat split; try apply Hm; try assumption.
        rewrite Hmem, <- Himg, Nat2Z.id. apply firstn_all. }
    apply Z.ltb_lt in Elt.
    destruct Hm as (Hab & Hx & Hbusy).
    assert (Hws : c_wsize c = step) by (unfold c_wsize, step; now rewrite Hx).
    assert (Hnext : i + step <= size e)
      by (destruct Hs12 as [-> | ->]; Z.div_mod_to_equations; lia).
    assert (Hword : i / step * step = i)
      by (destruct Hs12 as [-> | ->]; Z.div_mod_to_equations; lia).
    assert (Hwlt : 0 <= i / step < 2 ^ addr_bits e).
    { split; [apply Z.div_pos; lia |].
      apply Z.div_lt_upper_bound; lia. }
    rewrite chip_write_data; try assumption; try lia.
    replace (2 + step <? 0) with false
      by (destruct Hs12 as [-> | ->]; reflexivity).
    rewrite chip_wait_ready by exact Htw.
    cbn [c_mem c_wen chip_update].
    rewrite (Z.mod_small (i / step)) by exact Hwlt.
    set (data := firstn (Z.to_nat step) (skipn (Z.to_nat i) img)).
    assert (Hdl : List.length data = Z.to_nat step).
    { unfold data. rewrite length_firstn, length_skipn. lia. }
    set (mem' := chip_store c (i / step) data).
    destruct (IH (i + step)
                (chip_update (chip_update c mem' true (c_tw c)) mem' true 0%nat))
      as (c' & Hrun & Hm' & Hwen' & Htw' & Hmem');
      try assumption; cbn [c_tw chip_update]; try lia.
    + repeat split; assumption.
    + reflexivity.
    + destruct Hs12 as [-> | ->]; Z.div_mod_to_equations; lia.
    + cbn [c_mem chip_update].
      rewrite Z2Nat.inj_add, mem_bytes_app, firstn_plus by lia.
      f_equal.
      * rewrite <- Hmem. apply mem_bytes_agree.
        intros j Hj. unfold mem', chip_store. rewrite Hws, Hword.
        replace (0 <=? j - i) with false; [reflexivity |].
        symmetry. apply Z.leb_gt. lia.
      * rewrite Z2Nat.id by lia. fold data. rewrite <- Hdl.
        apply (mem_bytes_ext _ _ _ 255).
        intros k Hk. unfold mem', chip_store. rewrite Hws, Hword.
        replace (0 + i + Z.of_nat k - i) with (Z.of_nat k) by lia.
        replace (0 <=? Z.of_nat k) with true by (symmetry; apply Z.leb_le; lia).
        replace (Z.of_nat k <? step) with true
          by (symmetry; apply Z.ltb_lt; lia).
        cbn [andb]. rewrite Nat2Z.id. reflexivity.
    + exists c'. repeat split; try apply Hm'; assumption.
Qed.

End RoundTrip.

(** The read loop with step [s] from offset [i] on an idle chip, when
    every offset it visits is the first byte of the word the chip
    decodes from the header: the buffer ends up holding the array. *)
Lemma chip_read_loop (e : eeprom) (n : nat) (s i : Z) (buf : list Z)
  (c : chip) :
  0 <= addr_bits e <= 12 -> chip_matches e c ->
  0 < s < 2 ^ 32 -> size e mod s = 0 -> size e <= c_capacity c ->
  (forall j, 0 <= j < size e -> j mod s = 0 ->
             j mod 2 ^ (addr_bits e + 1) / 2 * c_wsize c = j) ->
  0 <= i <= size e -> i mod s = 0 ->
  size e - i <= Z.of_nat n * s ->
  Z.of_nat (List.length buf) = size e ->
  firstn (Z.to_nat i) buf = mem_bytes (c_mem c) 0 (Z.to_nat i) ->
  eeprom_read_loop n e s i buf c
  = (Some (mem_bytes (c_mem c) 0 (Z.to_nat (size e))), c).
Proof.
  intros Ha Hm Hs Hwords Hcap Halign.
  assert (Hdone : forall buf,
            Z.of_nat (List.length buf) = size e ->
            firstn (Z.to_nat (size e)) buf
            = mem_bytes (c_mem c) 0 (Z.to_nat (size e)) ->
            buf = mem_bytes (c_mem c) 0 (Z.to_nat (size e))).
  { intros b Hl Hb. rewrite <- Hb. symmetry. apply firstn_all2. lia. }
  revert i buf. induction n as [| n IH]; intros i buf Hi Hmod Hn Hlen Hbuf.
  - assert (i = size e) by lia. subst i. cbn [eeprom_read_loop].
    rewrite (Hdone buf Hlen Hbuf). reflexivity.
  - cbn [eeprom_read_loop].
    destruct (i <? size e) eqn:Elt.
    2:{ apply Z.ltb_ge in Elt. assert (i = size e) by lia. subst i.
        rewrite (Hdone buf Hlen Hbuf). reflexivity. }
    apply Z.ltb_lt in Elt.
    destruct Hm as (Hab & Hx & Hbusy).
    assert (Hnext : i + s <= size e /\ (i + s) mod s = 0).
    { destruct (proj1 (Z.mod_divide i s ltac:(lia)) Hmod) as [q Hq].
      destruct (proj1 (Z.mod_divide (size e) s ltac:(lia)) Hwords) as [p Hp].
      assert (Hqp : q + 1 <= p) by nia.
      split; [nia |].
      apply Z.mod_divide; [lia |]. exists (q + 1). lia. }
    destruct Hnext as [Hnext Hmod'].
    rewrite chip_read_data by (try assumption; lia).
    replace (2 + s <? 0) with false by (symmetry; apply Z.ltb_ge; lia).
    rewrite (chip_read_bytes c _ i);
      [| apply Halign; [lia | exact Hmod] | lia | lia].
    unfold uint32. rewrite (Z.mod_small s) by lia.
    destruct (deposit_firstn buf (mem_bytes (c_mem c) i (Z.to_nat s)) i s)
      as [Hlen' Hfirst]; try lia.
    { apply mem_bytes_length. }
    apply IH; try assumption; try lia.
    rewrite Hfirst, Hbuf, Z2Nat.inj_add, mem_bytes_app by lia.
    rewrite Z2Nat.id by lia. reflexivity.
Qed.

(** The read of [eeprom_read] on an idle chip under the same condition:
    the file is the array. *)
Lemma chip_eeprom_read (cfg : eeprom_cfg) (c : chip) :
  let e := cfg_eeprom cfg in
  let step := if burst_read cfg then size e
              else if is_x16 e then 2 else 1 in
  0 <= addr_bits e <= 12 -> chip_matches e c ->
  0 < size e < 2 ^ 32 -> size e mod step = 0 -> size e <= c_capacity c ->
  (forall j, 0 <= j < size e -> j mod step = 0 ->
             j mod 2 ^ (addr_bits e + 1) / 2 * c_wsize c = j) ->
  eeprom_read cfg true c
  = (None, Some (mem_bytes (c_mem c) 0 (Z.to_nat (size e))), c).
Proof.
  intros e step Ha Hm Hsize Hwords Hcap Halign.
  assert (Hstep : 0 < step <= size e).
  { unfold step in *. destruct (burst_read cfg); [lia |].
    destruct (is_x16 e); Z.div_mod_to_equations; lia. }
  unfold eeprom_read. fold e. cbn [negb].
  replace (if burst_read cfg then size e else if is_x16 e then 2 else 1)
    with step by (unfold step; destruct (burst_read cfg); reflexivity).
  rewrite (chip_read_loop e (Z.to_nat (size e)) step 0 (malloc (size e)) c);
    try assumption; try lia.
  - rewrite firstn_all2 by (rewrite mem_bytes_length; lia). reflexivity.
  - apply Z.mod_0_l. lia.
  - rewrite Z2Nat.id by lia. nia.
  - unfold malloc. rewrite repeat_length. lia.
  - reflexivity.
Qed.

(** In x16 organization every even offset is the first byte of the word
    the chip decodes from the READ header made for that offset. *)
Lemma aligned_x16 (e : eeprom) (c : chip) (j : Z) :
  0 <= addr_bits e -> c_x16 c = true -> size e <= 2 * 2 ^ addr_bits e ->
  0 <= j < size e -> j mod 2 = 0 ->
  j mod 2 ^ (addr_bits e + 1) / 2 * c_wsize c = j.
Proof.
  intros Ha Hx Hfit Hj Heven. unfold c_wsize. rewrite Hx.
  rewrite Z.pow_add_r by lia. change (2 ^ 1) with 2.
  rewrite Z.mod_small by lia.
  Z.div_mod_to_equations. lia.
Qed.

(** A burst read visits offset 0 only. *)
Lemma aligned_burst (e : eeprom) (c : chip) (j : Z) :
  0 <= addr_bits e -> 0 <= j < size e -> j mod size e = 0 ->
  j mod 2 ^ (addr_bits e + 1) / 2 * c_wsize c = j.
Proof.
  intros Ha Hj Hmod. rewrite Z.mod_small in Hmod by lia. subst j.
  rewrite Z.mod_0_l by (apply Z.pow_nonzero; lia). reflexivity.
Qed.

(** The read of [eeprom_read] returns the array of an idle chip in x16
    organization, stepped or burst, and in x8 organization with a burst
    read. *)
Lemma chip_eeprom_read_array (e : eeprom) (burst : bool) (c : chip) :
  0 <= addr_bits e <= 12 -> chip_matches e c -> 0 < size e ->
  size e <= (if is_x16 e then 2 else 1) * 2 ^ addr_bits e ->
  size e mod (if is_x16 e then 2 else 1) = 0 ->
  is_x16 e = true \/ burst = true ->
  eeprom_read (config_of e EEPROM_READ burst) true c
  = (None, Some (mem_bytes (c_mem c) 0 (Z.to_nat (size e))), c).
Proof.
  intros Ha Hm Hsize Hfit Hwords Hmode.
  assert (HPA : 0 < 2 ^ addr_bits e <= 2 ^ 12).
  { split; [apply Z.pow_pos_nonneg; lia | apply Z.pow_le_mono_r; lia]. }
  assert (Hcap : size e <= c_capacity c).
  { destruct Hm as (Hab & Hx & _). unfold c_capacity, c_wsize.
    rewrite Hab, Hx. exact Hfit. }
  apply chip_eeprom_read; cbn [cfg_eeprom burst_read config_of];
    try assumption.
  - destruct (is_x16 e); lia.
  - destruct burst; [apply Z.mod_same; lia | exact Hwords].
  - intros j Hj Hmod. destruct burst.
    + now apply aligned_burst.
    + destruct Hmode as [Hx | Hb]; [| discriminate].
      rewrite Hx in *. destruct Hm as (_ & Hcx & _).
      apply aligned_x16; try assumption; try lia. congruence.
Qed.

(** C2 as stated fails: two profiles that [sanitize_input] lets through,
    whose image is twice what their 5 address bits reach.  The write and
    the read run to their end on the chip of that address width, and the
    file read back is not the image: one in 8-bit mode with a burst read,
    one in 16-bit mode with a stepped read. *)
Lemma round_trip_fails :
  let img64 := map Z.of_nat (seq 0 64) in
  let img128 := map Z.of_nat (seq 0 128) in
  let e8 := {| name := "custom"; spi_fd := 3; size := 64; addr_bits := 5;
               flags := EEPROM_ORG; is_x16 := false |} in
  let e16 := {| name := "custom"; spi_fd := 3; size := 128; addr_bits := 5;
                flags := EEPROM_ORG; is_x16 := true |} in
  (sanitize_input (config_of e8 EEPROM_WRITE true) = None /\
   exists c1 c2 out,
     eeprom_write 3 (config_of e8 EEPROM_WRITE true) (Some img64)
       (blank_chip 5 false) = (Returned None, c1) /\
     eeprom_read (config_of e8 EEPROM_READ true) true c1
     = (None, Some out, c2) /\
     out <> img64) /\
  (sanitize_input (config_of e16 EEPROM_WRITE false) = None /\
   exists c1 c2 out,
     eeprom_write 3 (config_of e16 EEPROM_WRITE false) (Some img128)
       (blank_chip 5 true) = (Returned None, c1) /\
     eeprom_read (config_of e16 EEPROM_READ false) true c1
     = (None, Some out, c2) /\
     out <> img128).
Proof.
  intros img64 img128 e8 e16. split.
  - split; [reflexivity |].
    destruct (eeprom_write 3 (config_of e8 EEPROM_WRITE true) (Some img64)
                (blank_chip 5 false)) as [r c1] eqn:Ew.
    destruct (eeprom_read (config_of e8 EEPROM_READ true) true c1)
      as [[v out] c2] eqn:Er.
    assert (Hr : r = Returned None).
    { apply (f_equal fst) in Ew. cbn [fst] in Ew. rewrite <- Ew.
      vm_compute. reflexivity. }
    assert (Hv : (v, out) = (None, Some (skipn 32 img64 ++ skipn 32 img64))).
    { apply (f_equal fst) in Er. cbn [fst] in Er. rewrite <- Er.
      apply (f_equal snd) in Ew. cbn [snd] in Ew. rewrite <- Ew.
      vm_compute. reflexivity. }
    injection Hv as -> ->. subst r.
    exists c1, c2, (skipn 32 img64 ++ skipn 32 img64).
    split; [reflexivity |]. split; [exact Er |].
    vm_compute. discriminate.
  - split; [reflexivity |].
    destruct (eeprom_write 3 (config_of e16 EEPROM_WRITE false) (Some img128)
                (blank_chip 5 true)) as [r c1] eqn:Ew.
    destruct (eeprom_read (config_of e16 EEPROM_READ false) true c1)
      as [[v out] c2] eqn:Er.
    assert (Hr : r = Returned None).
    { apply (f_equal fst) in Ew. cbn [fst] in Ew. rewrite <- Ew.
      vm_compute. reflexivity. }
    assert (Hv : (v, out) = (None, Some (skipn 64 img128 ++ skipn 64 img128))).
    { apply (f_equal fst) in Er. cbn [fst] in Er. rewrite <- Er.
      apply (f_equal snd) in Ew. cbn [snd] in Ew. rewrite <- Ew.
      vm_compute. reflexivity. }
    injection Hv as -> ->. subst r.
    exists c1, c2, (skipn 64 img128 ++ skipn 64 img128).
    split; [reflexivity |]. split; [exact Er |].
    vm_compute. discriminate.
Qed.

(** The write of [eeprom_write] on an idle chip of the profile, for an
    image that fits the address space: it runs to its end given more fuel
    than a write cycle has polls, and leaves the image in the array. *)
Lemma chip_eeprom_write (fuel : nat) (e : eeprom) (img : list Z)
  (burst : bool) (c : chip) :
  2 <= addr_bits e <= 12 ->
  Z.of_nat (List.length img) = size e ->
  size e <= (if is_x16 e then 2 else 1) * 2 ^ addr_bits e ->
  size e mod (if is_x16 e then 2 else 1) = 0 ->
  chip_matches e c -> (c_tw c < fuel)%nat ->
  exists c1,
    eeprom_write fuel (config_of e EEPROM_WRITE burst) (Some img) c
    = (Returned None, c1) /\
    chip_matches e c1 /\ c_wen c1 = true /\
    mem_bytes (c_mem c1) 0 (Z.to_nat (size e)) = img.
Proof.
  intros Ha Himg Hfit Hwords Hm Htw.
  unfold eeprom_write. cbn [cfg_eeprom config_of].
  rewrite Himg, Z.eqb_refl. cbn [negb].
  rewrite firstn_all2 by lia.
  rewrite Himg, Z.eqb_refl. cbn [negb].
  destruct Hm as (Hab & Hx & Hbusy).
  rewrite chip_enable_write by (try assumption; lia).
  cbn [Z.ltb Z.compare]. unfold eeprom_program_array.
  destruct (chip_program_loop e img ltac:(lia) Himg Hfit Hwords fuel
              (Z.to_nat (size e)) 0
              (chip_update c (c_mem c) true 0%nat))
    as (c1 & -> & Hm1 & Hwen1 & _ & Hmem1);
    try reflexivity; try exact Htw; try lia.
  - repeat split; assumption.
  - destruct (is_x16 e); lia.
  - exists c1. repeat split; try apply Hm1; assumption.
Qed.

(** C2, amended.  For a profile whose image fits the address space of
    its headers ([size] at most the word size times [2 ^ addr_bits], a
    whole number of words, 2 to 12 address bits), an image of [size]
    bytes, and the idle chip of that address width and organization: the
    write, given more fuel than a write cycle has polls, runs to its end,
    and the read that follows writes a file equal to the image, in
    16-bit mode with a stepped or a burst read and in 8-bit mode with a
    burst read. *)
Theorem write_then_read (fuel : nat) (e : eeprom) (img : list Z)
  (burst : bool) (c : chip) :
  2 <= addr_bits e <= 12 ->
  0 < size e ->
  Z.of_nat (List.length img) = size e ->
  size e <= (if is_x16 e then 2 else 1) * 2 ^ addr_bits e ->
  size e mod (if is_x16 e then 2 else 1) = 0 ->
  chip_matches e c -> (c_tw c < fuel)%nat ->
  is_x16 e = true \/ burst = true ->
  exists c1,
    eeprom_write fuel (config_of e EEPROM_WRITE burst) (Some img) c
    = (Returned None, c1) /\
    eeprom_read (config_of e EEPROM_READ burst) true c1
    = (None, Some img, c1).
Proof.
  intros Ha Hsize Himg Hfit Hwords Hm Htw Hmode.
  destruct (chip_eeprom_write fuel e img burst c Ha Himg Hfit Hwords Hm Htw)
    as (c1 & Hw & Hm1 & _ & Hmem1).
  exists c1. split; [exact Hw |].
  rewrite chip_eeprom_read_array by (try assumption; lia).
  rewrite Hmem1. reflexivity.
Qed.

(** C2 for the 93c06 in 16-bit mode, 32 bytes read back one word at a
    time. *)
Lemma write_then_read_witness :
  let img := map Z.of_nat (seq 100 32) in
  exists c1,
    eeprom_write 3 (config_of profile_93c06_x16 EEPROM_WRITE false) (Some img)
      (blank_chip 5 true) = (Returned None, c1) /\
    eeprom_read (config_of profile_93c06_x16 EEPROM_READ false) true c1
    = (None, Some img, c1).
Proof.
  intros img.
  apply (write_then_read 3 profile_93c06_x16 img false (blank_chip 5 true)).
  - simpl. lia.
  - simpl. lia.
  - reflexivity.
  - simpl. lia.
  - reflexivity.
  - repeat split.
  - simpl. lia.
  - left. reflexivity.
Defined.

(** In 16-bit mode a burst read and a stepped read of an idle chip of the
    profile give the same file, the array of the chip. *)
Lemma burst_is_stepped_x16 (e : eeprom) (c : chip) :
  2 <= addr_bits e <= 12 -> 0 < size e ->
  is_x16 e = true -> size e <= 2 * 2 ^ addr_bits e -> size e mod 2 = 0 ->
  chip_matches e c ->
  eeprom_read (config_of e EEPROM_READ true) true c
  = eeprom_read (config_of e EEPROM_READ false) true c.
Proof.
  intros Ha Hsize Hx Hfit Hwords Hm.
  rewrite !chip_eeprom_read_array;
    try assumption; try lia; try (rewrite Hx; assumption); auto.
Qed.

(** C6 on the code.  For the 93c46 in 8-bit mode and the chip whose cell
    [j] holds [j], the burst read gives the array, 0, 1, 2, ..., and the
    stepped read gives every byte of its first half twice, 0, 0, 1, 1,
    ...: the READ header made for offset [i] has [i] in a field one bit
    wider than the address, and the chip takes the field without its
    lowest bit as the address. *)
Theorem burst_differs_from_stepped_x8 :
  let c := numbered_chip 7 false in
  sanitize_input (config_of profile_93c46_x8 EEPROM_READ false) = None /\
  snd (fst (eeprom_read (config_of profile_93c46_x8 EEPROM_READ true) true c))
  = Some (map Z.of_nat (seq 0 128)) /\
  snd (fst (eeprom_read (config_of profile_93c46_x8 EEPROM_READ false) true c))
  = Some (map (fun k => Z.of_nat k / 2) (seq 0 128)) /\
  snd (fst (eeprom_read (config_of profile_93c46_x8 EEPROM_READ true) true c))
  <> snd (fst (eeprom_read (config_of profile_93c46_x8 EEPROM_READ false)
                 true c)).
Proof.
  intros c.
  assert (Hb : snd (fst (eeprom_read
                           (config_of profile_93c46_x8 EEPROM_READ true) true c))
               = Some (map Z.of_nat (seq 0 128)))
    by (vm_compute; reflexivity).
  assert (Hs : snd (fst (eeprom_read
                           (config_of profile_93c46_x8 EEPROM_READ false) true c))
               = Some (map (fun k => Z.of_nat k / 2) (seq 0 128)))
    by (vm_compute; reflexivity).
  split; [reflexivity |]. split; [exact Hb |]. split; [exact Hs |].
  rewrite Hb, Hs. vm_compute. discriminate.
Qed.

(** ** The model of the loops *)

(** The iteration bound of the read loop is never what stops it: with a
    positive step, a larger bound gives the same result. *)
Lemma eeprom_read_loop_bound {D : Type} {bus : SpiBus D} (n k : nat)
  (e : eeprom) (step i : Z) (buf : list Z) (d : D) :
  0 < step -> size e - i <= Z.of_nat n ->
  eeprom_read_loop (n + k) e step i buf d = eeprom_read_loop n e step i buf d.
Proof.
  intros Hs. revert i buf d. induction n as [| n IH]; intros i buf d Hn.
  - destruct k as [| k]; [reflexivity |].
    cbn [Nat.add eeprom_read_loop].
    replace (i <? size e) with false by (symmetry; apply Z.ltb_ge; lia).
    reflexivity.
  - cbn [Nat.add eeprom_read_loop].
    destruct (i <? size e); [| reflexivity].
    destruct (read_data e step i d) as [[ret rx] d'].
    destruct (ret <? 0); [reflexivity |]. apply IH. lia.
Qed.

(** The same for the write loop. *)
Lemma eeprom_program_loop_bound {D : Type} {bus : SpiBus D} (fuel n k : nat)
  (e : eeprom) (step i : Z) (data : list Z) (d : D) :
  0 < step -> size e - i <= Z.of_nat n ->
  eeprom_program_loop fuel (n + k) e step i data d
  = eeprom_program_loop fuel n e step i data d.
Proof.
  intros Hs. revert i d. induction n as [| n IH]; intros i d Hn.
  - destruct k as [| k]; [reflexivity |].
    cbn [Nat.add eeprom_program_loop].
    replace (i <? size e) with false by (symmetry; apply Z.ltb_ge; lia).
    reflexivity.
  - cbn [Nat.add eeprom_program_loop].
    destruct (i <? size e); [| reflexivity].
    destruct (write_data e (i / step) (skipn (Z.to_nat i) data) step d)
      as [ret d1].
    destruct (ret <? 0); [reflexivity |].
    destruct (wait_ready fuel e d1) as [ready d2].
    destruct ready; [| reflexivity]. apply IH. lia.
Qed.

(** More fuel does not change a ready poll that has ended. *)
Lemma wait_ready_more_fuel {D : Type} {bus : SpiBus D} (fuel k : nat)
  (e : eeprom) (d : D) :
  fst (wait_ready fuel e d) = true ->
  wait_ready (fuel + k) e d = wait_ready fuel e d.
Proof.
  revert d. induction fuel as [| fuel IH]; intros d H; [discriminate |].
  cbn [Nat.add wait_ready] in *.
  destruct (read_status e d) as [status d'].
  destruct (status =? 255); [reflexivity |]. now apply IH.
Qed.

(** Every profile of the catalog that [sanitize_input] lets through has
    an image that fits the address space of its headers. *)
Lemma catalog_profiles_fit (opts : list getopt_result) (cfg : eeprom_cfg) :
  main_profile opts = inr cfg -> has_type opts = true ->
  sanitize_input cfg = None ->
  let e := cfg_eeprom cfg in
  2 <= addr_bits e <= 12 /\ 0 < size e /\
  size e <= (if is_x16 e then 2 else 1) * 2 ^ addr_bits e /\
  size e mod (if is_x16 e then 2 else 1) = 0.
Proof.
  unfold main_profile.
  destruct (main_options main_init opts) as [code | m] eqn:Em;
    [discriminate |].
  apply main_options_locals in Em.
  destruct Em as (Hx & Ht & Hp & Hn & _). cbn in Hx, Ht, Hp, Hn.
  unfold main_finalize. rewrite Ht, Hp, Hx, Hn.
  intros H Htype. rewrite Htype in H.
  destruct (has_parameter opts); [discriminate |]. cbn [andb] in H.
  destruct (eeprom_find (user_type opts "")) as [entry |] eqn:Ef;
    [| discriminate].
  injection H as <-.
  pose proof (eeprom_find_from_in _ _ _ Ef) as [Hin Hsz].
  cbn in Hin.
  destruct Hin as [<- | [<- | [<- | [<- | [<- | []]]]]];
    destruct (has_x16 opts); cbn; intros Hsan;
    try discriminate Hsan; try (now contradiction Hsz);
    repeat split; try lia; discriminate.
Qed.

(** ** More on the header encoder *)

(** X1.  Decoding a header: where the command fits in 16 bits, the value
    of the two bytes has the start bit at position [bits + 2] and nothing
    above it, the opcode in the two bits below, and the address reduced
    modulo [2 ^ bits] in the low [bits] bits; an address in range is
    recovered unchanged. *)
Theorem header_fields (e : eeprom) (op addr dummy_bits : Z) :
  0 <= op < 4 -> 0 <= dummy_bits -> 0 <= addr_bits e ->
  addr_bits e + dummy_bits <= 13 ->
  let bits := addr_bits e + dummy_bits in
  let v := be_value (tx_bytes (prepare_cmd e op addr dummy_bits)) in
  Z.shiftr v (bits + 2) = 1 /\
  Z.land (Z.shiftr v bits) 3 = op /\
  Z.land v (Z.ones bits) = addr mod 2 ^ bits /\
  (0 <= addr < 2 ^ bits -> Z.land v (Z.ones bits) = addr).
Proof.
  intros Hop Hd Ha Hb bits v.
  assert (Hv : v = (op + 4) * 2 ^ bits + addr mod 2 ^ bits).
  { unfold v. rewrite be_value_header. now apply command_word_value. }
  assert (HP : 0 < 2 ^ bits) by (apply Z.pow_pos_nonneg; unfold bits; lia).
  assert (Hm : 0 <= addr mod 2 ^ bits < 2 ^ bits)
    by (apply Z.mod_pos_bound; lia).
  assert (Hlow : Z.land v (Z.ones bits) = addr mod 2 ^ bits).
  { rewrite Z.land_ones by (unfold bits; lia). rewrite Hv.
    rewrite Z.add_comm, Z.mod_add by lia. now apply Z.mod_small. }
  assert (Hdiv : v / 2 ^ bits = op + 4).
  { rewrite Hv, Z.div_add_l by lia. rewrite (Z.div_small _ _ Hm). lia. }
  split; [| split; [| split]].
  - rewrite Z.shiftr_div_pow2 by (unfold bits; lia).
    rewrite Z.pow_add_r by (unfold bits; lia).
    rewrite <- Z.div_div by lia. rewrite Hdiv.
    change (2 ^ 2) with 4. Z.div_mod_to_equations. lia.
  - rewrite Z.shiftr_div_pow2 by (unfold bits; lia). rewrite Hdiv.
    change 3 with (Z.ones 2). rewrite Z.land_ones by lia.
    change (2 ^ 2) with 4. Z.div_mod_to_equations. lia.
  - exact Hlow.
  - intros Hr. rewrite Hlow. now apply Z.mod_small.
Qed.

(** The WRITE header of the 93c46 for address 0x55. *)
Lemma header_fields_witness :
  let v := be_value (tx_bytes (prepare_cmd profile_93c46_x8 OPCODE_WRITE 85 0)) in
  Z.shiftr v 9 = 1 /\ Z.land (Z.shiftr v 7) 3 = OPCODE_WRITE /\
  Z.land v (Z.ones 7) = 85.
Proof.
  intros v.
  destruct (header_fields profile_93c46_x8 OPCODE_WRITE 85 0)
    as (H1 & H2 & _ & H4); try (unfold OPCODE_WRITE; simpl; lia).
  split; [exact H1 |]. split; [exact H2 |]. apply H4. simpl. lia.
Defined.

(** X2.  Two headers of one profile with the same dummy bit count are
    the same transfer exactly when their opcodes are equal and their
    addresses agree modulo [2 ^ bits]: distinct commands never share a
    header, and addresses are told apart up to the width of the field
    only. *)
Theorem header_injective (e : eeprom) (op1 op2 addr1 addr2 dummy_bits : Z) :
  0 <= op1 < 4 -> 0 <= op2 < 4 -> 0 <= dummy_bits -> 0 <= addr_bits e ->
  addr_bits e + dummy_bits <= 13 ->
  let bits := addr_bits e + dummy_bits in
  prepare_cmd e op1 addr1 dummy_bits = prepare_cmd e op2 addr2 dummy_bits
  <-> op1 = op2 /\ addr1 mod 2 ^ bits = addr2 mod 2 ^ bits.
Proof.
  intros Hop1 Hop2 Hd Ha Hb bits.
  assert (HP : 0 < 2 ^ bits) by (apply Z.pow_pos_nonneg; unfold bits; lia).
  pose proof (Z.mod_pos_bound addr1 (2 ^ bits) HP) as Hm1.
  pose proof (Z.mod_pos_bound addr2 (2 ^ bits) HP) as Hm2.
  pose proof (command_word_value e op1 addr1 dummy_bits Hop1 Hd Ha Hb) as H1.
  pose proof (command_word_value e op2 addr2 dummy_bits Hop2 Hd Ha Hb) as H2.
  fold bits in H1, H2.
  split.
  - intros Heq.
    apply (f_equal (fun x => be_value (tx_bytes x))) in Heq.
    rewrite !be_value_header, H1, H2 in Heq.
    assert (op1 = op2) by nia. subst op2. split; [reflexivity | lia].
  - intros [-> Hmod]. unfold prepare_cmd. rewrite H1, H2, Hmod. reflexivity.
Qed.

(** READ and WRITE at one address of the 93c46 differ; addresses 5 and
    5 + 128 give the same WRITE header. *)
Lemma header_injective_witness :
  prepare_cmd profile_93c46_x8 OPCODE_WRITE 5 0
  = prepare_cmd profile_93c46_x8 OPCODE_WRITE 133 0 /\
  prepare_cmd profile_93c46_x8 OPCODE_WRITE 5 0
  <> prepare_cmd profile_93c46_x8 OPCODE_EWEN 5 0.
Proof.
  split.
  - apply (header_injective profile_93c46_x8 OPCODE_WRITE OPCODE_WRITE 5 133 0);
      try (unfold OPCODE_WRITE; simpl; lia).
    split; reflexivity.
  - intros H.
    apply (header_injective profile_93c46_x8 OPCODE_WRITE OPCODE_EWEN 5 5 0)
      in H; try (unfold OPCODE_WRITE, OPCODE_EWEN; simpl; lia).
    destruct H as [H _]. discriminate H.
Defined.

(** ** The catalog lookup *)

(** [strcasecmp] sees its second argument through its lowered letters
    only. *)
Lemma strcasecmp_lower (a t t' : string) :
  lower t = lower t' -> strcasecmp a t = strcasecmp a t'.
Proof.
  revert t t'. induction a as [| c a IH]; intros t t' H;
    destruct t as [| ct t]; destruct t' as [| ct' t']; cbn in H;
    try discriminate H; try reflexivity;
    injection H as Hc Ht; cbn [strcasecmp]; rewrite Hc; try reflexivity.
  rewrite (IH t t' Ht). reflexivity.
Qed.

(** X3.  The lookup does not see the case of letters: two type names
    with the same lowered letters find the same entry, or both none. *)
Theorem eeprom_find_ignores_case (type type' : string) :
  lower type = lower type' -> eeprom_find type = eeprom_find type'.
Proof.
  intros H. unfold eeprom_find.
  induction eeprom_types_list as [| e l IH]; [reflexivity |].
  cbn [eeprom_find_from]. rewrite (strcasecmp_lower _ _ _ H), IH.
  reflexivity.
Qed.

Lemma eeprom_find_ignores_case_witness :
  eeprom_find "93C46" = eeprom_find "93c46" /\
  exists e, eeprom_find "93C46" = Some e /\ size e = 128.
Proof.
  split.
  - apply (eeprom_find_ignores_case "93C46" "93c46"). reflexivity.
  - eexists. split; reflexivity.
Defined.

(** The entry found matches the type. *)
Lemma eeprom_find_from_match (l : list eeprom) (type : string) (e : eeprom) :
  eeprom_find_from l type = Some e -> strcasecmp (name e) type = 0.
Proof.
  induction l as [| e0 l IH]; cbn [eeprom_find_from]; [discriminate |].
  destruct (size e0 =? 0); [discriminate |].
  destruct (strcasecmp (name e0) type =? 0) eqn:E.
  - intros H. injection H as <-. now apply Z.eqb_eq.
  - exact IH.
Qed.

(** Two names of the same length without a NUL character that match one
    type have the same lowered letters. *)
Lemma strcasecmp_same_target (a b t : string) :
  Forall (fun z => z <> 0) (lower a) -> Forall (fun z => z <> 0) (lower b) ->
  String.length a = String.length b ->
  strcasecmp a t = 0 -> strcasecmp b t = 0 -> lower a = lower b.
Proof.
  revert b t. induction a as [| ca a IH]; intros b t Hna Hnb Hlen Ha Hb;
    destruct b as [| cb b]; try discriminate Hlen; [reflexivity |].
  unfold lower in Hna, Hnb. cbn [list_ascii_of_string map] in Hna, Hnb.
  inversion Hna as [| ? ? Hca Hna']. inversion Hnb as [| ? ? Hcb Hnb']. subst.
  destruct t as [| ct t]; cbn [strcasecmp] in Ha, Hb; [contradiction |].
  destruct (tolower ca - tolower ct =? 0) eqn:Ea; [| apply Z.eqb_neq in Ea; lia].
  destruct (tolower cb - tolower ct =? 0) eqn:Eb; [| apply Z.eqb_neq in Eb; lia].
  apply Z.eqb_eq in Ea, Eb.
  unfold lower. cbn [list_ascii_of_string map]. f_equal; [lia |].
  apply (IH b t); try assumption. cbn in Hlen. lia.
Qed.

(** X4.  The lookup is exact and complete: it returns an entry exactly
    when that entry is one of the catalog with a size other than 0 (the
    terminating entry is never returned) whose name matches the type up
    to the case of letters. *)
Theorem eeprom_find_spec (type : string) (e : eeprom) :
  eeprom_find type = Some e
  <-> In e eeprom_types_list /\ size e <> 0 /\ strcasecmp (name e) type = 0.
Proof.
  split.
  - intros H. destruct (eeprom_find_from_in _ _ _ H) as [Hin Hs].
    split; [exact Hin |]. split; [exact Hs |].
    exact (eeprom_find_from_match _ _ _ H).
  - intros (Hin & Hs & Hm).
    assert (Hdist : forall e', In e' eeprom_types_list -> size e' <> 0 ->
                      strcasecmp (name e') type = 0 -> e' = e).
    { intros e' Hin' Hs' Hm'.
      assert (Hl : lower (name e') = lower (name e)).
      { cbn in Hin, Hin'.
        destruct Hin as [<- | [<- | [<- | [<- | [<- | []]]]]];
          try (now contradiction Hs);
          destruct Hin' as [<- | [<- | [<- | [<- | [<- | []]]]]];
          try (now contradiction Hs');
          (apply (strcasecmp_same_target _ _ type);
           [ cbn; repeat constructor; discriminate
           | cbn; repeat constructor; discriminate
           | reflexivity | exact Hm' | exact Hm ]). }
      cbn in Hin, Hin'.
      destruct Hin as [<- | [<- | [<- | [<- | [<- | []]]]]];
        try (now contradiction Hs);
        destruct Hin' as [<- | [<- | [<- | [<- | [<- | []]]]]];
        try (now contradiction Hs');
        try reflexivity; vm_compute in Hl; discriminate Hl. }
    unfold eeprom_find, eeprom_types_list.
    cbn [eeprom_find_from size name Z.eqb Pos.eqb].
    repeat match goal with
           | |- context [strcasecmp ?n type =? 0] =>
               destruct (strcasecmp n type =? 0) eqn:?;
               [ f_equal; apply Hdist;
                 [ cbn; tauto | cbn; discriminate | now apply Z.eqb_eq ] | ]
           end.
    exfalso. cbn in Hin.
    destruct Hin as [<- | [<- | [<- | [<- | [<- | []]]]]];
      try (now contradiction Hs);
      cbn [name] in Hm; rewrite Hm in *; discriminate.
Qed.

(** The 93c56 is found under any spelling of its letter, and a type that
    is no part number is not found. *)
Lemma eeprom_find_spec_witness :
  (exists e, eeprom_find "93C56" = Some e /\ size e = 256 /\ addr_bits e = 8)
  /\ eeprom_find "24c02" = None.
Proof.
  split.
  - exists {| name := "93c56"; spi_fd := 0; size := 256; addr_bits := 8;
              flags := EEPROM_ORG; is_x16 := false |}.
    split; [| split; reflexivity].
    apply (eeprom_find_spec "93C56"). split; [cbn; tauto |].
    split; [discriminate | reflexivity].
  - reflexivity.
Defined.

(** ** Validation *)

(** The test [n & (n - 1)] of [sanitize_input]: it is 0 exactly for the
    powers of two. *)
Lemma land_pred_power_of_two (n : Z) :
  0 < n -> (Z.land n (n - 1) = 0 <-> exists k, 0 <= k /\ n = 2 ^ k).
Proof.
  intros Hn. split.
  - intros Hland. exists (Z.log2 n).
    pose proof (Z.log2_nonneg n) as Hk.
    split; [exact Hk |].
    destruct (Z.log2_spec n Hn) as [Hlo Hhi].
    destruct (Z.eq_dec n (2 ^ Z.log2 n)) as [Heq | Hne]; [exact Heq |].
    exfalso.
    assert (Hlog : Z.log2 (n - 1) = Z.log2 n)
      by (apply Z.log2_unique; [exact Hk | lia]).
    assert (Hbit : Z.testbit (Z.land n (n - 1)) (Z.log2 n) = true).
    { rewrite Z.land_spec, (Z.bit_log2 n Hn).
      rewrite <- Hlog. rewrite Z.bit_log2 by lia. reflexivity. }
    rewrite Hland, Z.bits_0 in Hbit. discriminate Hbit.
  - intros (k & Hk & ->).
    replace (2 ^ k - 1) with (Z.ones k) by (rewrite Z.ones_equiv; lia).
    rewrite Z.land_ones by exact Hk. apply Z.mod_same.
    apply Z.pow_nonzero; lia.
Qed.

(** X5.  What [sanitize_input] lets through: it returns -1 or reaches
    its end, and it reaches its end exactly when the size is a power of
    two, the address bits are 5 to 9, and the flags of the profile allow
    the organization selected.  A size that is no power of two, such as
    100 or 300, is rejected whatever the address bits. *)
Theorem sanitize_input_spec (cfg : eeprom_cfg) :
  0 <= size (cfg_eeprom cfg) ->
  let e := cfg_eeprom cfg in
  (sanitize_input cfg = None \/ sanitize_input cfg = Some (-1)) /\
  (sanitize_input cfg = None
   <-> (exists k, 0 <= k /\ size e = 2 ^ k) /\
       5 <= addr_bits e <= 9 /\
       Z.land (flags e) (if is_x16 e then EEPROM_X16 else EEPROM_X8) <> 0).
Proof.
  intros Hsize e. fold e in Hsize. unfold sanitize_input. fold e.
  destruct (size e =? 0) eqn:E0.
  { apply Z.eqb_eq in E0. split; [now right |].
    split; [discriminate |].
    intros ((k & Hk & Hpow) & _). rewrite E0 in Hpow.
    pose proof (Z.pow_pos_nonneg 2 k ltac:(lia) Hk). lia. }
  apply Z.eqb_neq in E0.
  pose proof (land_pred_power_of_two (size e) ltac:(lia)) as Hpow.
  destruct (Z.land (size e) (size e - 1) =? 0) eqn:Ep; cbn [negb].
  2:{ apply Z.eqb_neq in Ep. split; [now right |].
      split; [discriminate |]. intros (Hk & _).
      apply Hpow in Hk. contradiction. }
  apply Z.eqb_eq in Ep. apply Hpow in Ep.
  destruct (addr_bits e <? 5) eqn:E5; cbn [orb].
  { apply Z.ltb_lt in E5. split; [now right |].
    split; [discriminate | lia]. }
  apply Z.ltb_ge in E5.
  destruct (addr_bits e >? 9) eqn:E9.
  { rewrite Z.gtb_ltb in E9. apply Z.ltb_lt in E9. split; [now right |].
    split; [discriminate | lia]. }
  rewrite Z.gtb_ltb in E9. apply Z.ltb_ge in E9.
  destruct (is_x16 e); cbn [andb negb].
  - destruct (Z.land (flags e) EEPROM_X16 =? 0) eqn:Ef; cbn [negb].
    + apply Z.eqb_eq in Ef. split; [now right |].
      split; [discriminate |]. intros (_ & _ & Hf). contradiction.
    + apply Z.eqb_neq in Ef. split; [now left |].
      split; [intros _ | reflexivity].
      split; [exact Ep |]. split; [lia | exact Ef].
  - destruct (Z.land (flags e) EEPROM_X8 =? 0) eqn:Ef; cbn [negb].
    + apply Z.eqb_eq in Ef. split; [now right |].
      split; [discriminate |]. intros (_ & _ & Hf). contradiction.
    + apply Z.eqb_neq in Ef. split; [now left |].
      split; [intros _ | reflexivity].
      split; [exact Ep |]. split; [lia | exact Ef].
Qed.

(** A size of 300 bytes is rejected for 7 address bits; 128 bytes pass. *)
Lemma sanitize_input_spec_witness :
  sanitize_input
    (config_of {| name := "custom"; spi_fd := 0; size := 300; addr_bits := 7;
                  flags := EEPROM_ORG; is_x16 := false |} EEPROM_READ false)
  = Some (-1) /\
  sanitize_input (config_of profile_93c46_x8 EEPROM_READ false) = None.
Proof.
  split; [reflexivity |].
  destruct (sanitize_input_spec (config_of profile_93c46_x8 EEPROM_READ false))
    as [_ Hiff]; [simpl; lia |].
  apply Hiff. split; [exists 7; split; [lia | reflexivity] |].
  split; [simpl; lia | discriminate].
Defined.

(** ** The command line *)

(** The option loop ends without [exit] when no option asks for it. *)
Lemma main_options_no_exit (opts : list getopt_result) (m : main_locals) :
  has_exit opts = false -> exists m', main_options m opts = inr m'.
Proof.
  revert m. induction opts as [| o opts IH]; intros m H; [now exists m |].
  cbn [has_exit existsb] in H. apply orb_false_iff in H. destruct H as [Ho H].
  cbn [main_options].
  destruct o; try discriminate Ho; cbn [main_option]; apply IH; exact H.
Qed.

(** The other locals of [main] after the option loop. *)
Lemma main_options_fields (opts : list getopt_result) (m0 m : main_locals) :
  main_options m0 opts = inr m ->
  let e0 := cfg_eeprom (config m0) in
  let e := cfg_eeprom (config m) in
  size e = user_size opts (size e0) /\
  name e = name e0 /\ spi_fd e = spi_fd e0 /\ flags e = flags e0 /\
  negb (burst m =? 0) = negb (burst m0 =? 0) || has_burst opts /\
  action (config m) = user_action opts (action (config m0)).
Proof.
  revert m0. induction opts as [| o opts IH]; intros m0 H.
  - cbn in H. injection H as <-. cbn. rewrite orb_false_r. auto 10.
  - cbn [main_options] in H.
    destruct (main_option m0 o) as [code | m1] eqn:E; [discriminate |].
    specialize (IH m1 H). cbn zeta in IH.
    destruct IH as (Hs & Hn & Hfd & Hf & Hb & Ha).
    unfold has_burst, user_size, user_action. cbn [existsb fold_left].
    fold (has_burst opts).
    cbn zeta. rewrite Hs, Hn, Hfd, Hf, Hb, Ha. clear Hs Hn Hfd Hf Hb Ha H.
    destruct o; cbn in E; try discriminate; injection E as <-;
      cbn [burst config cfg_eeprom set_eeprom set_addr_bits set_size
           set_file_action size name spi_fd flags action];
      rewrite ?orb_false_r, ?orb_true_r;
      repeat split; try reflexivity;
      destruct (burst m0 =? 0); reflexivity.
Qed.

(** X6.  A help option, or an option [getopt_long] does not know, ends
    [main] where the option loop meets it, before anything is checked:
    [--help] with status 0 and the unknown option with [EXIT_FAILURE],
    whatever else the command line holds. *)
Theorem main_exit_options (before after : list getopt_result) :
  has_exit before = false ->
  main_profile (before ++ Opt_h :: after) = inl 0 /\
  main_profile (before ++ Opt_other :: after) = inl EXIT_FAILURE.
Proof.
  intros H. unfold main_profile.
  assert (Hloop : forall o m,
            main_options m (before ++ o :: after)
            = match main_options m before with
              | inl code => inl code
              | inr m' => main_options m' (o :: after)
              end).
  { intros o. clear H. induction before as [| b before IH]; intros m.
    - reflexivity.
    - cbn [app main_options]. destruct (main_option m b); [reflexivity |].
      apply IH. }
  rewrite !Hloop.
  destruct (main_options_no_exit before main_init H) as [m' ->].
  split; reflexivity.
Qed.

Lemma main_exit_options_witness :
  main_profile ([Opt_t "no such part"; Opt_b 3] ++ Opt_h :: [Opt_other])
  = inl 0 /\
  main_profile ([Opt_t "no such part"; Opt_b 3] ++ Opt_other :: [Opt_h])
  = inl EXIT_FAILURE.
Proof.
  split.
  - apply (main_exit_options [Opt_t "no such part"; Opt_b 3] [Opt_other]).
    reflexivity.
  - apply (main_exit_options [Opt_t "no such part"; Opt_b 3] [Opt_h]).
    reflexivity.
Defined.

(** X7.  Without such an option, [main] gives up before validation in
    two cases only, both with [EXIT_FAILURE]: a type given together with
    [-b] or [-s], in any order, and a type that is not in the catalog. *)
Theorem main_profile_rejects (opts : list getopt_result) :
  has_exit opts = false ->
  (forall code, main_profile opts = inl code -> code = EXIT_FAILURE) /\
  ((exists code, main_profile opts = inl code)
   <-> has_type opts && has_parameter opts = true \/
       (has_type opts = true /\ eeprom_find (user_type opts "") = None)).
Proof.
  intros H. unfold main_profile.
  destruct (main_options_no_exit opts main_init H) as [m Em]. rewrite Em.
  apply main_options_locals in Em.
  destruct Em as (Hx & Ht & Hp & Hn & _). cbn in Hx, Ht, Hp, Hn.
  unfold main_finalize. rewrite Ht, Hp, Hn.
  destruct (has_type opts); destruct (has_parameter opts); cbn [andb].
  - split; [intros code Hc; now injection Hc |].
    split; [intros _; now left | intros _; now exists EXIT_FAILURE].
  - destruct (eeprom_find (user_type opts "")) as [entry |].
    + split; [discriminate |].
      split; [intros [code Hc]; discriminate |].
      intros [Hc | [_ Hc]]; discriminate.
    + split; [intros code Hc; now injection Hc |].
      split; [intros _; right; now split | intros _; now exists EXIT_FAILURE].
  - split; [discriminate |].
    split; [intros [code Hc]; discriminate |].
    intros [Hc | [Hc _]]; discriminate.
  - split; [discriminate |].
    split; [intros [code Hc]; discriminate |].
    intros [Hc | [Hc _]]; discriminate.
Qed.

(** A size given before the type: the conflict is seen whatever the
    order. *)
Lemma main_profile_rejects_witness :
  main_profile [Opt_s 512; Opt_r "eeprom.bin"; Opt_t "93c66"]
  = inl EXIT_FAILURE.
Proof.
  destruct (main_profile_rejects [Opt_s 512; Opt_r "eeprom.bin"; Opt_t "93c66"])
    as [Hcode Hiff]; [reflexivity |].
  destruct (proj2 Hiff (or_introl eq_refl)) as [code Hc].
  rewrite Hc. f_equal. exact (Hcode code Hc).
Defined.

(** X8.  The profile of explicit geometry: with no type, [main] hands
    on the defaults (name custom, 256 bytes, 8 address bits, both
    organizations) with the size of the last [-s] reduced modulo 2^16 and
    the address bits of the last [-b] reduced modulo 2^8, in 16-bit mode
    exactly when [--x16] is given.  On both paths the action is that of
    the last of [-r], [-w] and [-e], none when there is none, and the
    read is a burst read exactly when [--burst-read] is given. *)
Theorem main_profile_custom (opts : list getopt_result) (cfg : eeprom_cfg) :
  main_profile opts = inr cfg ->
  action cfg = user_action opts NONE /\
  burst_read cfg = has_burst opts /\
  (has_type opts = false ->
   cfg_eeprom cfg
   = {| name := "custom"; spi_fd := 0; size := user_size opts 256;
        addr_bits := user_addr_bits opts 8; flags := EEPROM_ORG;
        is_x16 := has_x16 opts |}).
Proof.
  unfold main_profile.
  destruct (main_options main_init opts) as [code | m] eqn:Em;
    [discriminate |].
  pose proof (main_options_fields _ _ _ Em) as (Hs & Hn & Hfd & Hf & Hb & Ha).
  apply main_options_locals in Em.
  destruct Em as (Hx & Ht & Hp & _ & Hab).
  cbn in Hx, Ht, Hp, Hab, Hs, Hn, Hfd, Hf, Hb, Ha.
  unfold main_finalize. rewrite Ht, Hp, Hx, Hb.
  destruct (has_type opts).
  - destruct (has_parameter opts); [discriminate |]. cbn [andb].
    destruct (eeprom_find (eeprom_type m)); [| discriminate].
    intros H. injection H as <-. cbn. repeat split; try assumption.
    discriminate.
  - cbn [andb]. intros H. injection H as <-.
    cbn [action burst_read cfg_eeprom set_eeprom set_is_x16].
    split; [exact Ha |]. split; [reflexivity |]. intros _.
    unfold set_is_x16. rewrite Hs, Hab, Hn, Hfd, Hf. reflexivity.
Qed.

(** [-b 261 -s 65792 --x16 -e]: the numbers are cut to 5 address bits
    and 256 bytes, and the profile passes [sanitize_input]. *)
Lemma main_profile_custom_witness :
  exists cfg,
    main_profile [Opt_b 261; Opt_s 65792; Opt_x16; Opt_e] = inr cfg /\
    cfg_eeprom cfg
    = {| name := "custom"; spi_fd := 0; size := 256; addr_bits := 5;
         flags := EEPROM_ORG; is_x16 := true |} /\
    action cfg = EEPROM_ERASE /\
    sanitize_input cfg = None.
Proof.
  eexists. split; [vm_compute; reflexivity |].
  match goal with
  | |- cfg_eeprom ?c = _ /\ _ =>
      destruct (main_profile_custom
                  [Opt_b 261; Opt_s 65792; Opt_x16; Opt_e] c)
        as (Ha & _ & He)
  end.
  - vm_compute. reflexivity.
  - split; [exact (He eq_refl) |]. split; [exact Ha | reflexivity].
Defined.

(** X9.  A part of the catalog always passes the checks of size and
    address bits, also after the decrement for 16-bit mode: a profile
    taken from the catalog passes [sanitize_input] exactly when the flags
    of its entry allow the organization selected, which is every part in
    16-bit mode and every part but the 93c06 in 8-bit mode. *)
Theorem catalog_profile_accepted (opts : list getopt_result)
  (cfg : eeprom_cfg) :
  main_profile opts = inr cfg -> has_type opts = true ->
  (sanitize_input cfg = None
   <-> has_x16 opts = true \/ strcasecmp "93c06" (user_type opts "") <> 0).
Proof.
  unfold main_profile.
  destruct (main_options main_init opts) as [code | m] eqn:Em;
    [discriminate |].
  apply main_options_locals in Em.
  destruct Em as (Hx & Ht & Hp & Hn & _). cbn in Hx, Ht, Hp, Hn.
  unfold main_finalize. rewrite Ht, Hp, Hx, Hn.
  intros H Htype. rewrite Htype in H.
  destruct (has_parameter opts); [discriminate |]. cbn [andb] in H.
  destruct (eeprom_find (user_type opts "")) as [entry |] eqn:Ef;
    [| discriminate].
  injection H as <-.
  pose proof (eeprom_find_from_in _ _ _ Ef) as [Hin Hsz].
  pose proof (eeprom_find_from_match _ _ _ Ef) as Hm.
  assert (H06 : strcasecmp "93c06" (user_type opts "") = 0
                -> name entry = "93c06"%string).
  { intros H0.
    assert (Hl : lower (name entry) = lower "93c06").
    { cbn in Hin.
      destruct Hin as [<- | [<- | [<- | [<- | [<- | []]]]]];
        try (now contradiction Hsz);
        (apply (strcasecmp_same_target _ _ (user_type opts ""));
         [ cbn; repeat constructor; discriminate
         | cbn; repeat constructor; discriminate
         | reflexivity | exact Hm | exact H0 ]). }
    cbn in Hin.
    destruct Hin as [<- | [<- | [<- | [<- | [<- | []]]]]];
      try (now contradiction Hsz); try reflexivity;
      vm_compute in Hl; discriminate Hl. }
  cbn in Hin.
  destruct Hin as [<- | [<- | [<- | [<- | [<- | []]]]]];
    try (now contradiction Hsz);
    destruct (has_x16 opts); cbn;
    (split; [intros Hs; try discriminate Hs | intros [Hc | Hc]];
     try discriminate; try reflexivity; try (now left);
     try (right; intros H0; apply H06 in H0; discriminate H0);
     try (exfalso; apply Hc; exact Hm)).
Qed.

(** The 93c06 is taken in 16-bit mode and refused in 8-bit mode. *)
Lemma catalog_profile_accepted_witness :
  (exists cfg, main_profile [Opt_t "93C06"; Opt_x16; Opt_e] = inr cfg /\
               sanitize_input cfg = None) /\
  (exists cfg, main_profile [Opt_t "93C06"; Opt_e] = inr cfg /\
               sanitize_input cfg = Some (-1)).
Proof.
  split.
  - eexists. split; [vm_compute; reflexivity |].
    match goal with
    | |- sanitize_input ?c = None =>
        apply (catalog_profile_accepted [Opt_t "93C06"; Opt_x16; Opt_e] c)
    end; [vm_compute; reflexivity | reflexivity | now left].
  - eexists. split; [vm_compute; reflexivity | reflexivity].
Defined.

(** ** The transactions of a read *)

Lemma overlay_length (rx old : list Z) :
  List.length (overlay rx old) = List.length old.
Proof.
  revert rx. induction old as [| o old IH]; intros rx;
    destruct rx as [| r rx]; try reflexivity.
  cbn [overlay List.length]. now rewrite IH.
Qed.

(** Receiving never changes the size of the buffer. *)
Lemma deposit_length (buf rx : list Z) (off n : Z) :
  List.length (deposit buf off n rx) = List.length buf.
Proof.
  unfold deposit. rewrite length_app, overlay_length, <- length_app.
  now rewrite firstn_skipn.
Qed.




(** ** The transactions of a write and of an erase *)

(** X11.  The calls of [eeprom_program_array], on any bus: writes and
    status polls only, the writes being WRITE messages for the word
    addresses 0, 1, 2, ... in this order, the one for word [j] carrying
    the [step] bytes of the image at offset [j * step].  When the loop
    runs to its end every word below the size was written and no write
    failed.  A write that fails is the last call made (no poll, no
    further write), and then the loop has returned [EXIT_FAILURE],
    whatever the fuel; and the loop returns a value other than by running
    to its end only in that case. *)
Theorem eeprom_program_array_writes {D : Type} {bus : SpiBus D} (fuel : nat)
  (e : eeprom) (data : list Z) (d : D) :
  let step := if is_x16 e then 2 else 1 in
  let r := eeprom_program_array fuel e data (start_log d) in
  exists k,
    map ev_msg (filter is_write (journal (snd r)))
    = map (fun j => write_data_msg e (Z.of_nat j)
                      (skipn (Z.to_nat (Z.of_nat j * step)) data) step)
          (seq 0 k) /\
    Forall (fun ev => is_write ev = true \/ ev_msg ev = read_status_msg)
      (journal (snd r)) /\
    (forall j, (j < k)%nat -> Z.of_nat j * step < size e) /\
    (fst r = Returned None ->
     size e <= Z.of_nat k * step /\
     Forall (fun ev => 0 <= ev_ret ev) (filter is_write (journal (snd r)))) /\
    (forall v, fst r = Returned (Some v) ->
     v = EXIT_FAILURE /\
     exists evs w, journal (snd r) = evs ++ [w] /\
                   is_write w = true /\ ev_ret w < 0) /\
    (forall evs w rest,
       journal (snd r) = evs ++ w :: rest ->
       is_write w = true -> ev_ret w < 0 ->
       rest = [] /\ fst r = Returned (Some EXIT_FAILURE)).
Proof.
  intros step r.
  assert (Hstep : 0 < step) by (unfold step; destruct (is_x16 e); lia).
  destruct (eeprom_program_loop_journal e step data fuel (Z.to_nat (size e)) 0
              (start_log d) Hstep ltac:(lia))
    as (evs & k & Hj & Hmsg & Hkind & Hoff & Hres).
  change (eeprom_program_loop fuel (Z.to_nat (size e)) e step 0 data
            (start_log d)) with r in Hj, Hres.
  cbn [journal start_log app] in Hj.
  exists k. rewrite Hj. split.
  { rewrite Hmsg. apply map_ext. intros j. cbn [Z.add].
    rewrite Z.div_mul by lia. reflexivity. }
  split; [exact Hkind |].
  split; [intros j Hjk; specialize (Hoff j Hjk); lia |].
  split; [| split].
  - intros Hr. rewrite Hr in Hres. destruct Hres as [Hend Hok].
    split; [lia | exact Hok].
  - intros v Hr. rewrite Hr in Hres.
    destruct Hres as (Hv & evs' & w & Hevs & Hw & Hneg & _).
    split; [exact Hv |]. exists evs', w. auto.
  - intros a w rest Hsplit Hw Hneg.
    assert (Hin : Forall (fun ev => 0 <= ev_ret ev) (filter is_write evs)
                  -> False).
    { intros Hok. rewrite Hsplit, filter_app in Hok.
      apply Forall_app in Hok. destruct Hok as [_ Hok].
      cbn [filter] in Hok. rewrite Hw in Hok.
      inversion Hok as [| ? ? H0 _]; subst. lia. }
    destruct (fst r) as [[v |] |].
    + destruct Hres as (-> & evs' & w' & Hevs & _ & _ & Hok').
      split; [| reflexivity].
      rewrite Hevs in Hsplit.
      exact (failed_write_last evs' a rest w' w Hok' Hsplit Hw Hneg).
    + exfalso. apply Hin. apply Hres.
    + exfalso. apply Hin. apply Hres.
Qed.

(** On the bus that refuses data phases the first write fails, is the
    only call, and the loop returns [EXIT_FAILURE]; on the chip of the
    93c06 all 16 words are written. *)
Lemma eeprom_program_array_writes_witness :
  let img := repeat 170 32 in
  let bad := eeprom_program_array 3 profile_93c06_x16 img
               (start_log (mk_protected 0)) in
  let good := eeprom_program_array 3 profile_93c06_x16 img
                (start_log (chip_update (blank_chip 5 true) (fun _ => 255)
                              true 0%nat)) in
  (fst bad = Returned (Some EXIT_FAILURE) /\
   exists evs w, journal (snd bad) = evs ++ [w] /\
                 is_write w = true /\ ev_ret w < 0) /\
  (fst good = Returned None /\
   exists k, map ev_msg (filter is_write (journal (snd good)))
             = map (fun j => write_data_msg profile_93c06_x16 (Z.of_nat j)
                               (skipn (Z.to_nat (Z.of_nat j * 2)) img) 2)
                   (seq 0 k) /\ 32 <= Z.of_nat k * 2).
Proof.
  intros img bad good. split.
  - destruct (eeprom_program_array_writes 3 profile_93c06_x16 img
                (mk_protected 0)) as (k & _ & _ & _ & _ & Hfail & Hlast).
    assert (Hj : exists w, journal (snd bad) = [] ++ w :: []
                           /\ is_write w = true /\ ev_ret w < 0).
    { eexists. split; [vm_compute; reflexivity |].
      split; [reflexivity | reflexivity]. }
    destruct Hj as (w & Hj & Hw & Hneg).
    destruct (Hlast [] w [] Hj Hw Hneg) as [_ Hb].
    split; [exact Hb |]. exact (proj2 (Hfail EXIT_FAILURE Hb)).
  - assert (Hg : fst good = Returned None) by (vm_compute; reflexivity).
    split; [exact Hg |].
    destruct (eeprom_program_array_writes 3 profile_93c06_x16 img
                (chip_update (blank_chip 5 true) (fun _ => 255) true 0%nat))
      as (k & Hmsg & _ & _ & Hok & _).
    exists k. split; [exact Hmsg |]. exact (proj1 (Hok Hg)).
Defined.

(** X12.  What [eeprom_write] does with its file and with failures, on
    any bus.  An input file that cannot be opened or whose length is not
    the size of the profile ends the write with [EXIT_FAILURE] before any
    transfer.  Otherwise the first call is the write-enable command; the
    write returns [EXIT_FAILURE] exactly when that command fails, and
    then nothing else is sent.  A word write that fails later stops the
    programming but is not reported: [eeprom_write] ends as it does after
    a complete write. *)
Theorem eeprom_write_failures {D : Type} {bus : SpiBus D} (fuel : nat)
  (cfg : eeprom_cfg) (in_file : option (list Z)) (d : D) :
  let e := cfg_eeprom cfg in
  let r := eeprom_write fuel cfg in_file (start_log d) in
  ((in_file = None \/
    exists content, in_file = Some content /\
                    Z.of_nat (List.length content) <> size e) ->
   r = (Returned (Some EXIT_FAILURE), start_log d)) /\
  (forall content,
     in_file = Some content -> Z.of_nat (List.length content) = size e ->
     exists ev rest,
       journal (snd r) = ev :: rest /\
       ev_msg ev = send_command_msg e OPCODE_EWEN SUBCODE_EWEN /\
       (fst r = Returned (Some EXIT_FAILURE) <-> ev_ret ev < 0) /\
       (ev_ret ev < 0 -> rest = []) /\
       (0 <= ev_ret ev ->
        fst r = Polling \/ fst r = Returned None) /\
       (0 <= ev_ret ev ->
        fst (eeprom_program_array fuel e content
               (snd (enable_write e (start_log d))))
        = Returned (Some EXIT_FAILURE) ->
        fst r = Returned None)).
Proof.
  intros e r. split.
  - intros [-> | (content & -> & Hlen)]; [reflexivity |].
    unfold r, eeprom_write. fold e.
    apply Z.eqb_neq in Hlen. rewrite Hlen. reflexivity.
  - intros content -> Hlen. unfold r, eeprom_write. fold e.
    rewrite Hlen, Z.eqb_refl. cbn [negb].
    rewrite firstn_all2 by lia.
    rewrite Hlen, Z.eqb_refl. cbn [negb].
    unfold enable_write, send_command. rewrite logged_ioctl.
    set (msg := send_command_msg e OPCODE_EWEN SUBCODE_EWEN).
    destruct (ioctl (inner (start_log d)) (spi_fd e) msg) as [[ret rx] d1].
    cbn [fst snd start_log journal app].
    set (ev := mk_event (spi_fd e) msg ret rx).
    destruct (ret <? 0) eqn:Eret.
    + apply Z.ltb_lt in Eret. exists ev, []. cbn [fst snd journal ev_ret ev].
      repeat split; try reflexivity; try (intros; lia); auto.
    + apply Z.ltb_ge in Eret. unfold eeprom_program_array.
      destruct (eeprom_program_loop_logged fuel (Z.to_nat (size e)) e
                  (if is_x16 e then 2 else 1) 0 content (mk_logged [ev] d1))
        as (evs & -> & _).
      cbn [inner journal fst snd].
      exists ev, evs.
      destruct (fst (eeprom_program_loop fuel (Z.to_nat (size e)) e
                       (if is_x16 e then 2 else 1) 0 content d1))
        as [v |]; cbn [fst snd journal ev_ret ev app].
      * repeat split; try reflexivity; try (intros; lia); auto;
          try discriminate.
      * repeat split; try reflexivity; try (intros; lia); auto;
          try discriminate.
Qed.

(** On the bus that refuses data phases the write-enable command
    succeeds, the first word write fails, and [eeprom_write] ends like a
    complete write. *)
Lemma eeprom_write_failures_witness :
  let cfg := config_of profile_93c06_x16 EEPROM_WRITE false in
  let img := repeat 170 32 in
  fst (eeprom_program_array 3 profile_93c06_x16 img
         (snd (enable_write profile_93c06_x16 (start_log (mk_protected 0)))))
  = Returned (Some EXIT_FAILURE) /\
  fst (eeprom_write 3 cfg (Some img) (start_log (mk_protected 0)))
  = Returned None /\
  eeprom_write 3 cfg (Some [1; 2; 3]) (start_log (mk_protected 0))
  = (Returned (Some EXIT_FAILURE), start_log (mk_protected 0)).
Proof.
  intros cfg img.
  destruct (eeprom_write_failures 3 cfg (Some img) (mk_protected 0))
    as [_ Hok].
  destruct (Hok img eq_refl eq_refl) as (ev & rest & _ & _ & _ & _ & _ & Hsw).
  assert (Hp : fst (eeprom_program_array 3 profile_93c06_x16 img
                      (snd (enable_write profile_93c06_x16
                              (start_log (mk_protected 0)))))
               = Returned (Some EXIT_FAILURE)) by (vm_compute; reflexivity).
  split; [exact Hp |].
  split; [vm_compute; reflexivity |].
  destruct (eeprom_write_failures 3 cfg (Some [1; 2; 3]) (mk_protected 0))
    as [Hbad _].
  apply Hbad. right. exists [1; 2; 3]. split; [reflexivity |]. discriminate.
Defined.

(** X13.  The calls of [eeprom_erase], on any bus: the write-enable
    command, then the erase-all command, and nothing else; no status
    poll follows the erase.  When the write-enable command fails the
    erase-all command is not sent; the erase returns [EXIT_FAILURE]
    exactly when one of the two commands fails. *)
Theorem eeprom_erase_calls {D : Type} {bus : SpiBus D} (cfg : eeprom_cfg)
  (d : D) :
  let e := cfg_eeprom cfg in
  let r := eeprom_erase cfg (start_log d) in
  let enable := send_command_msg e OPCODE_EWEN SUBCODE_EWEN in
  let erase := send_command_msg e OPCODE_EWEN SUBCODE_ERAL in
  (map ev_msg (journal (snd r)) = [enable]
   \/ map ev_msg (journal (snd r)) = [enable; erase]) /\
  (map ev_msg (journal (snd r)) = [enable]
   <-> exists ev, journal (snd r) = [ev] /\ ev_ret ev < 0) /\
  (fst r = Some EXIT_FAILURE <-> Exists (fun ev => ev_ret ev < 0) (journal (snd r)))
  /\ (fst r = None \/ fst r = Some EXIT_FAILURE).
Proof.
  intros e r enable erase. unfold r, eeprom_erase. fold e.
  unfold enable_write, erase_all, send_command. rewrite logged_ioctl.
  fold enable.
  destruct (ioctl (inner (start_log d)) (spi_fd e) enable) as [[ret1 rx1] d1].
  cbn [fst snd start_log journal app].
  destruct (ret1 <? 0) eqn:E1.
  - apply Z.ltb_lt in E1. cbn [fst snd journal map ev_msg].
    split; [now left |]. split.
    + split; [intros _ | reflexivity]. eexists. split; [reflexivity | exact E1].
    + split; [| now right].
      split; [intros _; now constructor | reflexivity].
  - apply Z.ltb_ge in E1. rewrite logged_ioctl. fold erase.
    cbn [inner journal app].
    destruct (ioctl d1 (spi_fd e) erase) as [[ret2 rx2] d2].
    cbn [fst snd].
    assert (Hne : [enable; erase] <> [enable]) by discriminate.
    destruct (ret2 <? 0) eqn:E2; cbn [fst snd journal map ev_msg].
    + apply Z.ltb_lt in E2. split; [now right |]. split.
      * split; [intros H; now contradiction Hne |].
        intros (ev & H & _). discriminate H.
      * split; [| now right].
        split; [intros _ | reflexivity].
        apply Exists_cons_tl. now constructor.
    + apply Z.ltb_ge in E2. split; [now right |]. split.
      * split; [intros H; now contradiction Hne |].
        intros (ev & H & _). discriminate H.
      * split; [| now left].
        split; [discriminate |].
        intros H. inversion H as [? ? H1 | ? ? H1]; subst; cbn in H1; [lia |].
        inversion H1 as [? ? H2 | ? ? H2]; subst; cbn in H2; [lia |].
        inversion H2.
Qed.

(** ** The descriptor of the transfers *)

Section Descriptor.

Context {D : Type} {bus : SpiBus D}.
Variable e : eeprom.

(** Every call recorded so far was made on the descriptor of the
    profile. *)
Let on_fd (l : logged D) : Prop :=
  Forall (fun ev => ev_fd ev = spi_fd e) (journal l).

Lemma ioctl_on_fd (l : logged D) (msg : list spi_ioc_transfer) :
  on_fd l -> on_fd (snd (ioctl l (spi_fd e) msg)).
Proof.
  intros Hl. rewrite logged_ioctl. cbn [snd journal]. apply Forall_app.
  split; [exact Hl |]. constructor; [reflexivity | constructor].
Qed.

Lemma read_status_on_fd (l : logged D) :
  on_fd l -> on_fd (snd (read_status e l)).
Proof.
  intros Hl. pose proof (ioctl_on_fd l read_status_msg Hl) as H.
  unfold read_status.
  destruct (ioctl l (spi_fd e) read_status_msg) as [[ret rx] l']. exact H.
Qed.

Lemma write_data_on_fd (a : Z) (data : list Z) (n : Z) (l : logged D) :
  on_fd l -> on_fd (snd (write_data e a data n l)).
Proof.
  intros Hl. pose proof (ioctl_on_fd l (write_data_msg e a data n) Hl) as H.
  unfold write_data.
  destruct (ioctl l (spi_fd e) (write_data_msg e a data n)) as [[ret rx] l'].
  exact H.
Qed.

Lemma send_command_on_fd (op subop : Z) (l : logged D) :
  on_fd l -> on_fd (snd (send_command e op subop l)).
Proof.
  intros Hl. pose proof (ioctl_on_fd l (send_command_msg e op subop) Hl) as H.
  unfold send_command.
  destruct (ioctl l (spi_fd e) (send_command_msg e op subop)) as [[ret rx] l'].
  exact H.
Qed.

Lemma eeprom_read_loop_on_fd (n : nat) (step i : Z) (buf : list Z)
  (l : logged D) :
  on_fd l -> on_fd (snd (eeprom_read_loop n e step i buf l)).
Proof.
  revert i buf l. induction n as [| n IH]; intros i buf l Hl; [exact Hl |].
  cbn [eeprom_read_loop]. destruct (i <? size e); [| exact Hl].
  pose proof (ioctl_on_fd l (read_data_msg e step i) Hl) as H1.
  unfold read_data.
  destruct (ioctl l (spi_fd e) (read_data_msg e step i)) as [[ret rx] l1].
  cbn [snd] in H1. destruct (ret <? 0); [exact H1 |]. now apply IH.
Qed.

Lemma wait_ready_on_fd (fuel : nat) (l : logged D) :
  on_fd l -> on_fd (snd (wait_ready fuel e l)).
Proof.
  revert l. induction fuel as [| fuel IH]; intros l Hl; [exact Hl |].
  cbn [wait_ready].
  pose proof (read_status_on_fd l Hl) as H1.
  destruct (read_status e l) as [status l1]. cbn [snd] in H1.
  destruct (status =? 255); [exact H1 |]. now apply IH.
Qed.

Lemma eeprom_program_loop_on_fd (fuel n : nat) (step i : Z) (data : list Z)
  (l : logged D) :
  on_fd l -> on_fd (snd (eeprom_program_loop fuel n e step i data l)).
Proof.
  revert i l. induction n as [| n IH]; intros i l Hl; [exact Hl |].
  cbn [eeprom_program_loop]. destruct (i <? size e); [| exact Hl].
  pose proof (write_data_on_fd (i / step) (skipn (Z.to_nat i) data) step l Hl)
    as H1.
  destruct (write_data e (i / step) (skipn (Z.to_nat i) data) step l)
    as [ret l1].
  cbn [snd] in H1. destruct (ret <? 0); [exact H1 |].
  pose proof (wait_ready_on_fd fuel l1 H1) as H2.
  destruct (wait_ready fuel e l1) as [ready l2]. cbn [snd] in H2.
  destruct ready; [now apply IH | exact H2].
Qed.

End Descriptor.

(** X14.  Every transfer of a run goes to the descriptor
    [init_spi_master] returned, also for a profile copied from the
    catalog, whose own descriptor field is 0; and a run makes no transfer
    at all when the bus cannot be opened or when no action is asked
    for. *)
Theorem eeprom_run_descriptor {D : Type} {bus : SpiBus D} (fuel : nat)
  (cfg : eeprom_cfg) (spif : Z) (out_ok : bool) (in_file : option (list Z))
  (d : D) :
  let r := eeprom_run fuel cfg spif out_ok in_file (start_log d) in
  Forall (fun ev => ev_fd ev = spif) (journal (run_bus r)) /\
  (spif < 0 -> r = mk_run_result (Returned (Some EXIT_FAILURE)) None
                     (start_log d)) /\
  (0 <= spif -> action cfg = NONE ->
   r = mk_run_result (Returned (Some 0)) None (start_log d)).
Proof.
  intros r. split; [| split].
  - unfold r, eeprom_run.
    assert (H0 : Forall (fun ev => ev_fd ev = spif) (journal (start_log d)))
      by constructor.
    destruct (spif <? 0); [exact H0 |].
    fold (with_fd (cfg_eeprom cfg) spif).
    set (e := with_fd (cfg_eeprom cfg) spif).
    change spif with (spi_fd e) in H0 |- * at 1.
    cbn [action]. destruct (action cfg).
    + exact H0.
    + unfold eeprom_read. cbn [cfg_eeprom burst_read].
      destruct out_ok; cbn [negb]; [| exact H0].
      match goal with
      | |- context [eeprom_read_loop ?n e ?s ?i ?b ?l] =>
          pose proof (eeprom_read_loop_on_fd e n s i b l H0) as H1;
          destruct (eeprom_read_loop n e s i b l) as [[buf |] l1]
      end; exact H1.
    + unfold eeprom_erase. cbn [cfg_eeprom]. unfold enable_write, erase_all.
      pose proof (send_command_on_fd e OPCODE_EWEN SUBCODE_EWEN (start_log d)
                    H0) as H1.
      destruct (send_command e OPCODE_EWEN SUBCODE_EWEN (start_log d))
        as [ret l1].
      cbn [snd] in H1. destruct (ret <? 0); [exact H1 |].
      pose proof (send_command_on_fd e OPCODE_EWEN SUBCODE_ERAL l1 H1) as H2.
      destruct (send_command e OPCODE_EWEN SUBCODE_ERAL l1) as [ret2 l2].
      cbn [snd] in H2. destruct (ret2 <? 0); exact H2.
    + unfold eeprom_write. cbn [cfg_eeprom].
      destruct in_file as [content |]; [| exact H0].
      destruct (negb (Z.of_nat (List.length content) =? size e)); [exact H0 |].
      destruct (negb (Z.of_nat (List.length (firstn (Z.to_nat (size e)) content))
                      =? size e)); [exact H0 |].
      unfold enable_write.
      pose proof (send_command_on_fd e OPCODE_EWEN SUBCODE_EWEN (start_log d)
                    H0) as H1.
      destruct (send_command e OPCODE_EWEN SUBCODE_EWEN (start_log d))
        as [ret l1].
      cbn [snd] in H1. destruct (ret <? 0); [exact H1 |].
      unfold eeprom_program_array.
      match goal with
      | |- context [eeprom_program_loop ?f ?n e ?s ?i ?b ?l] =>
          pose proof (eeprom_program_loop_on_fd e f n s i b l H1) as H2;
          destruct (eeprom_program_loop f n e s i b l) as [[v |] l2]
      end; exact H2.
  - intros Hneg. unfold r, eeprom_run.
    replace (spif <? 0) with true by (symmetry; apply Z.ltb_lt; lia).
    reflexivity.
  - intros Hpos Hact. unfold r, eeprom_run.
    replace (spif <? 0) with false by (symmetry; apply Z.ltb_ge; lia).
    cbn [action]. rewrite Hact. reflexivity.
Qed.

(** An erase with the 93c66 of the catalog on descriptor 7. *)
Lemma eeprom_run_descriptor_witness :
  exists cfg,
    main_profile [Opt_t "93c66"; Opt_e] = inr cfg /\
    spi_fd (cfg_eeprom cfg) = 0 /\
    map ev_fd (journal (run_bus (eeprom_run 3 cfg 7 true None
                                   (start_log (blank_chip 9 false)))))
    = [7; 7] /\
    eeprom_run 3 cfg (-1) true None (start_log (blank_chip 9 false))
    = mk_run_result (Returned (Some EXIT_FAILURE)) None
        (start_log (blank_chip 9 false)).
Proof.
  eexists. split; [vm_compute; reflexivity |].
  split; [reflexivity |]. split; [vm_compute; reflexivity |].
  match goal with
  | |- eeprom_run 3 ?c _ _ _ _ = _ =>
      destruct (eeprom_run_descriptor 3 c (-1) true None (blank_chip 9 false))
        as (_ & Hneg & _)
  end.
  apply Hneg. lia.
Defined.

(** ** The file of a read *)

(** The read loop puts what it receives at its offset: when every
    transfer delivers [step] bytes, the buffer holds the bytes received
    in the order of the transfers. *)
Lemma eeprom_read_loop_concat {D : Type} {bus : SpiBus D} (e : eeprom)
  (step : Z) (n : nat) (i : Z) (buf : list Z) (l : logged D) :
  0 < step < 2 ^ 32 -> size e mod step = 0 ->
  0 <= i <= size e -> i mod step = 0 -> size e - i <= Z.of_nat n ->
  Z.of_nat (List.length buf) = size e ->
  exists evs,
    journal (snd (eeprom_read_loop n e step i buf l)) = journal l ++ evs /\
    (Forall (fun ev => List.length (ev_rx ev) = Z.to_nat step) evs ->
     forall buf', fst (eeprom_read_loop n e step i buf l) = Some buf' ->
     firstn (Z.to_nat (size e)) buf'
     = firstn (Z.to_nat i) buf ++ List.concat (map ev_rx evs)).
Proof.
  intros Hs Hwords. revert i buf l.
  induction n as [| n IH]; intros i buf l Hi Hmod Hn Hlen.
  - exists []. cbn. rewrite !app_nil_r. split; [reflexivity |].
    intros _ buf' H. injection H as <-. f_equal. lia.
  - cbn [eeprom_read_loop]. destruct (i <? size e) eqn:Elt.
    2:{ apply Z.ltb_ge in Elt. exists []. cbn. rewrite !app_nil_r.
        split; [reflexivity |].
        intros _ buf' H. injection H as <-. f_equal. lia. }
    apply Z.ltb_lt in Elt.
    assert (Hnext : i + step <= size e /\ (i + step) mod step = 0).
    { destruct (proj1 (Z.mod_divide i step ltac:(lia)) Hmod) as [q Hq].
      destruct (proj1 (Z.mod_divide (size e) step ltac:(lia)) Hwords)
        as [p Hp].
      assert (Hqp : q + 1 <= p) by nia.
      split; [nia |].
      apply Z.mod_divide; [lia |]. exists (q + 1). lia. }
    destruct Hnext as [Hnext Hmod'].
    unfold read_data. rewrite logged_ioctl.
    destruct (ioctl (inner l) (spi_fd e) (read_data_msg e step i))
      as [[ret rx] d'].
    cbn [fst snd].
    set (ev := mk_event (spi_fd e) (read_data_msg e step i) ret rx).
    destruct (ret <? 0).
    + exists [ev]. cbn [fst snd journal]. split; [reflexivity |].
      intros _ buf' H. discriminate H.
    + unfold uint32. rewrite (Z.mod_small step) by lia.
      destruct (IH (i + step) (deposit buf i step rx)
                  (mk_logged (journal l ++ [ev]) d'))
        as (evs & Hj & Hfile); try lia.
      { rewrite deposit_length. exact Hlen. }
      exists (ev :: evs). cbn [journal] in Hj.
      split; [rewrite Hj, <- app_assoc; reflexivity |].
      intros Hrx buf' Hbuf'.
      inversion Hrx as [| ? ? Hev Hevs]; subst. cbn [ev_rx ev] in Hev.
      rewrite (Hfile Hevs buf' Hbuf').
      destruct (deposit_firstn buf rx i step) as [_ Hfirst]; try lia.
      rewrite Hfirst. cbn [map List.concat ev_rx ev]. now rewrite <- app_assoc.
Qed.

(** X15.  The file of a read is what the bus delivered, in the order of
    the transfers: when the size is a whole number of steps and every
    transfer of the read delivers the [step] bytes asked for, the file is
    the bytes received, transfer after transfer; nothing of the fresh
    buffer reaches the file. *)
Theorem eeprom_read_file {D : Type} {bus : SpiBus D} (cfg : eeprom_cfg)
  (d : D) (file : list Z) :
  let e := cfg_eeprom cfg in
  let step := if burst_read cfg then size e
              else if is_x16 e then 2 else 1 in
  let r := eeprom_read cfg true (start_log d) in
  0 < size e < 2 ^ 32 -> size e mod step = 0 ->
  Forall (fun ev => List.length (ev_rx ev) = Z.to_nat step) (journal (snd r)) ->
  fst r = (None, Some file) ->
  file = List.concat (map ev_rx (journal (snd r))).
Proof.
  intros e step r Hsize Hwords.
  assert (Hstep : 0 < step < 2 ^ 32)
    by (unfold step; destruct (burst_read cfg); [exact Hsize |];
        destruct (is_x16 e); lia).
  destruct (eeprom_read_loop_concat e step (Z.to_nat (size e)) 0
              (malloc (size e)) (start_log d) Hstep Hwords)
    as (evs & Hj & Hfile); try lia.
  { apply Z.mod_0_l. lia. }
  { unfold malloc. rewrite repeat_length. lia. }
  cbn [journal start_log app] in Hj.
  assert (Hr : r = match eeprom_read_loop (Z.to_nat (size e)) e step 0
                           (malloc (size e)) (start_log d) with
                   | (None, d') => (Some EXIT_FAILURE, None, d')
                   | (Some buf', d') =>
                       (None, Some (firstn (Z.to_nat (size e)) buf'), d')
                   end) by reflexivity.
  destruct (eeprom_read_loop (Z.to_nat (size e)) e step 0 (malloc (size e))
              (start_log d)) as [[buf' |] l'];
    cbn [fst snd] in Hj, Hfile; rewrite Hr; cbn [fst snd];
    [| discriminate].
  subst evs. intros Hrx H. injection H as <-.
  exact (Hfile Hrx buf' eq_refl).
Qed.

(** The stepped read of the 93c06 from the chip whose cell [j] holds
    [j]: 16 transfers of 2 bytes, and the file is their bytes in order. *)
Lemma eeprom_read_file_witness :
  let cfg := config_of profile_93c06_x16 EEPROM_READ false in
  let r := eeprom_read cfg true (start_log (numbered_chip 5 true)) in
  fst r = (None, Some (map Z.of_nat (seq 0 32))) /\
  map Z.of_nat (seq 0 32) = List.concat (map ev_rx (journal (snd r))).
Proof.
  intros cfg r.
  assert (Hr : fst r = (None, Some (map Z.of_nat (seq 0 32))))
    by (vm_compute; reflexivity).
  split; [exact Hr |].
  apply (eeprom_read_file cfg (numbered_chip 5 true)).
  - simpl. lia.
  - reflexivity.
  - vm_compute. repeat constructor.
  - exact Hr.
Defined.
